(** * The host-provisioning job: units/provisioning_setup_host.go

    A shallow embedding of [setupHostJob] and of the functions it calls, and the
    properties of the job that the repository's specification states.

    The Go code drives one host through DNS resolution, agent installation,
    credential issuance, script and client deployment, and persists the
    outcome.  Every step talks to something outside the file (the cloud
    manager, the host collection of the database, ssh, the local file system,
    the job queue).  Those are modelled by a record of answers, [Deps], which
    every theorem quantifies over; what the job does with the answers is
    modelled by a state monad over [World]. *)

From Stdlib Require Import ZArith String Ascii List Lia DecimalString DecimalPos DecimalZ.
From stdpp Require Import base gmap strings list.
Import ListNotations.
Local Open Scope Z_scope.

(** ** Errors

    Go's [error] values, with the wrapping done by github.com/pkg/errors.
    A nil error is [None] (for a function returning [error]) or [Ok] (for a
    function returning a value and an error). *)

Inductive error :=
| errors_New (msg : string)
| errors_Wrap (cause : error) (msg : string)
| errors_WithStack (cause : error).

Inductive Res (A : Type) :=
| Ok (a : A)
| Err (e : error).
Arguments Ok {A} a.
Arguments Err {A} e.

(** [errors.Wrap(err, msg)]: nil stays nil. *)
Definition Wrap (oe : option error) (msg : string) : option error :=
  match oe with
  | None => None
  | Some e => Some (errors_Wrap e msg)
  end.

Definition is_Err {A} (r : Res A) : bool :=
  match r with Ok _ => false | Err _ => true end.

(** ** Time

    [time.Duration] and [time.Time] are counted in nanoseconds. *)

Definition Duration := Z.
Definition time_Second : Duration := 1000000000.
Definition time_Minute : Duration := 60 * time_Second.

(** ** Constants of the file *)

Definition provisionRetryLimit : Z := 15.
Definition setupHostJobName : string := "provisioning-setup-host".
Definition scpTimeout : Duration := time_Minute.

(** ** Data model *)

Module distro.

(** [distro.BootstrapSettings.Method].  The switch in [runHostSetup] names
    three methods and has no default case; [BootstrapMethodOther] stands for
    any value it does not name. *)
Inductive BootstrapMethod :=
| BootstrapMethodNone
| BootstrapMethodUserData
| BootstrapMethodSSH
| BootstrapMethodOther.

(** The fields of [distro.Distro] that the job reads.  [IsWindows],
    [IsPowerShellSetup] and [HomeDir] are methods of the distro in Go; here
    they are the values those methods yield. *)
Record Distro := mkDistro {
  Id : string;
  User : string;
  Method : BootstrapMethod;
  Setup : string;
  Teardown : string;
  WorkDir : string;
  IsWindows : bool;
  IsPowerShellSetup : bool;
  HomeDir : string
}.

End distro.

(** Modelled from the spec: the status constants of package evergreen are
    declared outside this file, which names two of them,
    [evergreen.HostRunning] and [evergreen.HostProvisioning].  The others are
    the statuses of the spec's data model (section 3) and the
    ProvisionedNotRunning of its sections 4.1 and 8. *)
Inductive HostStatus :=
| HostStarting
| HostProvisioning
| HostProvisioned
| HostRunning
| HostUnprovisioned
| HostTerminated
| HostProvisionedNotRunning.

Definition HostStatus_eqb (a b : HostStatus) : bool :=
  match a, b with
  | HostStarting, HostStarting
  | HostProvisioning, HostProvisioning
  | HostProvisioned, HostProvisioned
  | HostRunning, HostRunning
  | HostUnprovisioned, HostUnprovisioned
  | HostTerminated, HostTerminated
  | HostProvisionedNotRunning, HostProvisionedNotRunning => true
  | _, _ => false
  end.

Record ProvisionOptions := mkProvisionOptions {
  OwnerId : string;
  TaskId : string;
  LoadCLI : bool
}.

(** The fields of [host.Host] that the job reads or that its operations
    write.  [DNSName] is the field the Go struct calls [Host]; [SpawnedByTask]
    is [SpawnOptions.SpawnedByTask]; a nil [*ProvisionOptions] is [None]. *)
Record Host := mkHost {
  Id : string;
  DNSName : string;
  IP : string;
  User : string;
  Provider : string;
  Distro : distro.Distro;
  Status : HostStatus;
  Provisioned : bool;
  ProvisionAttempts : Z;
  SpawnedByTask : bool;
  ProvisionOpts : option ProvisionOptions;
  CreationTime : Z;
  ProvisionTime : Z;
  LastCommunicationTime : Z
}.

Definition set_DNSName (v : string) (h : Host) : Host :=
  mkHost (Id h) v (IP h) (User h) (Provider h) (Distro h) (Status h)
         (Provisioned h) (ProvisionAttempts h) (SpawnedByTask h)
         (ProvisionOpts h) (CreationTime h) (ProvisionTime h)
         (LastCommunicationTime h).

Definition set_Distro (v : distro.Distro) (h : Host) : Host :=
  mkHost (Id h) (DNSName h) (IP h) (User h) (Provider h) v (Status h)
         (Provisioned h) (ProvisionAttempts h) (SpawnedByTask h)
         (ProvisionOpts h) (CreationTime h) (ProvisionTime h)
         (LastCommunicationTime h).

Definition set_Status (v : HostStatus) (h : Host) : Host :=
  mkHost (Id h) (DNSName h) (IP h) (User h) (Provider h) (Distro h) v
         (Provisioned h) (ProvisionAttempts h) (SpawnedByTask h)
         (ProvisionOpts h) (CreationTime h) (ProvisionTime h)
         (LastCommunicationTime h).

Definition set_Provisioned (v : bool) (h : Host) : Host :=
  mkHost (Id h) (DNSName h) (IP h) (User h) (Provider h) (Distro h) (Status h)
         v (ProvisionAttempts h) (SpawnedByTask h)
         (ProvisionOpts h) (CreationTime h) (ProvisionTime h)
         (LastCommunicationTime h).

Definition set_ProvisionAttempts (v : Z) (h : Host) : Host :=
  mkHost (Id h) (DNSName h) (IP h) (User h) (Provider h) (Distro h) (Status h)
         (Provisioned h) v (SpawnedByTask h)
         (ProvisionOpts h) (CreationTime h) (ProvisionTime h)
         (LastCommunicationTime h).

Definition set_ProvisionTime (v : Z) (h : Host) : Host :=
  mkHost (Id h) (DNSName h) (IP h) (User h) (Provider h) (Distro h) (Status h)
         (Provisioned h) (ProvisionAttempts h) (SpawnedByTask h)
         (ProvisionOpts h) (CreationTime h) v
         (LastCommunicationTime h).

Definition set_LastCommunicationTime (v : Z) (h : Host) : Host :=
  mkHost (Id h) (DNSName h) (IP h) (User h) (Provider h) (Distro h) (Status h)
         (Provisioned h) (ProvisionAttempts h) (SpawnedByTask h)
         (ProvisionOpts h) (CreationTime h) (ProvisionTime h) v.

(** [util.StaticHostInfo], the result of [h.GetSSHInfo()]. *)
Record StaticHostInfo := mkStaticHostInfo {
  ssh_User : string;
  ssh_Hostname : string;
  ssh_Port : string
}.

(** The owner of a spawn host, [user.DBUser]. *)
Record DBUser := mkDBUser {
  user_Id : string;
  APIKey : string
}.

(** A Jasper credential bundle; its content is opaque to the job. *)
Definition Credentials := string.

(** The job that [NewHostSetupJob] builds and [tryRequeue] puts on the
    queue. *)
Record QueuedJob := mkQueuedJob {
  q_ID : string;
  q_HostID : string;
  q_host : Host;
  q_Priority : Z;
  q_WaitUntil : option Z
}.

(** ** What the job does to the outside *)

(** The operations of [host.Host] that write a field of the host document. *)
Inductive HostWrite :=
| IncProvisionAttempts
| SetDNSName (dns : string)
| UpdateLastCommunicated
| SetProvisionedNotRunning
| SetUnprovisioned
| MarkAsProvisioned.

Inductive CloudCall :=
| GetManagerOptions
| GetManager
| GetDNSName
| OnUp.

Inductive CredsCall :=
| GenerateJasperCredentials
| SaveJasperCredentials (c : Credentials)
| DeleteJasperCredentials.

Inductive FileCall :=
| TempFile (name : string)
| Chmod (name : string)
| WriteString (name content : string)
| Close (name : string)
| Remove (name : string)
| WriteTempFile (name : string).

Inductive DbRead :=
| host_FindOneId (id : string)
| user_FindOne (id : string)
| distro_FindOne (id : string).

(** A command run on, or against, the host. *)
Inductive Command :=
| RunSSHCommand (cmd : string) (opts : list string)
| RunSSHCommandLiterally (cmd : string) (opts : list string)
| JasperLocal (args : list string)
| JasperRemote (hostname user : string) (remoteArgs : list string) (line : string).

(** The call site a command is run from. *)
Inductive RemoteOp :=
| OpCredentialWrite
| OpServiceUserScriptCopy
| OpServiceUserRun
| OpFetchJasper
| OpDistroScriptCopy
| OpCliDirSetup
| OpClientDownload
| OpConfigTransfer
| OpSetupScriptRun
| OpTaskDataFetch.

Inductive AuditEvent :=
| LogHostProvisionError (hostId : string)
| LogProvisionFailed (hostId : string) (logs : string).

Inductive Level := LvDebug | LvInfo | LvNotice | LvError | LvCritical.

(** One entry per thing the job did, newest first.  A log entry keeps the
    level, the "message" (or "operation") field and the wrapped error. *)
Inductive Event :=
| EvLog (lvl : Level) (msg : string) (e : option error)
| EvDbRead (q : DbRead)
| EvCloud (c : CloudCall) (r : option error)
| EvHostWrite (op : HostWrite) (r : option error)
| EvAudit (a : AuditEvent)
| EvCreds (c : CredsCall) (r : option error)
| EvFile (f : FileCall) (r : option error)
| EvEnterCopyScript (name script : string)
| EvRemote (op : RemoteOp) (c : Command) (timeout : option Duration)
           (out : string) (r : option error)
| EvPut (job : QueuedJob) (r : option error).

Definition History := list Event.

(** Everything outside the job: what has happened so far, the credential
    store (keyed by host id) and the local temporary files that exist. *)
Record Sys := mkSys {
  trace : History;
  creds : gmap string Credentials;
  files : gset string
}.

(** What a running job works on: the host its [host] pointer refers to (the
    functions of the file all receive that same pointer), the errors added to
    the job with [AddError], and the outside. *)
Record World := mkWorld {
  host : Host;
  job_errors : list error;
  sys : Sys
}.

(** [setupHostJob], with the parts of [job.Base] the file touches. *)
Record setupHostJob := mkJob {
  HostID : string;
  JobID : string;
  TaskID : string;
  j_host : option Host;
  j_errors : list error;
  j_complete : bool
}.

(** ** The answers of the outside

    Code of other packages, and the machine the job runs on.  Each answer may
    depend on everything that happened so far, so two calls of the same
    operation may answer differently. *)
Record Deps := mkDeps {
  (* package evergreen *)
  SetupScriptName : string;
  PowerShellSetupScriptName : string;
  TeardownScriptName : string;
  ApiUrl : string;
  UiUrl : string;
  (* context, clock *)
  ctx_Err : History -> option error;
  time_Now : History -> Z;
  (* database *)
  FindOneId : History -> string -> Res (option Host);
  userFindOne : History -> string -> Res DBUser;       (* a user, or an error *)
  distroFindOne : History -> string -> Res distro.Distro;
  persist : History -> Host -> HostWrite -> option error;
  (* cloud manager *)
  cloud : History -> Host -> CloudCall -> option error;
  cloudDNSName : History -> Host -> string;
  (* host.Host helpers that compute commands and ssh settings *)
  GetSSHInfo : History -> Host -> Res StaticHostInfo;
  GetSSHOptions : History -> Host -> Res (list string);
  WriteJasperCredentialsFilesCommands : History -> Host -> Credentials -> Res string;
  SetupServiceUserCommands : History -> Host -> Res string;
  FetchAndReinstallJasperCommands : Host -> string;
  CurlCommand : Host -> string;
  SetupCommand : Host -> string;
  (* credentials *)
  newCredentials : History -> Host -> Credentials;
  credsResult : History -> Host -> CredsCall -> option error;
  (* commands *)
  run : History -> Host -> Command -> option Duration -> string * option error;
  (* local files and text *)
  tempName : History -> string -> string;
  fileResult : History -> FileCall -> option error;
  ExpandString : History -> string -> Res string;
  json_Marshal : string -> string -> string -> string -> Res string;
  (* queue *)
  Started : History -> bool;
  Put : History -> QueuedJob -> option error
}.

(** ** Strings the job builds *)

(** [fmt.Sprintf("%d", n)]. *)
Definition fmt_d (n : Z) : string := NilZero.string_of_int (Z.to_int n).

Definition slash : ascii := "/"%char.

Fixpoint strip_slashes (l : list ascii) : list ascii :=
  match l with
  | c :: l' => if Ascii.eqb c slash then strip_slashes l' else l
  | [] => []
  end.

Fixpoint last_element (l : list ascii) : list ascii :=
  match l with
  | c :: l' => if Ascii.eqb c slash then [] else c :: last_element l'
  | [] => []
  end.

(** The double-quote character, as a string. *)
Definition dquote : string := String (ascii_of_nat 34%nat) EmptyString.

(** [filepath.Base]: the last element of the path, after trailing slashes
    are dropped; "." for the empty path and "/" for a path of slashes. *)
Definition filepath_Base (path : string) : string :=
  if String.eqb path "" then "."
  else
    let r := strip_slashes (rev (list_ascii_of_string path)) in
    match r with
    | [] => "/"
    | _ => string_of_list_ascii (rev (last_element r))
    end.

(** [filepath.Join(dir, name)] for the two non-empty, clean elements the file
    passes. *)
Definition filepath_Join (dir name : string) : string := dir +:+ "/" +:+ name.

(** ** The state monad of the job *)

Definition M (A : Type) : Type := World -> A * World.

Definition ret {A} (a : A) : M A := fun w => (a, w).

Definition bind {A B} (m : M A) (k : A -> M B) : M B :=
  fun w => k (fst (m w)) (snd (m w)).

Notation "x <- m ;; k" := (bind m (fun x => k))
  (at level 100, m at next level, right associativity).
Notation "m ;; k" := (bind m (fun _ => k))
  (at level 100, right associativity).

Definition get_host : M Host := fun w => (host w, w).

Definition history : M History := fun w => (trace (sys w), w).

Definition modify_host (f : Host -> Host) : M unit :=
  fun w => (tt, mkWorld (f (host w)) (job_errors w) (sys w)).

Definition modify_sys (f : Sys -> Sys) : M unit :=
  fun w => (tt, mkWorld (host w) (job_errors w) (f (sys w))).

Definition emit (ev : Event) : M unit :=
  modify_sys (fun s => mkSys (ev :: trace s) (creds s) (files s)).

Definition modify_creds (f : gmap string Credentials -> gmap string Credentials) : M unit :=
  modify_sys (fun s => mkSys (trace s) (f (creds s)) (files s)).

Definition modify_files (f : gset string -> gset string) : M unit :=
  modify_sys (fun s => mkSys (trace s) (creds s) (f (files s))).

(** [j.AddError(err)]: a nil error is not recorded. *)
Definition AddError (oe : option error) : M unit :=
  match oe with
  | None => ret tt
  | Some e => fun w => (tt, mkWorld (host w) (job_errors w ++ [e]) (sys w))
  end.

(** [grip.Info(message.Fields{...})] and its siblings. *)
Definition grip (lvl : Level) (msg : string) : M unit := emit (EvLog lvl msg None).

(** [grip.Error(message.WrapError(err, ...))] and its siblings: nothing is
    logged for a nil error. *)
Definition grip_WrapError (lvl : Level) (oe : option error) (msg : string) : M unit :=
  match oe with
  | None => ret tt
  | Some e => emit (EvLog lvl msg (Some e))
  end.

Definition to_Res (oe : option error) : Res unit :=
  match oe with
  | None => Ok tt
  | Some e => Err e
  end.

(** *** Contexts

    A context is the timeout this file has put on it, if any:
    [context.WithTimeout] keeps the earlier of the two deadlines. *)
Definition Context := option Duration.

Definition WithTimeout (ctx : Context) (d : Duration) : Context :=
  match ctx with
  | None => Some d
  | Some d' => Some (Z.min d' d)
  end.

(** Modelled from the spec: the operations of [host.Host] that mutate the host
    (increment-attempts, set-DNS, set-provisioned-not-running,
    set-unprovisioned, mark-provisioned, update-last-communicated, spec
    section 3) are defined in package model/host, outside this file.  Each
    sets the field the spec names: set-provisioned-not-running "set
    ProvisionedNotRunning" (4.4), set-unprovisioned "persist Unprovisioned"
    (4.1), mark-provisioned "persist provisioned=true with timestamp", giving
    status Provisioned (4.1, scenario A).  The attempt count is an
    integer that is only ever incremented ("monotonic non-decreasing"). *)
Definition apply_write (now : Z) (op : HostWrite) (h : Host) : Host :=
  match op with
  | IncProvisionAttempts => set_ProvisionAttempts (ProvisionAttempts h + 1) h
  | SetDNSName dns => set_DNSName dns h
  | UpdateLastCommunicated => set_LastCommunicationTime now h
  | SetProvisionedNotRunning => set_Status HostProvisionedNotRunning h
  | SetUnprovisioned => set_Status HostUnprovisioned h
  | MarkAsProvisioned =>
      set_ProvisionTime now (set_Provisioned true (set_Status HostProvisioned h))
  end.

(** Modelled from the spec: whether the host struct carries the new value
    when the database write of a [host.Host] operation fails.  The attempt
    count does: the spec has the job "persist an incremented attempt count"
    and test the already incremented count whether or not persisting it
    worked (4.1 steps 3 and 5).  For the other operations a failed write
    leaves the host as it was. *)
Definition kept_on_failure (op : HostWrite) : bool :=
  match op with
  | IncProvisionAttempts => true
  | _ => false
  end.

Definition shouldRetryProvisioning (h : Host) : bool :=
  (ProvisionAttempts h <=? provisionRetryLimit)
  && HostStatus_eqb (Status h) HostProvisioning
  && negb (Provisioned h).

Definition NewHostSetupJob (h : Host) (id : string) : QueuedJob :=
  mkQueuedJob (setupHostJobName +:+ "." +:+ Id h +:+ "." +:+ id) (Id h) h 1 None.

(** [job.UpdateTimeInfo(amboy.JobTimeInfo{WaitUntil: t})]. *)
Definition UpdateTimeInfo (t : Z) (q : QueuedJob) : QueuedJob :=
  mkQueuedJob (q_ID q) (q_HostID q) (q_host q) (q_Priority q) (Some t).

(** loadClientResult indicates the locations on a target host where the CLI
    binary and its config file have been written to. *)
Record loadClientResult := mkLoadClientResult {
  BinaryPath : string;
  ConfigPath : string
}.

Section Job.

Variable D : Deps.

(** Modelled from the spec: a mutating operation of [host.Host] (package
    model/host) writes its field to the host document, which may fail (spec
    7c: a persistence error on a bookkeeping field), and returns that error;
    when the write succeeds the host carries the new value. *)
Definition host_write (op : HostWrite) : M (option error) :=
  hs <- history ;;
  h <- get_host ;;
  let r := persist D hs h op in
  emit (EvHostWrite op r) ;;
  (match r with
   | None => modify_host (apply_write (time_Now D hs) op)
   | Some _ =>
       if kept_on_failure op
       then modify_host (apply_write (time_Now D hs) op)
       else ret tt
   end) ;;
  ret r.

(** A call of the cloud manager (or of the functions that build it). *)
Definition cloud_call (c : CloudCall) : M (option error) :=
  hs <- history ;;
  h <- get_host ;;
  let r := cloud D hs h c in
  emit (EvCloud c r) ;;
  ret r.

(** [cloudMgr.GetDNSName(ctx, host)]. *)
Definition cloudMgr_GetDNSName : M (Res string) :=
  hs <- history ;;
  h <- get_host ;;
  r <- cloud_call GetDNSName ;;
  ret (match r with
       | None => Ok (cloudDNSName D hs h)
       | Some e => Err e
       end).

Definition setDNSName : M (Res unit) :=
  h <- get_host ;;
  if negb (String.eqb (DNSName h) "") then ret (Ok tt)
  else
    (* get the DNS name for the host *)
    r <- cloudMgr_GetDNSName ;;
    match r with
    | Err e =>
        ret (Err (errors_Wrap e ("error checking DNS name for host " +:+ Id h)))
    | Ok hostDNS =>
        (* sanity check for the host DNS name *)
        if String.eqb hostDNS "" then
          (* DNS name not required if IP address set *)
          if negb (String.eqb (IP h) "") then ret (Ok tt)
          else ret (Err (errors_New
                 ("instance " +:+ Id h +:+
                  " is running but not returning a DNS name or IP address")))
        else
          (* update the host's DNS name *)
          e <- host_write (SetDNSName hostDNS) ;;
          match e with
          | Some e =>
              ret (Err (errors_Wrap e ("error setting DNS name for host " +:+ Id h)))
          | None => ret (Ok tt)
          end
    end.

(** *** Calls to the outside *)

(** Runs a command under the context [ctx]; the answer is the captured
    output and the error. *)
Definition run_command (op : RemoteOp) (c : Command) (ctx : Context)
  : M (string * option error) :=
  hs <- history ;;
  h <- get_host ;;
  let r := run D hs h c ctx in
  emit (EvRemote op c ctx (fst r) (snd r)) ;;
  ret r.

(** A local file operation.  Creating a temporary file that succeeds adds
    the file; removing one that succeeds deletes it. *)
Definition file_call (f : FileCall) : M (option error) :=
  hs <- history ;;
  let r := fileResult D hs f in
  emit (EvFile f r) ;;
  (match r, f with
   | None, TempFile name | None, WriteTempFile name =>
       modify_files (fun fs => {[name]} ∪ fs)
   | None, Remove name => modify_files (fun fs => fs ∖ {[name]})
   | _, _ => ret tt
   end) ;;
  ret r.

(** [ioutil.TempFile("", pattern)]: the name of the new file, or an
    error. *)
Definition ioutil_TempFile (pattern : string) : M (Res string) :=
  hs <- history ;;
  let name := tempName D hs pattern in
  r <- file_call (TempFile name) ;;
  ret (match r with None => Ok name | Some e => Err e end).

(** [util.WriteTempFile("", data)]. *)
Definition util_WriteTempFile (data : string) : M (Res string) :=
  hs <- history ;;
  let name := tempName D hs "" in
  r <- file_call (WriteTempFile name) ;;
  ret (match r with None => Ok name | Some e => Err e end).

(** Modelled from the spec: the credential operations of [host.Host] are
    defined in package model/host, outside this file.  Generating a bundle
    stores nothing; saving "persists the bundle to the credential store",
    "keyed by host id", overwriting an earlier record (spec 3, 4.4);
    deleting removes the host's record. *)
Definition creds_call (c : CredsCall) : M (option error) :=
  hs <- history ;;
  h <- get_host ;;
  let r := credsResult D hs h c in
  emit (EvCreds c r) ;;
  (match r, c with
   | None, SaveJasperCredentials b => modify_creds (fun m => <[Id h := b]> m)
   | None, DeleteJasperCredentials => modify_creds (fun m => delete (Id h) m)
   | _, _ => ret tt
   end) ;;
  ret r.

(** [h.GenerateJasperCredentials(ctx, env)]. *)
Definition host_GenerateJasperCredentials : M (Res Credentials) :=
  hs <- history ;;
  h <- get_host ;;
  r <- creds_call GenerateJasperCredentials ;;
  ret (match r with None => Ok (newCredentials D hs h) | Some e => Err e end).

Definition db_read {A} (q : DbRead) (answer : History -> Res A) : M (Res A) :=
  hs <- history ;;
  emit (EvDbRead q) ;;
  ret (answer hs).

(** [defer]: the deferred call runs when the body has returned. *)
Definition defer {A} (deferred : M unit) (body : M A) : M A :=
  a <- body ;;
  deferred ;;
  ret a.

(** *** Scripts *)

Definition buildScpCommand (src dst : string) (info : StaticHostInfo)
           (user : string) (opts : list string) : list string :=
  (["scp"; "-vvv"; "-P"; ssh_Port info] ++ opts)
    ++ [src; user +:+ "@" +:+ ssh_Hostname info +:+ ":" +:+ dst].

(** Build the setup script that will need to be run on the specified host. *)
Definition expandScript (s : string) : M (Res string) :=
  hs <- history ;;
  match ExpandString D hs s with
  | Err e => ret (Err (errors_Wrap e "expansions error"))
  | Ok script => ret (Ok script)
  end.

(** What both [copyScript] functions do once the temporary file [file]
    exists and is private: expand, write, transfer. [notice] is the log
    entry that only the method writes. *)
Definition copyScript_transfer (op : RemoteOp) (notice : bool) (ctx : Context)
           (hostInfo : StaticHostInfo) (user file name script : string)
  : M (Res unit) :=
  h <- get_host ;;
  expanded <- expandScript script ;;
  match expanded with
  | Err e => ret (Err (errors_Wrap e ("error expanding script for host " +:+ Id h)))
  | Ok expanded =>
      werr <- file_call (WriteString file expanded) ;;
      match werr with
      | Some e => ret (Err (errors_Wrap e "error writing local script"))
      | None =>
          hs <- history ;;
          match GetSSHOptions D hs h with
          | Err e =>
              ret (Err (errors_Wrap e ("error getting ssh options for host " +:+ Id h)))
          | Ok sshOptions =>
              let scpArgs := buildScpCommand file name hostInfo user sshOptions in
              (* run the command to scp the script with a timeout *)
              let ctx := WithTimeout ctx scpTimeout in
              r <- run_command op (JasperLocal scpArgs) ctx ;;
              (if notice
               then grip_WrapError LvNotice (snd r) "problem copying script to host"
               else ret tt) ;;
              ret (to_Res (Wrap (snd r) "error copying script to remote machine"))
          end
      end
  end.

(** The deferred function of both [copyScript]s. *)
Definition copyScript_cleanup (file : string) : M unit :=
  let errCtx := "cleaning up after script copy" in
  cerr <- file_call (Close file) ;;
  grip_WrapError LvError cerr errCtx ;;
  rerr <- file_call (Remove file) ;;
  grip_WrapError LvError rerr errCtx ;;
  grip LvDebug "copy script".

(** What both [copyScript] functions do: create a local copy of the script,
    scp it over, remove the local copy. *)
Definition copyScript_common (op : RemoteOp) (notice : bool) (ctx : Context)
           (name script : string) : M (Res unit) :=
  (* parse the hostname into the user, host and port *)
  h <- get_host ;;
  hs <- history ;;
  match GetSSHInfo D hs h with
  | Err e => ret (Err (errors_WithStack e))
  | Ok hostInfo =>
      let user :=
        if negb (String.eqb (ssh_User hostInfo) "")
        then ssh_User hostInfo else distro.User (Distro h) in
      (* create a temp file for the script *)
      f <- ioutil_TempFile (filepath_Base name) ;;
      match f with
      | Err e => ret (Err (errors_Wrap e "error creating temporary script file"))
      | Ok file =>
          cherr <- file_call (Chmod file) ;;
          match cherr with
          | Some e => ret (Err (errors_Wrap e "error setting file permissions"))
          | None =>
              defer (copyScript_cleanup file)
                    (copyScript_transfer op notice ctx hostInfo user file name script)
          end
      end
  end.

(** The function [copyScript], used for the service-user script. *)
Definition copyScript (ctx : Context) (name script : string) : M (Res unit) :=
  copyScript_common OpServiceUserScriptCopy false ctx name script.

(** The method [setupHostJob.copyScript], used for the distro's setup and
    teardown scripts; the first entry marks the call. *)
Definition job_copyScript (ctx : Context) (name script : string) : M (Res unit) :=
  emit (EvEnterCopyScript name script) ;;
  copyScript_common OpDistroScriptCopy true ctx name script.

(** *** Jasper *)

(** putJasperCredentials creates Jasper credentials for the host and puts
    the credentials file on the host. *)
Definition putJasperCredentials (ctx : Context) (sshOptions : list string)
  : M (Res unit) :=
  h <- get_host ;;
  c <- host_GenerateJasperCredentials ;;
  match c with
  | Err e => ret (Err (errors_Wrap e "could not generate Jasper credentials for host"))
  | Ok creds =>
      hs <- history ;;
      match WriteJasperCredentialsFilesCommands D hs h creds with
      | Err e =>
          ret (Err (errors_Wrap e "could not get command to write Jasper credentials file"))
      | Ok writeCmds =>
          grip LvInfo "putting Jasper credentials on host" ;;
          let ctx := WithTimeout ctx scpTimeout in
          r <- run_command OpCredentialWrite
                 (RunSSHCommandLiterally writeCmds sshOptions) ctx ;;
          match snd r with
          | Some e =>
              ret (Err (errors_Wrap e
                ("error copying credentials to remote machine: command returned "
                   +:+ fst r)))
          | None =>
              serr <- creds_call (SaveJasperCredentials creds) ;;
              match serr with
              | Some e => ret (Err (errors_Wrap e "error saving credentials"))
              | None => ret (Ok tt)
              end
          end
      end
  end.

(** setupServiceUser runs the SSH commands on the host that sets up the
    service user on the host. *)
Definition setupServiceUser (ctx : Context) (sshOptions : list string)
  : M (Res unit) :=
  h <- get_host ;;
  if negb (distro.IsWindows (Distro h)) then ret (Ok tt)
  else
    hs <- history ;;
    match SetupServiceUserCommands D hs h with
    | Err e => ret (Err (errors_Wrap e "could not get command to set up service user"))
    | Ok cmds =>
        let path := filepath_Join (distro.HomeDir (Distro h)) "setup-user.ps1" in
        cr <- copyScript ctx path cmds ;;
        match cr with
        | Err e => ret (Err (errors_Wrap e "error copying script to set up service user"))
        | Ok _ =>
            r <- run_command OpServiceUserRun
                   (RunSSHCommand
                      ("powershell ./" +:+ filepath_Base path +:+ " && rm -f ./"
                         +:+ filepath_Base path) sshOptions) ctx ;;
            match snd r with
            | Some e =>
                ret (Err (errors_Wrap e
                  ("error while setting up service user: command returned " +:+ fst r)))
            | None => ret (Ok tt)
            end
        end
    end.

(** doFetchAndReinstallJasper runs the SSH command that downloads the
    latest Jasper binary and restarts the service. *)
Definition doFetchAndReinstallJasper (ctx : Context) (sshOptions : list string)
  : M (Res unit) :=
  h <- get_host ;;
  let cmd := FetchAndReinstallJasperCommands D h in
  r <- run_command OpFetchJasper (RunSSHCommandLiterally cmd sshOptions) ctx ;;
  match snd r with
  | Some e =>
      ret (Err (errors_Wrap e
        ("error while fetching Jasper binary and installing service on remote host: command returned '"
           +:+ fst r +:+ "'")))
  | None => ret (Ok tt)
  end.

(** setupJasper sets up the Jasper service on the host by putting the
    credentials on the host, downloading the latest version of Jasper, and
    restarting the Jasper service. *)
Definition setupJasper (ctx : Context) : M (Res unit) :=
  h <- get_host ;;
  hs <- history ;;
  match GetSSHOptions D hs h with
  | Err e => ret (Err (errors_Wrap e ("error getting ssh options for host " +:+ Id h)))
  | Ok sshOptions =>
      r1 <- setupServiceUser ctx sshOptions ;;
      match r1 with
      | Err e => ret (Err (errors_Wrap e "error setting up service user"))
      | Ok _ =>
          r2 <- putJasperCredentials ctx sshOptions ;;
          match r2 with
          | Err e =>
              ret (Err (errors_Wrap e "error putting Jasper credentials on remote host"))
          | Ok _ =>
              r3 <- doFetchAndReinstallJasper ctx sshOptions ;;
              match r3 with
              | Err e =>
                  ret (Err (errors_Wrap e "error starting Jasper service on remote host"))
              | Ok _ => ret (Ok tt)
              end
          end
      end
  end.


(** *** The bootstrap sequence *)

(** runHostSetup transfers the specified setup script for an individual
    host. *)
Definition runHostSetup (ctx : Context) : M (Res unit) :=
  targetHost <- get_host ;;
  (* fetch the appropriate cloud provider for the host *)
  e1 <- cloud_call GetManagerOptions ;;
  match e1 with
  | Some e => ret (Err (errors_Wrap e ("can't get ManagerOpts for '" +:+ Id targetHost +:+ "'")))
  | None =>
  e2 <- cloud_call GetManager ;;
  match e2 with
  | Some e =>
      ret (Err (errors_Wrap e
        ("failed to get cloud manager for host " +:+ Id targetHost
           +:+ " with provider " +:+ Provider targetHost)))
  | None =>
  r3 <- setDNSName ;;
  match r3 with
  | Err e => ret (Err (errors_Wrap e "error setting DNS name"))
  | Ok _ =>
  (* run the function scheduled for when the host is up *)
  e4 <- cloud_call OnUp ;;
  match e4 with
  | Some e =>
      ret (Err (errors_Wrap e ("OnUp callback failed for host " +:+ Id targetHost)))
  | None =>
  targetHost <- get_host ;;
  let scripts : M (Res unit) :=
    (* Do not copy setup scripts to task-spawned hosts *)
    if SpawnedByTask targetHost then ret (Ok tt)
    else
      s <- (if negb (String.eqb (distro.Setup (Distro targetHost)) "") then
              let scriptName :=
                if distro.IsPowerShellSetup (Distro targetHost)
                then PowerShellSetupScriptName D else SetupScriptName D in
              r <- job_copyScript ctx (filepath_Join "~" scriptName)
                     (distro.Setup (Distro targetHost)) ;;
              match r with
              | Err e =>
                  ret (Err (errors_Wrap e
                    ("error copying setup script " +:+ scriptName +:+ " to host "
                       +:+ Id targetHost)))
              | Ok _ => ret (Ok tt)
              end
            else ret (Ok tt)) ;;
      match s with
      | Err e => ret (Err e)
      | Ok _ =>
          if negb (String.eqb (distro.Teardown (Distro targetHost)) "") then
            r <- job_copyScript ctx (filepath_Join "~" (TeardownScriptName D))
                   (distro.Teardown (Distro targetHost)) ;;
            match r with
            | Err e =>
                ret (Err (errors_Wrap e
                  ("error copying teardown script " +:+ TeardownScriptName D
                     +:+ " to host " +:+ Id targetHost)))
            | Ok _ => ret (Ok tt)
            end
          else ret (Ok tt)
      end in
  match distro.Method (Distro targetHost) with
  | distro.BootstrapMethodNone => ret (Ok tt)
  | distro.BootstrapMethodUserData =>
      (* Updating the host LCT prevents the agent monitor deploy job from
         running. *)
      lct <- host_write UpdateLastCommunicated ;;
      grip_WrapError LvError lct "failed to update host's last communication time" ;;
      (* Do not set the host to running - hosts bootstrapped with user data
         are not considered done provisioning until user data has finished
         running. *)
      perr <- host_write SetProvisionedNotRunning ;;
      match perr with
      | Some e =>
          ret (Err (errors_Wrap e
            ("error marking host " +:+ Id targetHost +:+ " as provisioned")))
      | None =>
          grip LvInfo
            "host successfully provisioned by app server, awaiting host to finish provisioning itself" ;;
          ret (Ok tt)
      end
  | distro.BootstrapMethodSSH =>
      j <- setupJasper ctx ;;
      match j with
      | Err e =>
          grip_WrapError LvError (Some e) "could not set up Jasper" ;;
          ret (Err (errors_Wrap e
            ("error putting Jasper on host '" +:+ Id targetHost +:+ "'")))
      | Ok _ =>
          grip LvInfo "successfully fetched Jasper binary and started service" ;;
          scripts
      end
  | distro.BootstrapMethodOther => scripts
  end
  end end end end.

(** *** The client *)

(** loadClient places the evergreen command line client on the host, places
    a copy of the user's settings onto the host, and makes the binary appear
    in the $PATH when the user logs in. *)
Definition loadClient (ctx : Context) : M (Res loadClientResult) :=
  target <- get_host ;;
  match ProvisionOpts target with
  | None => ret (Err (errors_New "ProvisionOptions is nil"))
  | Some po =>
  if String.eqb (OwnerId po) "" then ret (Err (errors_New "OwnerId not set"))
  else
  (* get the information about the owner of the host *)
  o <- db_read (user_FindOne (OwnerId po)) (fun hs => userFindOne D hs (OwnerId po)) ;;
  match o with
  | Err e => ret (Err (errors_Wrap e ("couldn't fetch owner " +:+ OwnerId po +:+ " for host")))
  | Ok owner =>
  (* 1. mkdir the destination directory on the host, and modify ~/.profile
     so the target binary will be on the $PATH *)
  let targetDir := "cli_bin" in
  hs <- history ;;
  match GetSSHInfo D hs target with
  | Err e => ret (Err (errors_Wrap e ("error parsing ssh info " +:+ DNSName target)))
  | Ok hostSSHInfo =>
  match GetSSHOptions D hs target with
  | Err e => ret (Err (errors_Wrap e ("Error getting ssh options for host " +:+ Id target)))
  | Ok sshOptions =>
  let sshOptions := sshOptions ++ ["-o"; "UserKnownHostsFile=/dev/null"] in
  let mkdirctx := WithTimeout ctx (30 * time_Second) in
  let export :=
    "echo 'export PATH=" +:+ dquote +:+ "$PATH:~/" +:+ targetDir +:+ dquote +:+ "' >> " in
  m <- run_command OpCliDirSetup
         (RunSSHCommandLiterally
            ("mkdir -m 777 -p ~/" +:+ targetDir +:+ " && (" +:+ export
               +:+ "~/.profile || true; " +:+ export +:+ "~/.bash_profile || true)")
            sshOptions) mkdirctx ;;
  match snd m with
  | Some e => ret (Err (errors_Wrap e ("error running setup command for cli: " +:+ fst m)))
  | None =>
  (* run the command to curl the agent *)
  let curlctx := WithTimeout ctx (2 * time_Minute) in
  c <- run_command OpClientDownload
         (JasperRemote (ssh_Hostname hostSSHInfo) (User target)
            (["-p"; ssh_Port hostSSHInfo] ++ sshOptions) (CurlCommand D target))
         curlctx ;;
  match snd c with
  | Some e => ret (Err (errors_Wrap e ("error running curl command for cli, " +:+ fst c)))
  | None =>
  (* 2. Write a settings file for the user that owns the host, and scp it
     to the directory *)
  match json_Marshal D (APIKey owner) (ApiUrl D +:+ "/api") (UiUrl D) (user_Id owner) with
  | Err e => ret (Err (errors_WithStack e))
  | Ok outputJSON =>
  t <- util_WriteTempFile outputJSON ;;
  match t with
  | Err e => ret (Err (errors_WithStack e))
  | Ok tempFileName =>
      defer (file_call (Remove tempFileName) ;; ret tt)
        (let scpArgs :=
           buildScpCommand tempFileName
             (filepath_Join (filepath_Join "~" targetDir) ".evergreen.yml")
             hostSSHInfo (User target) sshOptions in
         let ctx := WithTimeout ctx (30 * time_Second) in
         y <- run_command OpConfigTransfer (JasperLocal scpArgs) ctx ;;
         match snd y with
         | Some e =>
             ret (Err (errors_Wrap e
               ("error running SCP command for evergreen.yml, " +:+ fst y)))
         | None =>
             ret (Ok (mkLoadClientResult (filepath_Join "~" "evergreen")
                        (targetDir +:+ "/.evergreen.yml")))
         end)
  end end end end end end end end.

Definition fetchRemoteTaskData (ctx : Context) (taskId cliPath confPath : string)
  : M (option error) :=
  target <- get_host ;;
  hs <- history ;;
  match GetSSHInfo D hs target with
  | Err e => ret (Some (errors_Wrap e ("error parsing ssh info " +:+ DNSName target)))
  | Ok hostSSHInfo =>
  match GetSSHOptions D hs target with
  | Err e => ret (Some (errors_Wrap e ("Error getting ssh options for host " +:+ Id target)))
  | Ok sshOptions =>
      let sshOptions := sshOptions ++ ["-o"; "UserKnownHostsFile=/dev/null"] in
      let fetchCmd :=
        cliPath +:+ " -c " +:+ confPath +:+ " fetch -t " +:+ taskId
          +:+ " --source --artifacts --dir='" +:+ distro.WorkDir (Distro target) +:+ "'" in
      (* run the make shell command with a timeout *)
      let ctx := WithTimeout ctx (15 * time_Minute) in
      r <- run_command OpTaskDataFetch
             (JasperRemote (ssh_Hostname hostSSHInfo) (User target)
                (["-p"; ssh_Port hostSSHInfo] ++ sshOptions) fetchCmd) ctx ;;
      grip_WrapError LvError (snd r) ("fetch-artifacts-" +:+ taskId) ;;
      ret (match snd r with
           | Some e => Some (errors_WithStack e)
           | None => None
           end)
  end end.


(** *** Provisioning *)

(** [grip.Error(message.WrapError(h.SetUnprovisioned(), ...))]: mark the
    host's provisioning as failed; an error of the write is only logged. *)
Definition mark_unprovisioned : M unit :=
  uerr <- host_write SetUnprovisioned ;;
  grip_WrapError LvError uerr "setting host unprovisioned".

(** The start of [provisionHost]: the attempt count is incremented before
    anything else is tried. *)
Definition provisionHost_begin : M unit :=
  grip LvInfo "setting up host" ;;
  incErr <- host_write IncProvisionAttempts ;;
  grip_WrapError LvCritical incErr "increment provisioning errors failed".

(** The part of [provisionHost] guarded by "if this is a spawn host":
    [ProvisionOptions] is [po] and asks for the client. *)
Definition provisionHost_spawn (ctx : Context) (po : ProvisionOptions) : M (Res unit) :=
  h <- get_host ;;
  grip LvInfo ("Uploading client binary to host " +:+ Id h) ;;
  l <- loadClient ctx ;;
  match l with
  | Err err =>
      grip_WrapError LvError (Some err) "failed to load client binary onto host" ;;
      mark_unprovisioned ;;
      (* the message goes on with the error itself, printed with %+v *)
      ret (Err (errors_Wrap err ("Failed to load client binary onto host " +:+ Id h)))
  | Ok lcr =>
  hs <- history ;;
  match GetSSHOptions D hs h with
  | Err e =>
      mark_unprovisioned ;;
      ret (Err (errors_Wrap e ("Error getting ssh options for host " +:+ Id h)))
  | Ok sshOptions =>
  d <- db_read (distro_FindOne (distro.Id (Distro h)))
         (fun hs => distroFindOne D hs (distro.Id (Distro h))) ;;
  match d with
  | Err e =>
      mark_unprovisioned ;;
      ret (Err (errors_Wrap e ("Error finding distro for host " +:+ Id h)))
  | Ok d =>
  modify_host (set_Distro d) ;;
  h <- get_host ;;
  grip LvInfo ("Running setup script for spawn host " +:+ Id h) ;;
  (* run the setup script with the agent *)
  r <- run_command OpSetupScriptRun (RunSSHCommand (SetupCommand D h) sshOptions) ctx ;;
  match snd r with
  | Some e =>
      mark_unprovisioned ;;
      emit (EvAudit (LogProvisionFailed (Id h) (fst r))) ;;
      ret (Err (errors_Wrap e ("error running setup script on remote host: " +:+ fst r)))
  | None =>
      (if negb (String.eqb (OwnerId po) "") && (0 <? Z.of_nat (String.length (TaskId po)))
       then
         grip LvInfo "fetching data for task on host" ;;
         ferr <- fetchRemoteTaskData ctx (TaskId po) (BinaryPath lcr) (ConfigPath lcr) ;;
         grip_WrapError LvError ferr "failed to fetch data onto host"
       else ret tt) ;;
      ret (Ok tt)
  end end end end.

(** The end of [provisionHost]: the setup was successful, update the host
    accordingly in the database. *)
Definition provisionHost_mark : M (Res unit) :=
  h <- get_host ;;
  grip LvInfo "setup complete for host" ;;
  merr <- host_write MarkAsProvisioned ;;
  match merr with
  | Some e =>
      ret (Err (errors_Wrap e ("error marking host " +:+ Id h +:+ " as provisioned")))
  | None =>
      grip LvInfo "host successfully provisioned" ;;
      ret (Ok tt)
  end.

(** What [provisionHost] does with the result [r] of [runHostSetup]. *)
Definition provisionHost_finish (ctx : Context) (r : Res unit) : M (Res unit) :=
  h <- get_host ;;
  match r with
  | Err err =>
      if shouldRetryProvisioning h then ret (Ok tt)
      else
        emit (EvAudit (LogProvisionFailed (Id h) "")) ;;
        (* mark the host's provisioning as failed *)
        mark_unprovisioned ;;
        ret (Err (errors_Wrap err ("error initializing host " +:+ Id h)))
  | Ok _ =>
      match distro.Method (Distro h) with
      | distro.BootstrapMethodUserData => ret (Ok tt)
      | _ =>
          (* If this is a spawn host *)
          s <- match ProvisionOpts h with
               | Some po =>
                   if LoadCLI po then provisionHost_spawn ctx po else ret (Ok tt)
               | None => ret (Ok tt)
               end ;;
          match s with
          | Err e => ret (Err e)
          | Ok _ => provisionHost_mark
          end
      end
  end.

(** Provision the host, and update the database accordingly. *)
Definition provisionHost (ctx : Context) : M (Res unit) :=
  provisionHost_begin ;;
  r <- runHostSetup ctx ;;
  provisionHost_finish ctx r.

(** *** The job *)

Definition queue_Put (job : QueuedJob) : M (option error) :=
  hs <- history ;;
  let r := Put D hs job in
  emit (EvPut job r) ;;
  ret r.

Definition tryRequeue (ctx : Context) : M unit :=
  h <- get_host ;;
  hs <- history ;;
  if shouldRetryProvisioning h && Started D hs then
    let job := NewHostSetupJob h ("attempt-" +:+ fmt_d (ProvisionAttempts h)) in
    let job := UpdateTimeInfo (time_Now D hs + time_Minute) job in
    err <- queue_Put job ;;
    grip_WrapError LvCritical err "failed to requeue setup job" ;;
    AddError err
  else ret tt.

(** What [setupHost] does with the result [r] of [provisionHost]. *)
Definition setupHost_report (r : Res unit) : M (option error) :=
  h <- get_host ;;
  match r with
  | Err err =>
      emit (EvAudit (LogHostProvisionError (Id h))) ;;
      match distro.Method (Distro h) with
      | distro.BootstrapMethodSSH =>
          derr <- creds_call DeleteJasperCredentials ;;
          grip_WrapError LvError derr
            "could not delete Jasper credentials after failed provision attempt"
      | _ => ret tt
      end ;;
      grip_WrapError LvError (Some err) "provisioning host encountered error"
  | Ok _ => ret tt
  end ;;
  (* ProvisionHost allows hosts to fail provisioning a few times during
     host start up, to account for the fact that hosts often need extra
     time to come up.  In these cases, ProvisionHost returns a nil error
     but does not change the host status. *)
  h <- get_host ;;
  if HostStatus_eqb (Status h) HostProvisioning && negb (Provisioned h) then
    grip LvInfo "retrying provisioning" ;;
    ret None
  else
    grip LvInfo "successfully finished provisioning host" ;;
    ret None.

Definition setupHost (ctx : Context) : M (option error) :=
  h <- get_host ;;
  grip LvInfo "attempting to setup host" ;;
  hs <- history ;;
  match ctx_Err D hs with
  | Some e =>
      ret (Some (errors_Wrap e ("hostinit canceled during setup for host " +:+ Id h)))
  | None =>
      grip LvInfo "provisioning host" ;;
      r <- provisionHost ctx ;;
      setupHost_report r
  end.

(** [Run], once [j.host] is set. *)
Definition Run_host (ctx : Context) : M unit :=
  h <- get_host ;;
  if HostStatus_eqb (Status h) HostRunning || Provisioned h then
    grip LvInfo "skipping setup because host is already set up"
  else
    defer (tryRequeue ctx)
          (err <- setupHost ctx ;; AddError err).

Definition add_event (ev : Event) (s : Sys) : Sys :=
  mkSys (ev :: trace s) (creds s) (files s).

(** The first lines of [Run]: the host that is attached to the job, or the
    one found in the database. *)
Definition Run_find (j : setupHostJob) (s : Sys) : Res Host * Sys :=
  match j_host j with
  | Some h => (Ok h, s)
  | None =>
      let s' := add_event (EvDbRead (host_FindOneId (HostID j))) s in
      match FindOneId D (trace s) (HostID j) with
      | Err e => (Err e, s')
      | Ok None =>
          (Err (errors_New
             ("could not find host " +:+ HostID j +:+ " for job " +:+ TaskID j)), s')
      | Ok (Some h) => (Ok h, s')
      end
  end.

(** [Run]; [j.MarkComplete()] is deferred, so the job is complete on
    every path. *)
Definition Run (ctx : Context) (j : setupHostJob) (s : Sys) : setupHostJob * Sys :=
  match Run_find j s with
  | (Err e, s') =>
      (mkJob (HostID j) (JobID j) (TaskID j) (j_host j) (j_errors j ++ [e]) true, s')
  | (Ok h, s') =>
      let w := snd (Run_host ctx (mkWorld h (j_errors j) s')) in
      (mkJob (HostID j) (JobID j) (TaskID j) (Some (host w)) (job_errors w) true, sys w)
  end.

End Job.

(** * Properties: definitions *)

(** ** What a run may do

    [may_emit inc ctx spawned ev]: [ev] is an entry that the functions called
    by [setupHost] may add when the job's context is [ctx] and the host's
    spawned-by-task flag is [spawned].  With [inc = false] the entry is not an
    increment of the attempt count. *)

(** The timeout that the file puts on the context of each command. *)
Definition op_timeout (op : RemoteOp) : option Duration :=
  match op with
  | OpCredentialWrite | OpServiceUserScriptCopy | OpDistroScriptCopy => Some scpTimeout
  | OpCliDirSetup | OpConfigTransfer => Some (30 * time_Second)
  | OpClientDownload => Some (2 * time_Minute)
  | OpTaskDataFetch => Some (15 * time_Minute)
  | OpServiceUserRun | OpFetchJasper | OpSetupScriptRun => None
  end.

Definition timeout_of (ctx : Context) (op : RemoteOp) : Context :=
  match op_timeout op with
  | Some d => WithTimeout ctx d
  | None => ctx
  end.

Definition may_emit (inc : bool) (ctx : Context) (spawned : bool) (ev : Event) : Prop :=
  match ev with
  | EvLog _ _ _ | EvCloud _ _ | EvAudit _ | EvCreds _ _ | EvFile _ _ => True
  | EvDbRead q => forall id, q <> host_FindOneId id
  | EvHostWrite op _ => inc = true \/ op <> IncProvisionAttempts
  | EvEnterCopyScript _ _ => spawned = false
  | EvRemote op _ t _ _ =>
      t = timeout_of ctx op /\ (op = OpDistroScriptCopy -> spawned = false)
  | EvPut _ _ => False
  end.

(** [steps inc ctx w w']: [w'] is reached from [w] by adding entries that
    [may_emit] allows, with the spawned-by-task flag kept and the attempt
    count not lowered (and kept, when [inc = false]). *)
Definition steps (inc : bool) (ctx : Context) (w w' : World) : Prop :=
  SpawnedByTask (host w') = SpawnedByTask (host w) /\
  ProvisionAttempts (host w) <= ProvisionAttempts (host w') /\
  (inc = false -> ProvisionAttempts (host w') = ProvisionAttempts (host w)) /\
  exists new,
    trace (sys w') = new ++ trace (sys w) /\
    Forall (may_emit inc ctx (SpawnedByTask (host w))) new.

(** [ok_at inc ctx w0 m]: running [m] keeps the run that started in [w0]
    within [steps]. *)
Definition ok_at (inc : bool) (ctx : Context) {A} (w0 : World) (m : M A) : Prop :=
  forall w, steps inc ctx w0 w -> steps inc ctx w0 (snd (m w)).

(** ** Hosts and answers used as examples *)

Definition example_distro (m : distro.BootstrapMethod) (setup : string)
  : distro.Distro :=
  distro.mkDistro "ubuntu1604" "ubuntu" m setup "" "/data/mci" false false "/home/ubuntu".

Definition example_host (dns : string) (st : HostStatus) (provisioned : bool)
           (attempts : Z) (m : distro.BootstrapMethod) (spawned : bool)
           (setup : string) (po : option ProvisionOptions) : Host :=
  mkHost "h1" dns "10.0.0.1" "ubuntu" "ec2" (example_distro m setup)
         st provisioned attempts spawned po 0 0 0.

Definition empty_sys : Sys := mkSys [] ∅ ∅.

Definition world_of (h : Host) : World := mkWorld h [] empty_sys.

(** Answers that depend on the operation only: [cancelled] is what
    [ctx.Err()] gives, [dns] the name the cloud manager knows, and the
    functions say which operations fail; everything else succeeds. *)
Definition answers (cancelled : option error) (cloudR : CloudCall -> option error)
           (dns : string) (persistR : HostWrite -> option error)
           (credsR : CredsCall -> option error) (runR : Command -> option error)
           (fileR : FileCall -> option error) (started : bool)
           (found : option Host) : Deps :=
  mkDeps "setup.sh" "setup.ps1" "teardown.sh" "https://evergreen.example" "https://ui.example"
    (fun _ => cancelled) (fun hs => Z.of_nat (length hs))
    (fun _ _ => Ok found)
    (fun _ id => Ok (mkDBUser id "key"))
    (fun _ _ => Ok (example_distro distro.BootstrapMethodSSH ""))
    (fun _ _ op => persistR op)
    (fun _ _ c => cloudR c) (fun _ _ => dns)
    (fun _ h => Ok (mkStaticHostInfo "" (DNSName h) "22"))
    (fun _ _ => Ok ["-o"; "ConnectTimeout=10"])
    (fun _ _ c => Ok ("write " +:+ c)) (fun _ _ => Ok "net user")
    (fun _ => "fetch jasper") (fun _ => "curl -LO client") (fun _ => "sh setup.sh")
    (fun _ h => "creds-" +:+ Id h) (fun _ _ c => credsR c)
    (fun _ _ c _ => ("", runR c))
    (fun _ p => "/tmp/" +:+ p +:+ "0042") (fun _ f => fileR f)
    (fun _ s => Ok s) (fun a b c d => Ok (a +:+ b +:+ c +:+ d))
    (fun _ => started) (fun _ _ => None).

Definition never {A} (_ : A) : option error := None.

Definition all_ok : Deps :=
  answers None never "h1.example.com" never never never never true None.

Definition boom : error := errors_New "boom".

Definition running_host : Host :=
  example_host "h1.example.com" HostRunning false 3 distro.BootstrapMethodSSH
               false "" None.

Definition setup_host : Host :=
  example_host "h1.example.com" HostProvisioning false 1 distro.BootstrapMethodSSH
               false "echo hi" None.

Definition chmod_fails : Deps :=
  answers None never "" never never never
          (fun f => match f with Chmod _ => Some boom | _ => None end) true None.

(** A host that has not reached Provisioning yet, whose cloud manager
    cannot be built. *)
Definition starting_host : Host :=
  example_host "" HostStarting false 0 distro.BootstrapMethodSSH false "" None.

Definition no_manager : Deps :=
  answers None (fun c => match c with GetManager => Some boom | _ => None end)
          "" never never never never true None.

Definition provisioning_host (attempts : Z) : Host :=
  example_host "" HostProvisioning false attempts distro.BootstrapMethodSSH false "" None.

Definition userdata_host : Host :=
  example_host "" HostProvisioning false 0 distro.BootstrapMethodUserData false "" None.

Definition named_host : Host :=
  example_host "h1.internal" HostProvisioning false 0 distro.BootstrapMethodSSH
               false "" None.

Definition ssh_fails : Deps :=
  answers None never "h1.example.com" never never
          (fun c => match c with
                    | RunSSHCommandLiterally _ _ => Some boom
                    | _ => None
                    end)
          never true None.



(** ** Reading the trace *)

(** The entries that were put on top of [before] to reach [after]. *)
Definition added (before after : History) : list Event :=
  firstn (length after - length before) after.

(** Entries other than log entries and database reads: remote commands,
    writes to the host, cloud calls, credentials, files, audit events and
    queued jobs. *)
Definition is_effect (ev : Event) : bool :=
  match ev with
  | EvLog _ _ _ | EvDbRead _ => false
  | _ => true
  end.

Definition is_saved (ev : Event) : bool :=
  match ev with
  | EvCreds (SaveJasperCredentials _) None => true
  | _ => false
  end.

Definition is_save_attempt (ev : Event) : bool :=
  match ev with
  | EvCreds (SaveJasperCredentials _) _ => true
  | _ => false
  end.

(** The number of credential records stored by the entries [evs]. *)
Definition stored (evs : list Event) : nat := length (List.filter is_saved evs).

Definition write_failed (ev : Event) : bool :=
  match ev with
  | EvRemote OpCredentialWrite _ _ _ (Some _) => true
  | _ => false
  end.

Definition write_succeeded (ev : Event) : bool :=
  match ev with
  | EvRemote OpCredentialWrite _ _ _ None => true
  | _ => false
  end.

Definition is_remove (ev : Event) : bool :=
  match ev with
  | EvFile (Remove _) _ => true
  | _ => false
  end.


(** ** The run as a whole *)

(** The test at the top of [Run]: the host is already set up. *)
Definition skips (h : Host) : bool :=
  HostStatus_eqb (Status h) HostRunning || Provisioned h.

Definition skip_log : Event :=
  EvLog LvInfo "skipping setup because host is already set up" None.

(** The entry that [setupHost] writes first. *)
Definition attempt_log : Event := EvLog LvInfo "attempting to setup host" None.

(** The world in which the deferred [tryRequeue] runs. *)
Definition before_requeue (D : Deps) (ctx : Context) (w : World) : World :=
  snd ((err <- setupHost D ctx ;; AddError err) w).

(** The world in which [provisionHost] starts. *)
Definition at_provisionHost (w : World) : World :=
  mkWorld (host w) (job_errors w)
    (mkSys (EvLog LvInfo "provisioning host" None :: attempt_log :: trace (sys w))
           (creds (sys w)) (files (sys w))).

(** What a run does after the increment, up to the deferred requeue. *)
Definition after_increment (D : Deps) (ctx : Context) : M unit :=
  r <- runHostSetup D ctx ;;
  r' <- provisionHost_finish D ctx r ;;
  err <- setupHost_report D r' ;;
  AddError err.

(** Whether a run that starts in [w] gets to the bootstrap sequence: the host
    is not skipped and the context is not cancelled when [setupHost] looks. *)
Definition reaches (D : Deps) (w : World) : bool :=
  negb (skips (host w)) &&
  match ctx_Err D (attempt_log :: trace (sys w)) with
  | None => true
  | Some _ => false
  end.

(** ** Runs one after the other

    A retry is put on the remote queue (line 886).  Of [setupHostJob] only
    [HostID] and the base of the job are serialised (lines 43-49), so the
    job that the queue hands to the next run has no host, and [Run] looks
    the host up by its id (lines 79-80). *)

(** Modelled from the spec: the host document in the database (package
    model/host, outside this file).  A later run observes "whatever state
    earlier attempts persisted" (spec section 5), and nothing else.
    [document now base new doc] is the document [doc] after the entries
    [new], which were added on top of the history [base]: each write to the
    host that succeeded put its field on the document; a write that failed
    did not, whatever the host struct of that run carried afterwards, and
    neither did an assignment to the struct such as [h.Distro = d]. *)
Fixpoint document (now : History -> Z) (base : History) (new : list Event) (doc : Host)
  : Host :=
  match new with
  | [] => doc
  | ev :: older =>
      let doc' := document now base older doc in
      match ev with
      | EvHostWrite op None => apply_write (now (older ++ base)) op doc'
      | _ => doc'
      end
  end.

(** The world in which [Run_host] starts when the job comes from the queue
    and the host of [w] is the document in the database: the job has no
    errors yet, and [Run] has looked the host up. *)
Definition looked_up (w : World) : World :=
  mkWorld (host w) [] (add_event (EvDbRead (host_FindOneId (Id (host w)))) (sys w)).

(** Modelled from the spec: one run of a job that comes from the queue, in a
    world whose host is the document in the database.  The world it leaves
    has the document after the run as its host, not the struct the run
    worked on. *)
Definition Run_stored (D : Deps) (ctx : Context) (w : World) : World :=
  let w0 := looked_up w in
  let w' := snd (Run_host D ctx w0) in
  mkWorld (document (time_Now D) (trace (sys w0))
             (added (trace (sys w0)) (trace (sys w'))) (host w))
          (job_errors w') (sys w').

(** [n] runs one after the other, each on the host it finds in the
    database. *)
Fixpoint Run_host_n (D : Deps) (ctx : Context) (n : nat) (w : World) : World :=
  match n with
  | O => w
  | S n' => Run_host_n D ctx n' (Run_stored D ctx w)
  end.

(** Whether the run that starts in [w] gets to the bootstrap sequence and
    its increment of the attempt count is persisted. *)
Definition persists_increment (D : Deps) (w : World) : bool :=
  reaches D w &&
  match persist D (EvLog LvInfo "setting up host" None
                     :: EvLog LvInfo "provisioning host" None
                     :: attempt_log :: trace (sys w)) (host w) IncProvisionAttempts with
  | None => true
  | Some _ => false
  end.


(** The world in which the bootstrap sequence of that run starts. *)
Definition at_bootstrap (D : Deps) (w : World) : World :=
  snd (provisionHost_begin D (at_provisionHost (looked_up w))).

(** A successful increment of the attempt count. *)
Definition inc_done (ev : Event) : bool :=
  match ev with
  | EvHostWrite IncProvisionAttempts None => true
  | _ => false
  end.

Definition is_inc (ev : Event) : bool :=
  match ev with
  | EvHostWrite IncProvisionAttempts _ => true
  | _ => false
  end.

Definition inc_log (r : option error) : list Event :=
  match r with
  | Some e => [EvLog LvCritical "increment provisioning errors failed" (Some e)]
  | None => []
  end.

(** The job that a retry puts on the queue for the host [h] at time [now]:
    same host, an id that ends in the attempt count, not before one minute
    from [now]. *)
Definition retry_job (now : Z) (h : Host) : QueuedJob :=
  mkQueuedJob
    ("provisioning-setup-host" +:+ "." +:+ Id h +:+ "." +:+ "attempt-"
       +:+ fmt_d (ProvisionAttempts h))
    (Id h) h 1 (Some (now + 60 * 1000000000)).

Definition requeue_log (r : option error) : list Event :=
  match r with
  | Some e => [EvLog LvCritical "failed to requeue setup job" (Some e)]
  | None => []
  end.

Definition error_list (r : option error) : list error :=
  match r with
  | Some e => [e]
  | None => []
  end.

Definition is_put (ev : Event) : bool :=
  match ev with
  | EvPut _ _ => true
  | _ => false
  end.

(** Entries that [Run] adds itself: the lookup of the host and the queued
    job. *)
Definition by_job (ev : Event) : bool :=
  match ev with
  | EvPut _ _ | EvDbRead (host_FindOneId _) => true
  | _ => false
  end.

Definition run_emit (ctx : Context) (spawned : bool) (ev : Event) : Prop :=
  may_emit true ctx spawned ev \/ by_job ev = true.

(** A call of [setupHostJob.copyScript], or the transfer it makes. *)
Definition is_distro_copy (ev : Event) : bool :=
  match ev with
  | EvEnterCopyScript _ _ | EvRemote OpDistroScriptCopy _ _ _ _ => true
  | _ => false
  end.

(** ** Deadlines *)

Definition seconds (n : Z) : Duration := n * time_Second.

(** The deadline of each class of command, as the specification lists
    them: the transfer of the client's config file counts as a file
    transfer. *)
Definition claimed_timeout (op : RemoteOp) : option Duration :=
  match op with
  | OpCliDirSetup => Some (seconds 30)
  | OpCredentialWrite | OpServiceUserScriptCopy | OpDistroScriptCopy
  | OpConfigTransfer => Some (seconds 60)
  | OpClientDownload => Some (seconds 120)
  | OpTaskDataFetch => Some (seconds 900)
  | OpServiceUserRun | OpFetchJasper | OpSetupScriptRun => None
  end.

(** The deadlines that the file puts on its commands: the config file is
    under the 30-second deadline, and [None] is a command on which the file
    puts no deadline (lines 391, 402 and 674 pass the context they were
    given). *)
Definition amended_timeout (op : RemoteOp) : option Duration :=
  match op with
  | OpCliDirSetup | OpConfigTransfer => Some (seconds 30)
  | OpCredentialWrite | OpServiceUserScriptCopy | OpDistroScriptCopy => Some (seconds 60)
  | OpClientDownload => Some (seconds 120)
  | OpTaskDataFetch => Some (seconds 900)
  | OpServiceUserRun | OpFetchJasper | OpSetupScriptRun => None
  end.

Definition under (table : RemoteOp -> option Duration) (ctx : Context) (op : RemoteOp)
  : Context :=
  match table op with
  | Some d => WithTimeout ctx d
  | None => ctx
  end.

(** [respects table ctx ev]: if [ev] is a command, it ran under the job's
    context [ctx] with the timeout that [table] gives its call site. *)
Definition respects (table : RemoteOp -> option Duration) (ctx : Context) (ev : Event)
  : Prop :=
  match ev with
  | EvRemote op _ t _ _ => t = under table ctx op
  | _ => True
  end.

Definition Context_eqb (a b : Context) : bool :=
  match a, b with
  | None, None => true
  | Some x, Some y => x =? y
  | _, _ => false
  end.

Definition respectsb (table : RemoteOp -> option Duration) (ctx : Context) (ev : Event)
  : bool :=
  match ev with
  | EvRemote op _ t _ _ => Context_eqb t (under table ctx op)
  | _ => true
  end.

(** ** More examples *)

Definition cancelled : Deps :=
  answers (Some boom) never "h1.example.com" never never never never true None.

(** The cloud manager cannot be built, and the attempt count cannot be
    written to the database. *)
Definition inc_fails : Deps :=
  answers None (fun c => match c with GetManager => Some boom | _ => None end) ""
          (fun op => match op with IncProvisionAttempts => Some boom | _ => None end)
          never never never true None.

(** A task-spawned host whose distro has a setup script. *)
Definition task_host : Host :=
  example_host "h1.example.com" HostProvisioning false 0 distro.BootstrapMethodSSH
               true "echo hi" None.

(** A spawn host that asks for the client. *)
Definition spawn_host : Host :=
  example_host "h1.example.com" HostProvisioning false 0 distro.BootstrapMethodSSH
               false "" (Some (mkProvisionOptions "alice" "" true)).

Definition job_for (h : Host) : setupHostJob :=
  mkJob (Id h) "provisioning-setup-host.h1.attempt-0" "" (Some h) [] false.

(** * More properties: definitions *)

(** ** Fields that a run keeps *)

(** A write that put a new status on the host. *)
Definition changes_status (ev : Event) : bool :=
  match ev with
  | EvHostWrite SetProvisionedNotRunning None
  | EvHostWrite SetUnprovisioned None
  | EvHostWrite MarkAsProvisioned None => true
  | _ => false
  end.

(** An entry after which the host struct may differ: a write to the host, or
    the reload of its distro. *)
Definition changes_host (ev : Event) : bool :=
  match ev with
  | EvHostWrite _ _ | EvDbRead (distro_FindOne _) => true
  | _ => false
  end.

Definition is_file (ev : Event) : bool :=
  match ev with
  | EvFile _ _ => true
  | _ => false
  end.

Definition is_creds (ev : Event) : bool :=
  match ev with
  | EvCreds _ _ => true
  | _ => false
  end.

Definition is_distro_read (ev : Event) : bool :=
  match ev with
  | EvDbRead (distro_FindOne _) => true
  | _ => false
  end.

(** The write that marked the host as provisioned. *)
Definition is_marked (ev : Event) : bool :=
  match ev with
  | EvHostWrite MarkAsProvisioned None => true
  | _ => false
  end.

(** Same status and same provisioned flag. *)
Definition same_standing (w w' : World) : Prop :=
  Status (host w') = Status (host w) /\ Provisioned (host w') = Provisioned (host w).

(** [within P w w']: [w'] is reached from [w] by adding entries that satisfy
    [P].  The job's errors, the host's id and its provision options are the
    same.  The status and the provisioned flag are the same unless a new
    entry is a write that changed the status, the local files are the same
    unless a new entry is a file operation, the credential store is the
    same unless a new entry is a credential operation, and the whole host is
    the same unless a new entry is a write to it or the reload of its
    distro.  The distro of the host is the same unless it was reloaded, and
    the provisioned flag is the same unless the host was marked as
    provisioned. *)
Definition within (P : Event -> Prop) (w w' : World) : Prop :=
  job_errors w' = job_errors w /\
  Id (host w') = Id (host w) /\
  ProvisionOpts (host w') = ProvisionOpts (host w) /\
  exists new,
    trace (sys w') = new ++ trace (sys w) /\
    Forall P new /\
    (existsb changes_status new = false -> same_standing w w') /\
    (existsb is_file new = false -> files (sys w') = files (sys w)) /\
    (existsb is_creds new = false -> creds (sys w') = creds (sys w)) /\
    (existsb changes_host new = false -> host w' = host w) /\
    (existsb is_distro_read new = false -> Distro (host w') = Distro (host w)) /\
    (existsb is_marked new = false -> Provisioned (host w') = Provisioned (host w)).

(** [inside P w0 m]: running [m] keeps the run that started in [w0]
    [within P]. *)
Definition inside (P : Event -> Prop) {A} (w0 : World) (m : M A) : Prop :=
  forall w, within P w0 w -> within P w0 (snd (m w)).

(** ** The errors of a run *)

(** Any entry. *)
Definition anything (_ : Event) : Prop := True.

(** The error that [Run] records when the host is not attached to the job
    and the lookup does not give one. *)
Definition lookup_error (D : Deps) (j : setupHostJob) (s : Sys) : option error :=
  match FindOneId D (trace s) (HostID j) with
  | Err e => Some e
  | Ok None =>
      Some (errors_New ("could not find host " +:+ HostID j +:+ " for job " +:+ TaskID j))
  | Ok (Some _) => None
  end.

(** Answers with which the lookup of the host finds [h]. *)
Definition finds (h : Host) : Deps :=
  answers None never "h1.example.com" never never never never true (Some h).

(** The job with the host [h] attached. *)
Definition attach (h : Host) (j : setupHostJob) : setupHostJob :=
  mkJob (HostID j) (JobID j) (TaskID j) (Some h) (j_errors j) (j_complete j).

(** The error that [setupHost] returns: the context was cancelled when it
    looked. *)
Definition cancel_error (D : Deps) (w : World) : option error :=
  match ctx_Err D (attempt_log :: trace (sys w)) with
  | Some e =>
      Some (errors_Wrap e ("hostinit canceled during setup for host " +:+ Id (host w)))
  | None => None
  end.

(** The error of putting the retry job on the queue, when [tryRequeue] does
    so in the world [w1]. *)
Definition requeue_error (D : Deps) (w1 : World) : option error :=
  if shouldRetryProvisioning (host w1) && Started D (trace (sys w1))
  then Put D (trace (sys w1)) (retry_job (time_Now D (trace (sys w1))) (host w1))
  else None.

(** Entries that act on the host or its machine: everything but log
    entries, database reads and queued jobs. *)
Definition acts (ev : Event) : bool := is_effect ev && negb (is_put ev).

(** No write to the host, no reload of its distro, no credential
    operation. *)
Definition off_host (ev : Event) : Prop :=
  changes_host ev = false /\ is_creds ev = false.

(** No write to the host, no reload of its distro, no local file. *)
Definition off_files (ev : Event) : Prop :=
  changes_host ev = false /\ is_file ev = false.

(** The id of the retry job for the host [h]. *)
Definition retry_id (h : Host) : string :=
  q_ID (NewHostSetupJob h ("attempt-" +:+ fmt_d (ProvisionAttempts h))).

(** The host, the credential store and the job's errors are the same. *)
Definition untouched (w w' : World) : Prop :=
  host w' = host w /\ creds (sys w') = creds (sys w) /\ job_errors w' = job_errors w.

(** ** The spawn-host part of [provisionHost] *)

Definition is_unprovision (ev : Event) : bool :=
  match ev with
  | EvHostWrite SetUnprovisioned _ => true
  | _ => false
  end.

Definition is_setup_run (ev : Event) : bool :=
  match ev with
  | EvRemote OpSetupScriptRun _ _ _ _ => true
  | _ => false
  end.

(** The setup script ran on the host without error. *)
Definition setup_ran (ev : Event) : bool :=
  match ev with
  | EvRemote OpSetupScriptRun _ _ _ None => true
  | _ => false
  end.

Definition is_fetch (ev : Event) : bool :=
  match ev with
  | EvRemote OpTaskDataFetch _ _ _ _ => true
  | _ => false
  end.

(** An entry of [loadClient] or of [fetchRemoteTaskData]. *)
Definition fetch_step (ev : Event) : Prop :=
  is_unprovision ev = false /\ is_setup_run ev = false.

Definition client_step (ev : Event) : Prop :=
  fetch_step ev /\ is_fetch ev = false.

(** The test "if this is a spawn host" of [provisionHost]. *)
Definition is_spawn_host (h : Host) : bool :=
  match ProvisionOpts h with
  | Some po => LoadCLI po
  | None => false
  end.

(** The steps of [provisionHost] for a spawn host, under their test. *)
Definition spawn_part (D : Deps) (ctx : Context) : M (Res unit) :=
  h <- get_host ;;
  match ProvisionOpts h with
  | Some po => if LoadCLI po then provisionHost_spawn D ctx po else ret (Ok tt)
  | None => ret (Ok tt)
  end.

(** ** Runs that end in a given way *)

(** An entry that leaves the status and the provisioned flag alone. *)
Definition keeps_status (ev : Event) : Prop := changes_status ev = false.

(** An entry other than the write that marks the host as provisioned. *)
Definition not_marked (ev : Event) : Prop := is_marked ev = false.

(** What [runHostSetup] adds for a host that the app server does not log
    into: log entries, calls of the cloud manager, and writes of the DNS
    name, of the last communication time and of the status
    [HostProvisionedNotRunning]. *)
Definition hands_off (ev : Event) : Prop :=
  match ev with
  | EvLog _ _ _ | EvCloud _ _ => True
  | EvHostWrite (SetDNSName _) _ | EvHostWrite UpdateLastCommunicated _
  | EvHostWrite SetProvisionedNotRunning _ => True
  | _ => False
  end.

(** Like [inside], for the runs of [m] that do not end in [Q]. *)
Definition inside_unless {A} (Q : A * World -> Prop) (P : Event -> Prop) (w0 : World)
           (m : M A) : Prop :=
  forall w, within P w0 w -> Q (m w) \/ within P w0 (snd (m w)).

(** The call returned nil. *)
Definition returned_nil {A} (rw : Res A * World) : Prop := is_Err (fst rw) = false.

(** The host is provisioned. *)
Definition provisioned {A} (rw : A * World) : Prop :=
  Provisioned (host (snd rw)) = true /\ Status (host (snd rw)) = HostProvisioned.

(** The log entry for a failed step of the cleanup after a script copy. *)
Definition cleanup_log (r : option error) : list Event :=
  match r with
  | Some e => [EvLog LvError "cleaning up after script copy" (Some e)]
  | None => []
  end.

Definition no_slash (s : string) : Prop :=
  Forall (fun c => Ascii.eqb c slash = false) (list_ascii_of_string s).

(** An entry other than the run of the service-user script. *)
Definition not_user_run (ev : Event) : Prop :=
  match ev with
  | EvRemote OpServiceUserRun _ _ _ _ => False
  | _ => True
  end.

(** A Windows host, set up over SSH. *)
Definition windows_host : Host :=
  mkHost "h1" "h1.example.com" "10.0.0.1" "Administrator" "ec2"
         (distro.mkDistro "windows-64" "Administrator" distro.BootstrapMethodSSH "" ""
                          "/data/mci" true true "/home/Administrator")
         HostProvisioning false 0 false None 0 0 0.

(** ** The queued jobs *)

(** [queued_for id ev]: if [ev] is a job put on the queue, the job is a
    retry for the host [id]: it carries a host that [shouldRetryProvisioning]
    accepts, is named after the attempt count of that host, and has
    priority 1. *)
Definition queued_for (id : string) (ev : Event) : Prop :=
  match ev with
  | EvPut job _ =>
      q_HostID job = id /\
      Id (q_host job) = id /\
      q_ID job = retry_id (q_host job) /\
      shouldRetryProvisioning (q_host job) = true /\
      q_Priority job = 1
  | _ => True
  end.

(** ** The result of provisionHost *)

(** The write that marks the host as provisioned, failed. *)
Definition mark_failed (ev : Event) : bool :=
  match ev with
  | EvHostWrite MarkAsProvisioned (Some _) => true
  | _ => false
  end.

(** An entry of the steps before the end of [provisionHost]. *)
Definition before_end (ev : Event) : Prop :=
  is_unprovision ev = false /\ mark_failed ev = false.

(** An entry of the spawn-host steps. *)
Definition spawn_step (ev : Event) : Prop := mark_failed ev = false.

(** * Lemmas *)

Lemma steps_refl inc ctx w : steps inc ctx w w.
Proof.
  repeat split; try lia. exists []. split; [reflexivity | constructor].
Qed.

Lemma steps_trans inc ctx w1 w2 w3 :
  steps inc ctx w1 w2 -> steps inc ctx w2 w3 -> steps inc ctx w1 w3.
Proof.
  intros (Hs1 & Hle1 & Heq1 & new1 & Ht1 & Hf1) (Hs2 & Hle2 & Heq2 & new2 & Ht2 & Hf2).
  repeat split.
  - congruence.
  - lia.
  - intros Hi. rewrite (Heq2 Hi). auto.
  - exists (new2 ++ new1). split.
    + rewrite Ht2, Ht1. apply app_assoc.
    + apply Forall_app. split; [| assumption]. rewrite <- Hs1. assumption.
Qed.

(** One step, adding the entries [evs]. *)
Lemma steps_intro inc ctx w w' evs :
  SpawnedByTask (host w') = SpawnedByTask (host w) ->
  ProvisionAttempts (host w) <= ProvisionAttempts (host w') ->
  (inc = false -> ProvisionAttempts (host w') = ProvisionAttempts (host w)) ->
  trace (sys w') = evs ++ trace (sys w) ->
  Forall (may_emit inc ctx (SpawnedByTask (host w))) evs ->
  steps inc ctx w w'.
Proof.
  intros Hs Hle Heq Ht Hf. repeat split; auto. exists evs. auto.
Qed.

Lemma ok_ret inc ctx {A} w0 (a : A) : ok_at inc ctx w0 (ret a).
Proof. intros w H. exact H. Qed.

Lemma ok_bind inc ctx {A B} w0 (m : M A) (k : A -> M B) :
  ok_at inc ctx w0 m -> (forall a, ok_at inc ctx w0 (k a)) -> ok_at inc ctx w0 (bind m k).
Proof. intros Hm Hk w H. unfold bind. apply Hk. apply Hm. exact H. Qed.

Lemma ok_get_host inc ctx w0 : ok_at inc ctx w0 get_host.
Proof. intros w H. exact H. Qed.

Lemma ok_history inc ctx w0 : ok_at inc ctx w0 history.
Proof. intros w H. exact H. Qed.

Lemma ok_emit inc ctx w0 ev :
  may_emit inc ctx (SpawnedByTask (host w0)) ev -> ok_at inc ctx w0 (emit ev).
Proof.
  intros Hev w H. eapply steps_trans; [exact H |].
  destruct H as (Hs & _).
  apply steps_intro with (evs := [ev]); simpl; auto; try lia.
  constructor; [| constructor]. rewrite Hs. exact Hev.
Qed.

Lemma ok_modify_host inc ctx w0 (f : Host -> Host) :
  (forall h, SpawnedByTask (f h) = SpawnedByTask h) ->
  (forall h, ProvisionAttempts h <= ProvisionAttempts (f h)) ->
  (inc = false -> forall h, ProvisionAttempts (f h) = ProvisionAttempts h) ->
  ok_at inc ctx w0 (modify_host f).
Proof.
  intros Hs Hle Heq w H. eapply steps_trans; [exact H |].
  apply steps_intro with (evs := []); simpl; auto.
Qed.

Lemma ok_modify_creds inc ctx w0 f : ok_at inc ctx w0 (modify_creds f).
Proof.
  intros w H. eapply steps_trans; [exact H |].
  apply steps_intro with (evs := []); simpl; auto; lia.
Qed.

Lemma ok_modify_files inc ctx w0 f : ok_at inc ctx w0 (modify_files f).
Proof.
  intros w H. eapply steps_trans; [exact H |].
  apply steps_intro with (evs := []); simpl; auto; lia.
Qed.

Lemma ok_AddError inc ctx w0 oe : ok_at inc ctx w0 (AddError oe).
Proof.
  intros w H. destruct oe; [| exact H]. eapply steps_trans; [exact H |].
  apply steps_intro with (evs := []); simpl; auto; lia.
Qed.

Lemma ok_grip inc ctx w0 lvl msg : ok_at inc ctx w0 (grip lvl msg).
Proof. apply ok_emit. exact I. Qed.

Lemma ok_grip_WrapError inc ctx w0 lvl oe msg : ok_at inc ctx w0 (grip_WrapError lvl oe msg).
Proof. destruct oe; [apply ok_emit; exact I | apply ok_ret]. Qed.

(** Binding the host: the host that is read has the flag of the host the
    run started with. *)
Lemma ok_bind_host inc ctx {B} w0 (k : Host -> M B) :
  (forall h, SpawnedByTask h = SpawnedByTask (host w0) -> ok_at inc ctx w0 (k h)) ->
  ok_at inc ctx w0 (bind get_host k).
Proof.
  intros Hk w H. unfold bind. simpl. apply Hk; [| exact H].
  destruct H as (Hs & _). exact Hs.
Qed.

Ltac ok_prim :=
  first
    [ apply ok_ret | apply ok_history | apply ok_get_host
    | apply ok_grip | apply ok_grip_WrapError | apply ok_AddError
    | apply ok_modify_creds | apply ok_modify_files
    | apply ok_emit; simpl; solve [auto | intros; discriminate ] ].

(** Walks through a definition: known calls first, then the binds and the
    case distinctions of its body. *)
Ltac ok_walk known :=
  repeat first
    [ known
    | ok_prim
    | apply ok_bind_host; intros ? ?
    | apply ok_bind; [| intros ?]
    | match goal with
      | |- ok_at _ _ _ (match ?x with _ => _ end) => destruct x eqn:?
      | |- ok_at _ _ _ (let _ := _ in _) => cbv zeta
      end
    | progress cbv beta ].

Lemma apply_write_SpawnedByTask now op h :
  SpawnedByTask (apply_write now op h) = SpawnedByTask h.
Proof. destruct op; reflexivity. Qed.

Lemma apply_write_attempts_le now op h :
  ProvisionAttempts h <= ProvisionAttempts (apply_write now op h).
Proof. destruct op; simpl; lia. Qed.

Lemma apply_write_attempts_eq now op h :
  op <> IncProvisionAttempts ->
  ProvisionAttempts (apply_write now op h) = ProvisionAttempts h.
Proof. destruct op; simpl; congruence. Qed.

Lemma ok_apply_write inc ctx w0 now op :
  inc = true \/ op <> IncProvisionAttempts ->
  ok_at inc ctx w0 (modify_host (apply_write now op)).
Proof.
  intros Hop. apply ok_modify_host.
  - intros h. apply apply_write_SpawnedByTask.
  - intros h. apply apply_write_attempts_le.
  - intros Hi h. apply apply_write_attempts_eq. destruct Hop; congruence.
Qed.

Lemma ok_host_write D inc ctx w0 op :
  inc = true \/ op <> IncProvisionAttempts -> ok_at inc ctx w0 (host_write D op).
Proof.
  intros Hop. unfold host_write.
  ok_walk ltac:(first [ apply ok_apply_write; exact Hop
                      | apply ok_emit; exact Hop ]).
Qed.

Lemma ok_cloud_call D inc ctx w0 c : ok_at inc ctx w0 (cloud_call D c).
Proof. unfold cloud_call. ok_walk fail. Qed.

Lemma ok_run_command D inc ctx w0 op c t :
  t = timeout_of ctx op ->
  (op = OpDistroScriptCopy -> SpawnedByTask (host w0) = false) ->
  ok_at inc ctx w0 (run_command D op c t).
Proof.
  intros Ht Hop. unfold run_command.
  ok_walk ltac:(apply ok_emit; split; [exact Ht | exact Hop]).
Qed.

Lemma ok_file_call D inc ctx w0 f : ok_at inc ctx w0 (file_call D f).
Proof. unfold file_call. ok_walk fail. Qed.

Lemma ok_creds_call D inc ctx w0 c : ok_at inc ctx w0 (creds_call D c).
Proof. unfold creds_call. ok_walk fail. Qed.

Lemma ok_db_read inc ctx {A} w0 q (answer : History -> Res A) :
  (forall id, q <> host_FindOneId id) -> ok_at inc ctx w0 (db_read q answer).
Proof.
  intros Hq. unfold db_read. ok_walk ltac:(apply ok_emit; exact Hq).
Qed.

Lemma ok_defer inc ctx {A} w0 (d : M unit) (body : M A) :
  ok_at inc ctx w0 d -> ok_at inc ctx w0 body -> ok_at inc ctx w0 (defer d body).
Proof. intros Hd Hb. unfold defer. ok_walk ltac:(first [exact Hd | exact Hb]). Qed.



Create HintDb ok discriminated.

#[local] Hint Resolve ok_cloud_call ok_file_call ok_creds_call : ok.
#[local] Hint Extern 1 (ok_at _ _ _ (host_write _ _)) =>
  apply ok_host_write; solve [ right; discriminate | left; reflexivity | auto ] : ok.
#[local] Hint Extern 1 (ok_at _ _ _ (run_command _ _ _ _)) =>
  apply ok_run_command; [ reflexivity | solve [ discriminate | auto ] ] : ok.
#[local] Hint Extern 1 (ok_at _ _ _ (db_read _ _)) =>
  apply ok_db_read; intros; discriminate : ok.

Ltac ok_auto := ok_walk ltac:(solve [auto with ok]).

Lemma ok_cloudMgr_GetDNSName D inc ctx w0 : ok_at inc ctx w0 (cloudMgr_GetDNSName D).
Proof. unfold cloudMgr_GetDNSName. ok_auto. Qed.
#[local] Hint Resolve ok_cloudMgr_GetDNSName : ok.

Lemma ok_setDNSName D inc ctx w0 : ok_at inc ctx w0 (setDNSName D).
Proof. unfold setDNSName. ok_auto. Qed.
#[local] Hint Resolve ok_setDNSName : ok.

Lemma ok_ioutil_TempFile D inc ctx w0 p : ok_at inc ctx w0 (ioutil_TempFile D p).
Proof. unfold ioutil_TempFile. ok_auto. Qed.

Lemma ok_util_WriteTempFile D inc ctx w0 d : ok_at inc ctx w0 (util_WriteTempFile D d).
Proof. unfold util_WriteTempFile. ok_auto. Qed.

Lemma ok_host_GenerateJasperCredentials D inc ctx w0 :
  ok_at inc ctx w0 (host_GenerateJasperCredentials D).
Proof. unfold host_GenerateJasperCredentials. ok_auto. Qed.

Lemma ok_expandScript D inc ctx w0 s : ok_at inc ctx w0 (expandScript D s).
Proof. unfold expandScript. ok_auto. Qed.
#[local] Hint Resolve ok_ioutil_TempFile ok_util_WriteTempFile
  ok_host_GenerateJasperCredentials ok_expandScript : ok.

Lemma ok_copyScript_transfer D inc ctx w0 op notice info user file name script :
  op_timeout op = Some scpTimeout ->
  (op = OpDistroScriptCopy -> SpawnedByTask (host w0) = false) ->
  ok_at inc ctx w0 (copyScript_transfer D op notice ctx info user file name script).
Proof.
  intros Ht Hop. unfold copyScript_transfer.
  ok_walk ltac:(first
    [ solve [auto with ok]
    | apply ok_run_command; [unfold timeout_of; rewrite Ht; reflexivity | exact Hop] ]).
Qed.

Lemma ok_copyScript_cleanup D inc ctx w0 file :
  ok_at inc ctx w0 (copyScript_cleanup D file).
Proof. unfold copyScript_cleanup. ok_auto. Qed.

Lemma ok_copyScript_common D inc ctx w0 op notice name script :
  op_timeout op = Some scpTimeout ->
  (op = OpDistroScriptCopy -> SpawnedByTask (host w0) = false) ->
  ok_at inc ctx w0 (copyScript_common D op notice ctx name script).
Proof.
  intros Ht Hop. unfold copyScript_common.
  ok_walk ltac:(first
    [ solve [auto with ok]
    | apply ok_defer; [apply ok_copyScript_cleanup | apply ok_copyScript_transfer; assumption] ]).
Qed.

Lemma ok_copyScript D inc ctx w0 name script :
  ok_at inc ctx w0 (copyScript D ctx name script).
Proof.
  unfold copyScript. apply ok_copyScript_common; [reflexivity | discriminate].
Qed.
#[local] Hint Resolve ok_copyScript : ok.

Lemma ok_job_copyScript D inc ctx w0 name script :
  SpawnedByTask (host w0) = false ->
  ok_at inc ctx w0 (job_copyScript D ctx name script).
Proof.
  intros Hs. unfold job_copyScript. apply ok_bind.
  - apply ok_emit. exact Hs.
  - intros _. apply ok_copyScript_common; [reflexivity | auto].
Qed.

Lemma ok_putJasperCredentials D inc ctx w0 opts :
  ok_at inc ctx w0 (putJasperCredentials D ctx opts).
Proof. unfold putJasperCredentials. ok_auto. Qed.

Lemma ok_setupServiceUser D inc ctx w0 opts :
  ok_at inc ctx w0 (setupServiceUser D ctx opts).
Proof. unfold setupServiceUser. ok_auto. Qed.

Lemma ok_doFetchAndReinstallJasper D inc ctx w0 opts :
  ok_at inc ctx w0 (doFetchAndReinstallJasper D ctx opts).
Proof. unfold doFetchAndReinstallJasper. ok_auto. Qed.
#[local] Hint Resolve ok_putJasperCredentials ok_setupServiceUser
  ok_doFetchAndReinstallJasper : ok.

Lemma ok_setupJasper D inc ctx w0 : ok_at inc ctx w0 (setupJasper D ctx).
Proof. unfold setupJasper. ok_auto. Qed.
#[local] Hint Resolve ok_setupJasper : ok.

Lemma ok_runHostSetup D inc ctx w0 : ok_at inc ctx w0 (runHostSetup D ctx).
Proof.
  unfold runHostSetup.
  ok_walk ltac:(first
    [ solve [auto with ok]
    | apply ok_job_copyScript; congruence ]).
Qed.

Lemma ok_loadClient D inc ctx w0 : ok_at inc ctx w0 (loadClient D ctx).
Proof.
  unfold loadClient.
  ok_walk ltac:(first [ solve [auto with ok] | apply ok_defer ]).
Qed.

Lemma ok_fetchRemoteTaskData D inc ctx w0 t c f :
  ok_at inc ctx w0 (fetchRemoteTaskData D ctx t c f).
Proof. unfold fetchRemoteTaskData. ok_auto. Qed.

Lemma ok_mark_unprovisioned D inc ctx w0 : ok_at inc ctx w0 (mark_unprovisioned D).
Proof. unfold mark_unprovisioned. ok_auto. Qed.
#[local] Hint Resolve ok_runHostSetup ok_loadClient ok_fetchRemoteTaskData
  ok_mark_unprovisioned : ok.

Lemma ok_provisionHost_spawn D inc ctx w0 po :
  ok_at inc ctx w0 (provisionHost_spawn D ctx po).
Proof.
  unfold provisionHost_spawn.
  ok_walk ltac:(first
    [ solve [auto with ok]
    | apply ok_modify_host; [reflexivity | intros; simpl; lia | reflexivity] ]).
Qed.

Lemma ok_provisionHost_mark D inc ctx w0 : ok_at inc ctx w0 (provisionHost_mark D).
Proof. unfold provisionHost_mark. ok_auto. Qed.
#[local] Hint Resolve ok_provisionHost_spawn ok_provisionHost_mark : ok.

Lemma ok_provisionHost_finish D inc ctx w0 r :
  ok_at inc ctx w0 (provisionHost_finish D ctx r).
Proof. unfold provisionHost_finish. ok_auto. Qed.

Lemma ok_setupHost_report D inc ctx w0 r : ok_at inc ctx w0 (setupHost_report D r).
Proof. unfold setupHost_report. ok_auto. Qed.
#[local] Hint Resolve ok_provisionHost_finish ok_setupHost_report : ok.

Lemma ok_provisionHost_begin D ctx w0 : ok_at true ctx w0 (provisionHost_begin D).
Proof. unfold provisionHost_begin. ok_auto. Qed.
#[local] Hint Resolve ok_provisionHost_begin : ok.

Lemma ok_provisionHost D ctx w0 : ok_at true ctx w0 (provisionHost D ctx).
Proof. unfold provisionHost. ok_auto. Qed.
#[local] Hint Resolve ok_provisionHost : ok.

Lemma ok_setupHost D ctx w0 : ok_at true ctx w0 (setupHost D ctx).
Proof. unfold setupHost. ok_auto. Qed.

(** ** Equations for the calls to the outside *)

Lemma bind_eq {A B} (m : M A) (k : A -> M B) w :
  bind m k w = k (fst (m w)) (snd (m w)).
Proof. reflexivity. Qed.

Lemma added_app (new old : History) : added old (new ++ old) = new.
Proof.
  unfold added. rewrite length_app.
  replace (length new + length old - length old)%nat with (length new) by lia.
  rewrite firstn_app, firstn_all, Nat.sub_diag. simpl. apply app_nil_r.
Qed.

Lemma negb_eqb_empty s : negb (String.eqb s "") = true <-> s <> "".
Proof. rewrite Bool.negb_true_iff. apply String.eqb_neq. Qed.

Lemma HostStatus_eqb_eq a b : HostStatus_eqb a b = true <-> a = b.
Proof. destruct a, b; simpl; split; intros; congruence. Qed.

Lemma shouldRetryProvisioning_iff h :
  shouldRetryProvisioning h = true <->
  ProvisionAttempts h <= 15 /\ Status h = HostProvisioning /\ Provisioned h = false.
Proof.
  unfold shouldRetryProvisioning, provisionRetryLimit.
  rewrite !andb_true_iff, Z.leb_le, HostStatus_eqb_eq, negb_true_iff. tauto.
Qed.

Lemma cloud_call_eq D c w :
  cloud_call D c w
  = (cloud D (trace (sys w)) (host w) c,
     mkWorld (host w) (job_errors w)
       (mkSys (EvCloud c (cloud D (trace (sys w)) (host w) c) :: trace (sys w))
              (creds (sys w)) (files (sys w)))).
Proof. reflexivity. Qed.

Lemma host_write_eq D op w :
  let r := persist D (trace (sys w)) (host w) op in
  host_write D op w
  = (r, mkWorld (match r with
                 | None => apply_write (time_Now D (trace (sys w))) op (host w)
                 | Some _ =>
                     if kept_on_failure op
                     then apply_write (time_Now D (trace (sys w))) op (host w)
                     else host w
                 end)
                (job_errors w)
                (mkSys (EvHostWrite op r :: trace (sys w)) (creds (sys w)) (files (sys w)))).
Proof.
  unfold host_write, bind, history, get_host, emit, modify_sys, modify_host, ret. simpl.
  destruct (persist D (trace (sys w)) (host w) op); [destruct (kept_on_failure op) |];
    reflexivity.
Qed.

Lemma file_call_eq D f w :
  let r := fileResult D (trace (sys w)) f in
  file_call D f w
  = (r, mkWorld (host w) (job_errors w)
          (mkSys (EvFile f r :: trace (sys w)) (creds (sys w))
             match r, f with
             | None, TempFile name | None, WriteTempFile name => {[name]} ∪ files (sys w)
             | None, Remove name => files (sys w) ∖ {[name]}
             | _, _ => files (sys w)
             end)).
Proof.
  unfold file_call, bind, history, emit, modify_sys, modify_files, ret. simpl.
  destruct (fileResult D (trace (sys w)) f), f; reflexivity.
Qed.

Lemma file_call_sys D f w :
  let r := fileResult D (trace (sys w)) f in
  fst (file_call D f w) = r /\
  trace (sys (snd (file_call D f w))) = EvFile f r :: trace (sys w) /\
  files (sys (snd (file_call D f w)))
  = match r, f with
    | None, TempFile name | None, WriteTempFile name => {[name]} ∪ files (sys w)
    | None, Remove name => files (sys w) ∖ {[name]}
    | _, _ => files (sys w)
    end.
Proof. intros r. rewrite file_call_eq. repeat split. Qed.

Lemma grip_WrapError_sys lvl oe msg w :
  files (sys (snd (grip_WrapError lvl oe msg w))) = files (sys w) /\
  trace (sys (snd (grip_WrapError lvl oe msg w)))
  = match oe with Some e => [EvLog lvl msg (Some e)] | None => [] end ++ trace (sys w).
Proof. destruct oe; split; reflexivity. Qed.

Lemma provisionHost_begin_host D w :
  host (snd (provisionHost_begin D w))
  = set_ProvisionAttempts (ProvisionAttempts (host w) + 1) (host w).
Proof.
  unfold provisionHost_begin, host_write, bind, grip, emit, modify_sys, modify_host,
    get_host, history, ret.
  simpl.
  destruct (persist D _ _ _); reflexivity.
Qed.

Ltac prefix_of l t :=
  lazymatch l with
  | t => constr:(@nil Event)
  | ?x :: ?l' => let p := prefix_of l' t in constr:(x :: p)
  end.

(** Writes the trace [l] of the goal as the new entries on top of [t]. *)
Ltac split_added :=
  match goal with
  | |- context [added ?t ?l] =>
      let p := prefix_of l t in change l with (p ++ t); rewrite added_app
  end.

(** * The claims *)

(** ** Skipping a host that is already set up *)

Lemma Run_find_trace D j s :
  files (snd (Run_find D j s)) = files s /\
  creds (snd (Run_find D j s)) = creds s /\
  (trace (snd (Run_find D j s)) = trace s \/
   trace (snd (Run_find D j s)) = EvDbRead (host_FindOneId (HostID j)) :: trace s).
Proof.
  unfold Run_find. destruct (j_host j); simpl; auto.
  destruct (FindOneId D (trace s) (HostID j)) as [[h|]|e]; simpl; auto.
Qed.

(** C1.  A run on a host whose status is Running, or whose provisioned flag
    is set, stops at the skip: the job keeps the host as it was, completes
    without a new error, the newest entry of the trace is the "skipping"
    log line, and beyond log lines and the lookup of the host nothing was
    added to the trace (no remote command, no write to the host, no queued
    job); credentials and files are untouched. *)
Theorem Run_skip D ctx j s h :
  fst (Run_find D j s) = Ok h ->
  Status h = HostRunning \/ Provisioned h = true ->
  let r := Run D ctx j s in
  j_host (fst r) = Some h /\
  j_errors (fst r) = j_errors j /\
  j_complete (fst r) = true /\
  hd_error (trace (snd r))
  = Some (EvLog LvInfo "skipping setup because host is already set up" None) /\
  List.filter is_effect (trace (snd r)) = List.filter is_effect (trace s) /\
  creds (snd r) = creds s /\
  files (snd r) = files s.
Proof.
  intros Hf Hskip r. subst r. unfold Run.
  destruct (Run_find_trace D j s) as (Hfiles & Hcreds & Htr).
  destruct (Run_find D j s) as [[h'|e] s'] eqn:E; simpl in Hf; [| discriminate].
  injection Hf as ->. simpl in *.
  assert (Hc : HostStatus_eqb (Status h) HostRunning || Provisioned h = true).
  { destruct Hskip as [-> | ->]; [reflexivity | apply orb_true_r]. }
  unfold Run_host, bind, get_host. simpl. rewrite Hc. simpl.
  repeat split; auto.
  destruct Htr as [-> | ->]; reflexivity.
Qed.

Lemma Run_skip_witness :
  j_host (fst (Run all_ok None (mkJob "h1" "job" "" (Some running_host) [] false) empty_sys))
  = Some running_host.
Proof.
  apply (Run_skip all_ok None (mkJob "h1" "job" "" (Some running_host) [] false)
                  empty_sys running_host).
  - reflexivity.
  - left. reflexivity.
Defined.

(** ** The retry boundary *)

(** C2.  When the bootstrap sequence returns an error, the attempt count has
    already been incremented.  If it is at most 15 and the host is still
    Provisioning and not provisioned, [provisionHost] returns no error and
    changes nothing more.  Otherwise it emits the provisioning-failed event,
    sets the host Unprovisioned (an error of that write is logged, and then
    the host keeps its status) and returns the wrapped error.  For a host
    that is still Provisioning and not provisioned, the first case is taken
    exactly when the attempt count is at most 15. *)
Theorem provisionHost_failure D ctx w err w2 :
  runHostSetup D ctx (snd (provisionHost_begin D w)) = (Err err, w2) ->
  let r := provisionHost D ctx w in
  let h2 := host w2 in
  ProvisionAttempts h2 = ProvisionAttempts (host w) + 1 /\
  (ProvisionAttempts h2 <= 15 /\ Status h2 = HostProvisioning /\ Provisioned h2 = false ->
   r = (Ok tt, w2)) /\
  (~ (ProvisionAttempts h2 <= 15 /\ Status h2 = HostProvisioning /\ Provisioned h2 = false) ->
   let res := persist D (EvAudit (LogProvisionFailed (Id h2) "") :: trace (sys w2)) h2
                      SetUnprovisioned in
   fst r = Err (errors_Wrap err ("error initializing host " +:+ Id h2)) /\
   trace (sys (snd r))
   = match res with
     | Some e => [EvLog LvError "setting host unprovisioned" (Some e)]
     | None => []
     end ++ EvHostWrite SetUnprovisioned res
         :: EvAudit (LogProvisionFailed (Id h2) "") :: trace (sys w2) /\
   (res = None -> Status (host (snd r)) = HostUnprovisioned) /\
   (res <> None -> host (snd r) = h2)) /\
  (Status h2 = HostProvisioning -> Provisioned h2 = false ->
   (r = (Ok tt, w2) <-> ProvisionAttempts h2 <= 15)).
Proof.
  intros Hrun r h2.
  assert (Hr : r = provisionHost_finish D ctx (Err err) w2).
  { subst r. unfold provisionHost. unfold bind at 1 2. cbv beta. rewrite Hrun. reflexivity. }
  assert (Hatt : ProvisionAttempts h2 = ProvisionAttempts (host w) + 1).
  { pose proof (ok_runHostSetup D false ctx _ _
                  (steps_refl false ctx (snd (provisionHost_begin D w))))
      as (_ & _ & Heq & _).
    rewrite Hrun in Heq. simpl in Heq. subst h2. rewrite (Heq eq_refl).
    rewrite provisionHost_begin_host. reflexivity. }
  assert (Hyes : shouldRetryProvisioning h2 = true -> r = (Ok tt, w2)).
  { intros Hs. rewrite Hr. unfold provisionHost_finish, bind, get_host. simpl.
    fold h2. rewrite Hs. reflexivity. }
  assert (Hno : shouldRetryProvisioning h2 = false ->
    let res := persist D (EvAudit (LogProvisionFailed (Id h2) "") :: trace (sys w2)) h2
                      SetUnprovisioned in
   fst r = Err (errors_Wrap err ("error initializing host " +:+ Id h2)) /\
   trace (sys (snd r))
   = match res with
     | Some e => [EvLog LvError "setting host unprovisioned" (Some e)]
     | None => []
     end ++ EvHostWrite SetUnprovisioned res
         :: EvAudit (LogProvisionFailed (Id h2) "") :: trace (sys w2) /\
   (res = None -> Status (host (snd r)) = HostUnprovisioned) /\
   (res <> None -> host (snd r) = h2)).
  { intros Hs res. rewrite Hr.
    unfold provisionHost_finish, mark_unprovisioned, host_write, bind, get_host, history,
      emit, modify_sys, modify_host, ret.
    simpl. unfold h2 in Hs. rewrite Hs. simpl. subst res. unfold h2.
    destruct (persist D _ (host w2) SetUnprovisioned); simpl; repeat split; intros;
      try reflexivity; try congruence. }
  split; [exact Hatt |]. split; [| split].
  - intros Hc. apply Hyes. apply shouldRetryProvisioning_iff. exact Hc.
  - intros Hc. apply Hno. destruct (shouldRetryProvisioning h2) eqn:E; [| reflexivity].
    exfalso. apply Hc. apply shouldRetryProvisioning_iff. exact E.
  - intros Hst Hp. split.
    + intros Hfin.
      destruct (Z.leb_spec (ProvisionAttempts h2) 15) as [Hle | Hgt]; [exact Hle |].
      exfalso.
      assert (Hs : shouldRetryProvisioning h2 = false).
      { destruct (shouldRetryProvisioning h2) eqn:E; [| reflexivity].
        apply shouldRetryProvisioning_iff in E. lia. }
      destruct (Hno Hs) as (Herr & _). rewrite Hfin in Herr. discriminate.
    + intros Hle. apply Hyes. apply shouldRetryProvisioning_iff. auto.
Qed.

(** C2, at a host that fails its 16th attempt: it is set Unprovisioned. *)
Lemma provisionHost_failure_witness :
  Status (host (snd (provisionHost no_manager None (world_of (provisioning_host 15)))))
  = HostUnprovisioned.
Proof.
  pose (w := world_of (provisioning_host 15)).
  pose (w2 := snd (runHostSetup no_manager None (snd (provisionHost_begin no_manager w)))).
  assert (Hrun : runHostSetup no_manager None (snd (provisionHost_begin no_manager w))
                 = (Err (errors_Wrap boom
                      "failed to get cloud manager for host h1 with provider ec2"), w2))
    by reflexivity.
  destruct (provisionHost_failure no_manager None w _ w2 Hrun)
    as (_ & _ & Hno & _).
  destruct Hno as (_ & _ & Hok & _).
  - vm_compute. intros (Hle & _). apply Hle. reflexivity.
  - apply Hok. reflexivity.
Defined.

(** C2 as stated fails: a host that is Starting is set Unprovisioned by its
    first failing run, with the attempt count at 1. *)
Lemma provisionHost_unprovisions_early :
  let w := world_of starting_host in
  let r := provisionHost no_manager None w in
  is_Err (fst (runHostSetup no_manager None (snd (provisionHost_begin no_manager w)))) = true /\
  hd_error (trace (sys (snd r))) = Some (EvHostWrite SetUnprovisioned None) /\
  Status (host (snd r)) = HostUnprovisioned /\
  ProvisionAttempts (host (snd r)) = 1 /\
  ~ (15 < ProvisionAttempts (host (snd r))).
Proof.
  cbv zeta. split; [reflexivity |]. split; [reflexivity |]. split; [reflexivity |].
  split; [reflexivity |]. vm_compute. discriminate.
Qed.

(** ** Credentials *)

(** C3.  [putJasperCredentials], with [c] the bundle generated in this
    call.  Once the bundle is generated and its write command rendered, the
    command is run on the host; when it fails the call ends there, and when
    it succeeds the save of [c] is the next and last thing the call does.
    So in the entries [new] that the call adds: when the remote write
    failed, the call returns an error, no save was attempted, no record was
    stored and the credential store is as before; when the remote write
    succeeded, the newest entry is the save of [c], and if that succeeded
    the call returns nil, exactly one record was stored and the store holds
    [c] under the host's id, while if it failed the call returns an error
    and nothing was stored.  Any save among the entries is a save of [c]
    after a successful remote write.  The call returns nil only after a
    successful write and a successful save, and a call that returns an
    error stored nothing and leaves the store as it was. *)
Theorem putJasperCredentials_atomic D ctx opts w :
  let r := putJasperCredentials D ctx opts w in
  let new := added (trace (sys w)) (trace (sys (snd r))) in
  let c := newCredentials D (trace (sys w)) (host w) in
  let t1 := EvCreds GenerateJasperCredentials None :: trace (sys w) in
  let t2 := EvLog LvInfo "putting Jasper credentials on host" None :: t1 in
  trace (sys (snd r)) = new ++ trace (sys w) /\
  (credsResult D (trace (sys w)) (host w) GenerateJasperCredentials = None ->
   forall cmds,
     WriteJasperCredentialsFilesCommands D t1 (host w) c = Ok cmds ->
     let cmd := RunSSHCommandLiterally cmds opts in
     let ran := run D t2 (host w) cmd (WithTimeout ctx scpTimeout) in
     let wr := EvRemote OpCredentialWrite cmd (WithTimeout ctx scpTimeout)
                        (fst ran) (snd ran) in
     let save := credsResult D (wr :: t2) (host w) (SaveJasperCredentials c) in
     match snd ran with
     | Some _ => new = [wr; EvLog LvInfo "putting Jasper credentials on host" None;
                        EvCreds GenerateJasperCredentials None]
     | None => new = [EvCreds (SaveJasperCredentials c) save; wr;
                      EvLog LvInfo "putting Jasper credentials on host" None;
                      EvCreds GenerateJasperCredentials None]
     end) /\
  (existsb write_failed new = true ->
   is_Err (fst r) = true /\ existsb is_save_attempt new = false /\ stored new = 0%nat /\
   creds (sys (snd r)) = creds (sys w)) /\
  (existsb write_succeeded new = true ->
   exists save,
     hd_error new = Some (EvCreds (SaveJasperCredentials c) save) /\
     match save with
     | None =>
         fst r = Ok tt /\ stored new = 1%nat /\
         creds (sys (snd r)) = <[Id (host w) := c]> (creds (sys w))
     | Some _ =>
         is_Err (fst r) = true /\ stored new = 0%nat /\
         creds (sys (snd r)) = creds (sys w)
     end) /\
  (forall c' res,
      In (EvCreds (SaveJasperCredentials c') res) new ->
      c' = c /\ existsb write_succeeded new = true) /\
  (fst r = Ok tt -> existsb write_succeeded new = true /\ existsb is_saved new = true) /\
  (is_Err (fst r) = true -> stored new = 0%nat /\ creds (sys (snd r)) = creds (sys w)).
Proof.
  cbv zeta.
  unfold putJasperCredentials, host_GenerateJasperCredentials, creds_call,
    run_command, grip, emit, modify_creds, modify_sys, bind, get_host, history, ret.
  simpl.
  destruct (credsResult D (trace (sys w)) (host w) GenerateJasperCredentials) eqn:Eg; simpl.
  { change (?x :: trace (sys w)) with ([x] ++ trace (sys w)). rewrite added_app.
    split; [reflexivity |]. split; [discriminate |]. split; [discriminate |].
    split; [discriminate |]. split.
    - intros c' res [Hin | []]. discriminate.
    - split; [discriminate | intros _; split; reflexivity]. }
  destruct (WriteJasperCredentialsFilesCommands D _ _ _) as [cmds | e] eqn:Ec; simpl.
  2:{ change (?x :: trace (sys w)) with ([x] ++ trace (sys w)). rewrite added_app.
      split; [reflexivity |]. split; [intros _ cmds; discriminate |].
      split; [discriminate |]. split; [discriminate |]. split.
      - intros c' res [Hin | []]. discriminate.
      - split; [discriminate | intros _; split; reflexivity]. }
  destruct (run D _ _ _ _) as [out [e|]] eqn:Er; simpl.
  { split_added.
    split; [reflexivity |].
    split; [intros _ cmds' Hc; injection Hc as <-; rewrite Er; reflexivity |].
    split; [intros _; repeat split |]. split; [discriminate |]. split.
    - intros c' res [Hin | [Hin | [Hin | []]]]; discriminate.
    - split; [discriminate | intros _; split; reflexivity]. }
  destruct (credsResult D _ _ (SaveJasperCredentials _)) as [e |] eqn:Es; simpl.
  { split_added.
    split; [reflexivity |].
    split; [intros _ cmds' Hc; injection Hc as <-; rewrite Er; cbn [fst snd]; rewrite Es;
            reflexivity |].
    split; [discriminate |].
    split; [intros _; eexists; split; [reflexivity |]; repeat split |]. split.
    - intros c' res [Hin | [Hin | [Hin | [Hin | []]]]]; try discriminate.
      injection Hin as <- _. split; reflexivity.
    - split; [discriminate | intros _; split; reflexivity]. }
  split_added.
  split; [reflexivity |].
  split; [intros _ cmds' Hc; injection Hc as <-; rewrite Er; cbn [fst snd]; rewrite Es;
          reflexivity |].
  split; [discriminate |].
  split; [intros _; eexists; split; [reflexivity |]; repeat split |]. split.
  - intros c' res [Hin | [Hin | [Hin | [Hin | []]]]]; try discriminate.
    injection Hin as <- _. split; reflexivity.
  - split; [intros _; split; reflexivity | discriminate].
Qed.

(** C3, where the remote write fails and where everything succeeds. *)
Lemma putJasperCredentials_atomic_witness :
  creds (sys (snd (putJasperCredentials ssh_fails None [] (world_of setup_host)))) = ∅ /\
  fst (putJasperCredentials all_ok None [] (world_of setup_host)) = Ok tt /\
  creds (sys (snd (putJasperCredentials all_ok None [] (world_of setup_host))))
  = <[Id setup_host := newCredentials all_ok [] setup_host]> ∅.
Proof.
  split.
  - destruct (putJasperCredentials_atomic ssh_fails None [] (world_of setup_host))
      as (_ & _ & Hfail & _).
    destruct Hfail as (_ & _ & _ & Hc); [reflexivity | exact Hc].
  - destruct (putJasperCredentials_atomic all_ok None [] (world_of setup_host))
      as (_ & _ & _ & Hok & _).
    destruct Hok as (save & Hhd & Hs); [reflexivity |].
    vm_compute in Hhd. injection Hhd as <-.
    destruct Hs as (Hr & _ & Hc). split; [exact Hr | exact Hc].
Defined.

(** ** The temporary script file *)

Lemma copyScript_cleanup_removes D file w :
  let w' := snd (copyScript_cleanup D file w) in
  exists res tr,
    trace (sys w') = EvLog LvDebug "copy script" None :: tr /\
    In (EvFile (Remove file) res) tr /\
    (res = None -> file ∉ files (sys w')).
Proof.
  unfold copyScript_cleanup, bind, grip, emit, modify_sys. cbv beta.
  cbn [snd sys trace files].
  set (w1 := snd (file_call D (Close file) w)).
  set (w2 := snd (grip_WrapError LvError (fst (file_call D (Close file) w))
                                 "cleaning up after script copy" w1)).
  destruct (file_call_sys D (Remove file) w2) as (Hr & Ht & Hf).
  set (w3 := snd (file_call D (Remove file) w2)) in *.
  set (res := fst (file_call D (Remove file) w2)) in *.
  destruct (grip_WrapError_sys LvError res "cleaning up after script copy" w3) as (Hf4 & Ht4).
  exists res. eexists. split; [reflexivity |]. split.
  - rewrite Ht4. apply in_or_app. right. rewrite Ht. left. rewrite Hr. reflexivity.
  - intros Hres. rewrite Hf4, Hf. rewrite <- Hr. fold res. rewrite Hres.
    apply not_elem_of_difference. right. apply elem_of_singleton. reflexivity.
Qed.

(** The cases of both [copyScript] functions.  When no temporary file was
    created the set of files is as before.  When it was created and making
    it private failed, the file stays and no removal is tried.  Past that
    point the removal is always tried, and the file is gone when the removal
    succeeds. *)
Lemma copyScript_common_files D op notice ctx name script w :
  let r := copyScript_common D op notice ctx name script w in
  let file := tempName D (trace (sys w)) (filepath_Base name) in
  let created := fileResult D (trace (sys w)) (TempFile file) in
  let chmod := fileResult D (EvFile (TempFile file) created :: trace (sys w)) (Chmod file) in
  match GetSSHInfo D (trace (sys w)) (host w), created, chmod with
  | Err _, _, _ | Ok _, Some _, _ => files (sys (snd r)) = files (sys w)
  | Ok _, None, Some _ =>
      files (sys (snd r)) = {[file]} ∪ files (sys w) /\
      existsb is_remove (trace (sys (snd r))) = existsb is_remove (trace (sys w))
  | Ok _, None, None =>
      exists res tr,
        trace (sys (snd r)) = EvLog LvDebug "copy script" None :: tr /\
        In (EvFile (Remove file) res) tr /\
        (res = None -> file ∉ files (sys (snd r)))
  end.
Proof.
  intros r file created chmod. subst r file created chmod.
  unfold copyScript_common, ioutil_TempFile, bind, get_host, history.
  cbn [fst snd].
  destruct (GetSSHInfo D (trace (sys w)) (host w)) as [info|e]; [| reflexivity].
  rewrite file_call_eq. cbn [ret fst snd].
  destruct (fileResult D (trace (sys w)) (TempFile _)) eqn:Ecr; [reflexivity |].
  rewrite file_call_eq. cbn [ret fst snd sys trace host files creds job_errors].
  destruct (fileResult D _ (Chmod _)) eqn:Ech.
  - split; reflexivity.
  - unfold defer, bind. cbn [ret fst snd]. apply copyScript_cleanup_removes.
Qed.

(** C4, where the code leaves the file behind.  The temporary file is
    created, making it private fails, and [setupHostJob.copyScript] returns
    with the file still there: the deferred cleanup was not yet registered,
    and no removal is tried. *)
Theorem copyScript_leaks_on_chmod_failure :
  let w := world_of setup_host in
  let r := job_copyScript chmod_fails None "~/setup.sh" "echo hi" w in
  fst r = Err (errors_Wrap boom "error setting file permissions") /\
  files (sys w) = ∅ /\
  "/tmp/setup.sh0042" ∈ files (sys (snd r)) /\
  existsb is_remove (trace (sys (snd r))) = false.
Proof.
  cbv zeta. split; [reflexivity |]. split; [reflexivity |]. split; [| reflexivity].
  vm_compute. reflexivity.
Qed.

(** ** Resolving the DNS name *)

(** C10.  With a DNS name already set, [setDNSName] returns no error and
    leaves the world as it is, so the cloud manager is not asked.  With no
    name set and a lookup that succeeds: an empty answer gives no error when
    the host has an IP address and an error when it has none, the host
    being unchanged; a non-empty answer is written onto the host, and when
    that write succeeds the call returns no error and the host carries the
    name. *)
Theorem setDNSName_spec D w :
  (DNSName (host w) <> "" -> setDNSName D w = (Ok tt, w)) /\
  (DNSName (host w) = "" ->
   cloud D (trace (sys w)) (host w) GetDNSName = None ->
   let dns := cloudDNSName D (trace (sys w)) (host w) in
   let r := setDNSName D w in
   (dns = "" -> IP (host w) <> "" -> fst r = Ok tt /\ host (snd r) = host w) /\
   (dns = "" -> IP (host w) = "" -> is_Err (fst r) = true /\ host (snd r) = host w) /\
   (dns <> "" ->
    let res := persist D (EvCloud GetDNSName None :: trace (sys w)) (host w)
                       (SetDNSName dns) in
    trace (sys (snd r))
      = EvHostWrite (SetDNSName dns) res :: EvCloud GetDNSName None :: trace (sys w) /\
    (res = None -> fst r = Ok tt /\ DNSName (host (snd r)) = dns) /\
    (res <> None -> is_Err (fst r) = true /\ host (snd r) = host w))).
Proof.
  split.
  - intros Hne. unfold setDNSName, bind, get_host. simpl.
    apply negb_eqb_empty in Hne. rewrite Hne. destruct w; reflexivity.
  - intros He Hc dns r. subst dns r.
    unfold setDNSName, cloudMgr_GetDNSName, cloud_call, host_write, bind, get_host, history.
    simpl. rewrite He. simpl. rewrite Hc. simpl.
    split; [| split].
    + intros Hd Hip. rewrite Hd. simpl. apply negb_eqb_empty in Hip. rewrite Hip.
      split; reflexivity.
    + intros Hd Hip. rewrite Hd, Hip. split; reflexivity.
    + intros Hd. apply String.eqb_neq in Hd. rewrite Hd. simpl.
      destruct (persist D _ _ _); simpl; repeat split; intros; try reflexivity;
        congruence.
Qed.

(** C10, at a host that has a name and at one that gets it from the
    cloud. *)
Lemma setDNSName_spec_witness :
  setDNSName all_ok (world_of named_host) = (Ok tt, world_of named_host) /\
  DNSName (host (snd (setDNSName all_ok (world_of (provisioning_host 0)))))
  = "h1.example.com".
Proof.
  split.
  - apply (proj1 (setDNSName_spec all_ok (world_of named_host))). discriminate.
  - destruct (proj2 (setDNSName_spec all_ok (world_of (provisioning_host 0)))
                    eq_refl eq_refl) as (_ & _ & Hset).
    destruct Hset as (_ & Hok & _); [discriminate |].
    apply Hok. reflexivity.
Defined.

(** ** Hosts bootstrapped with user data *)





(** ** The shape of a run *)

Lemma tryRequeue_spec D ctx w :
  let w' := snd (tryRequeue D ctx w) in
  let job := retry_job (time_Now D (trace (sys w))) (host w) in
  let r := Put D (trace (sys w)) job in
  if shouldRetryProvisioning (host w) && Started D (trace (sys w)) then
    w' = mkWorld (host w) (job_errors w ++ error_list r)
           (mkSys (requeue_log r ++ EvPut job r :: trace (sys w))
                  (creds (sys w)) (files (sys w)))
  else w' = w.
Proof.
  unfold tryRequeue, queue_Put, bind, get_host, history, emit, modify_sys, ret.
  simpl.
  destruct (shouldRetryProvisioning (host w) && Started D (trace (sys w))).
  - unfold retry_job, NewHostSetupJob, UpdateTimeInfo, setupHostJobName, time_Minute,
      time_Second.
    simpl.
    destruct (Put D _ _); simpl; try reflexivity.
    rewrite app_nil_r. destruct w as [? ? []]; reflexivity.
  - reflexivity.
Qed.

Lemma Run_host_eq D ctx w :
  snd (Run_host D ctx w)
  = if skips (host w)
    then mkWorld (host w) (job_errors w)
           (mkSys (skip_log :: trace (sys w)) (creds (sys w)) (files (sys w)))
    else snd (tryRequeue D ctx (before_requeue D ctx w)).
Proof.
  unfold Run_host, skips. rewrite bind_eq. cbn [get_host fst snd].
  destruct (HostStatus_eqb (Status (host w)) HostRunning || Provisioned (host w));
    reflexivity.
Qed.

Lemma before_requeue_steps D ctx w : steps true ctx w (before_requeue D ctx w).
Proof.
  unfold before_requeue.
  apply (ok_bind true ctx w (setupHost D ctx) (fun err => AddError err)).
  - apply ok_setupHost.
  - intros a. apply ok_AddError.
  - apply steps_refl.
Qed.

Lemma before_requeue_cancelled D ctx w e :
  ctx_Err D (attempt_log :: trace (sys w)) = Some e ->
  host (before_requeue D ctx w) = host w /\
  trace (sys (before_requeue D ctx w)) = attempt_log :: trace (sys w).
Proof.
  intros Hc. unfold before_requeue, setupHost.
  rewrite !bind_eq. cbn [get_host history grip emit modify_sys fst snd sys trace].
  fold attempt_log. rewrite Hc. split; reflexivity.
Qed.

Lemma before_requeue_reaching D ctx w :
  ctx_Err D (attempt_log :: trace (sys w)) = None ->
  before_requeue D ctx w
  = snd (after_increment D ctx (snd (provisionHost_begin D (at_provisionHost w)))).
Proof.
  intros Hc. unfold before_requeue, setupHost.
  rewrite !bind_eq. cbn [get_host history grip emit modify_sys fst snd sys trace].
  fold attempt_log. rewrite Hc. reflexivity.
Qed.

Lemma provisionHost_begin_trace D w :
  let r := persist D (EvLog LvInfo "setting up host" None :: trace (sys w)) (host w)
                   IncProvisionAttempts in
  trace (sys (snd (provisionHost_begin D w)))
  = inc_log r ++ EvHostWrite IncProvisionAttempts r
      :: EvLog LvInfo "setting up host" None :: trace (sys w).
Proof.
  unfold provisionHost_begin, host_write, bind, grip, emit, modify_sys, modify_host,
    get_host, history, ret.
  simpl. destruct (persist D _ _ _); reflexivity.
Qed.

Lemma after_increment_steps D ctx w : steps false ctx w (snd (after_increment D ctx w)).
Proof.
  unfold after_increment.
  apply (ok_bind false ctx w); [apply ok_runHostSetup | intros r | apply steps_refl].
  apply ok_bind; [apply ok_provisionHost_finish | intros r'].
  apply ok_bind; [apply ok_setupHost_report | intros err].
  apply ok_AddError.
Qed.

Lemma may_emit_not_put inc ctx sp l :
  Forall (may_emit inc ctx sp) l -> List.filter is_put l = [].
Proof.
  induction 1 as [| ev l Hev _ IH]; [reflexivity |].
  destruct ev; simpl in *; auto. contradiction.
Qed.

Lemma may_emit_not_inc ctx sp l :
  Forall (may_emit false ctx sp) l -> List.filter is_inc l = [].
Proof.
  induction 1 as [| ev l Hev _ IH]; [reflexivity |].
  destruct ev as [| | |op r| | | | | | ]; simpl in *; auto.
  destruct op; auto. destruct Hev; congruence.
Qed.

Lemma filter_put_requeue_log r : List.filter is_put (requeue_log r) = [].
Proof. destruct r; reflexivity. Qed.

Lemma filter_inc_log r : List.filter is_inc (inc_log r) = [].
Proof. destruct r; reflexivity. Qed.

Lemma filter_inc_requeue_log r : List.filter is_inc (requeue_log r) = [].
Proof. destruct r; reflexivity. Qed.

Lemma Forall_requeue_log ctx sp r : Forall (run_emit ctx sp) (requeue_log r).
Proof. destruct r; repeat constructor. Qed.

Lemma Run_host_entries D ctx w :
  Forall (run_emit ctx (SpawnedByTask (host w)))
         (added (trace (sys w)) (trace (sys (snd (Run_host D ctx w))))).
Proof.
  rewrite Run_host_eq. destruct (skips (host w)).
  - cbn [sys trace]. rewrite (added_app [skip_log]). repeat constructor.
  - pose proof (tryRequeue_spec D ctx (before_requeue D ctx w)) as Hq. cbv zeta in Hq.
    destruct (before_requeue_steps D ctx w) as (_ & _ & _ & new1 & Ht1 & Hf1).
    assert (Hn1 : Forall (run_emit ctx (SpawnedByTask (host w))) new1).
    { eapply List.Forall_impl; [| exact Hf1]. intros ev Hev. left. exact Hev. }
    destruct (shouldRetryProvisioning _ && Started D _).
    + rewrite Hq. cbn [sys trace]. rewrite Ht1.
      change (requeue_log ?r ++ ?e :: new1 ++ ?t) with (requeue_log r ++ [e] ++ new1 ++ t).
      rewrite !app_assoc, added_app, <- !app_assoc.
      apply Forall_app. split; [apply Forall_requeue_log |].
      apply Forall_app. split; [| exact Hn1].
      constructor; [right; reflexivity | constructor].
    + rewrite Hq, Ht1, added_app. exact Hn1.
Qed.

Lemma Run_find_added D j s :
  exists pre,
    trace (snd (Run_find D j s)) = pre ++ trace s /\
    Forall (fun ev => by_job ev = true) pre.
Proof.
  unfold Run_find. destruct (j_host j).
  - exists []. split; [reflexivity | constructor].
  - exists [EvDbRead (host_FindOneId (HostID j))].
    split; [| repeat constructor].
    destruct (FindOneId D (trace s) (HostID j)) as [[h|]|e]; reflexivity.
Qed.

Lemma Run_host_added D ctx w :
  exists new,
    trace (sys (snd (Run_host D ctx w))) = new ++ trace (sys w) /\
    added (trace (sys w)) (trace (sys (snd (Run_host D ctx w)))) = new.
Proof.
  rewrite Run_host_eq. destruct (skips (host w)).
  - exists [skip_log]. split; [reflexivity | apply (added_app [skip_log])].
  - pose proof (tryRequeue_spec D ctx (before_requeue D ctx w)) as Hq. cbv zeta in Hq.
    destruct (before_requeue_steps D ctx w) as (_ & _ & _ & new1 & Ht1 & _).
    destruct (shouldRetryProvisioning _ && Started D _).
    + rewrite Hq. cbn [sys trace]. rewrite Ht1. eexists.
      split; [| rewrite app_comm_cons, app_assoc; apply added_app].
      rewrite app_comm_cons, app_assoc. reflexivity.
    + rewrite Hq, Ht1. exists new1. split; [reflexivity | apply added_app].
Qed.

(** Every entry that a run adds is one that [setupHost] may add, the lookup
    of the host, or the queued job. *)
Lemma Run_entries D ctx j s :
  match fst (Run_find D j s) with
  | Ok h =>
      Forall (run_emit ctx (SpawnedByTask h))
             (added (trace s) (trace (snd (Run D ctx j s))))
  | Err _ =>
      Forall (fun ev => by_job ev = true)
             (added (trace s) (trace (snd (Run D ctx j s))))
  end.
Proof.
  unfold Run. destruct (Run_find_added D j s) as (pre & Hpre & Hby).
  destruct (Run_find D j s) as [[h|e] s0]; cbn [fst snd] in *.
  - pose proof (Run_host_entries D ctx (mkWorld h (j_errors j) s0)) as Hrun.
    destruct (Run_host_added D ctx (mkWorld h (j_errors j) s0)) as (new & Ht & Hadd).
    cbn [host sys] in Hrun, Ht, Hadd. rewrite Hadd in Hrun.
    rewrite Ht, Hpre, app_assoc, added_app.
    apply Forall_app. split; [exact Hrun |].
    eapply List.Forall_impl; [| exact Hby]. intros ev Hev. right. exact Hev.
  - rewrite Hpre, added_app. exact Hby.
Qed.

(** ** Task-spawned hosts *)

(** C6.  In a run on a host whose spawned-by-task flag is set,
    [setupHostJob.copyScript] is never called and no distro script is
    transferred, whatever setup and teardown scripts the distro has. *)
Theorem Run_spawned_no_scripts D ctx j s h :
  fst (Run_find D j s) = Ok h ->
  SpawnedByTask h = true ->
  existsb is_distro_copy (added (trace s) (trace (snd (Run D ctx j s)))) = false.
Proof.
  intros Hf Hs. pose proof (Run_entries D ctx j s) as H. rewrite Hf, Hs in H.
  induction H as [| ev l Hev _ IH]; [reflexivity |].
  simpl. rewrite IH, orb_false_r.
  destruct Hev as [Hev | Hev]; destruct ev as [| | | | | | | |op| ]; simpl in *;
    try reflexivity; try discriminate.
  destruct op; try reflexivity. destruct Hev as (_ & Hev). discriminate (Hev eq_refl).
Qed.

(** C6, at a task-spawned host whose distro has the setup script
    "echo hi". *)
Lemma Run_spawned_no_scripts_witness :
  existsb is_distro_copy
    (added (trace empty_sys) (trace (snd (Run all_ok None (job_for task_host) empty_sys))))
  = false.
Proof.
  apply (Run_spawned_no_scripts all_ok None (job_for task_host) empty_sys task_host);
    reflexivity.
Defined.

(** A host that is not task-spawned does get its setup script. *)
Example Run_copies_setup_script :
  existsb is_distro_copy
    (added (trace empty_sys) (trace (snd (Run all_ok None (job_for setup_host) empty_sys))))
  = true.
Proof. vm_compute. reflexivity. Qed.

(** ** The attempt count *)

Lemma Run_host_attempts_once D ctx w :
  let w' := snd (Run_host D ctx w) in
  let new := added (trace (sys w)) (trace (sys w')) in
  let r := persist D (EvLog LvInfo "setting up host" None
                        :: EvLog LvInfo "provisioning host" None
                        :: attempt_log :: trace (sys w)) (host w) IncProvisionAttempts in
  if reaches D w then
    ProvisionAttempts (host w') = ProvisionAttempts (host w) + 1 /\
    List.filter is_inc new = [EvHostWrite IncProvisionAttempts r] /\
    exists later,
      new = later ++ inc_log r
              ++ [EvHostWrite IncProvisionAttempts r;
                  EvLog LvInfo "setting up host" None;
                  EvLog LvInfo "provisioning host" None;
                  attempt_log]
  else
    ProvisionAttempts (host w') = ProvisionAttempts (host w) /\
    List.filter is_inc new = [].
Proof.
  intros w' new r.
  subst new. unfold w', reaches. rewrite Run_host_eq.
  destruct (skips (host w)); cbn [negb andb].
  { cbn [host sys trace]. rewrite (added_app [skip_log]). split; reflexivity. }
  pose proof (tryRequeue_spec D ctx (before_requeue D ctx w)) as Hq. cbv zeta in Hq.
  set (w1 := before_requeue D ctx w) in *.
  assert (Hw' : host (snd (tryRequeue D ctx w1)) = host w1 /\
                exists tq, trace (sys (snd (tryRequeue D ctx w1))) = tq ++ trace (sys w1) /\
                           List.filter is_inc tq = []).
  { destruct (shouldRetryProvisioning (host w1) && Started D (trace (sys w1)));
      rewrite Hq; split; try reflexivity.
    - eexists (requeue_log _ ++ [_]). rewrite <- app_assoc. split; [reflexivity |].
      rewrite List.filter_app, filter_inc_requeue_log. reflexivity.
    - exists []. split; reflexivity. }
  destruct Hw' as (Hh & tq & Htq & Hftq). rewrite Hh, Htq.
  destruct (ctx_Err D (attempt_log :: trace (sys w))) eqn:Hc.
  - destruct (before_requeue_cancelled D ctx w e Hc) as (Hh1 & Ht1). fold w1 in Hh1, Ht1.
    rewrite Hh1, Ht1.
    change (tq ++ attempt_log :: trace (sys w)) with (tq ++ [attempt_log] ++ trace (sys w)).
    rewrite app_assoc, added_app, List.filter_app, Hftq. split; reflexivity.
  - pose proof (before_requeue_reaching D ctx w Hc) as Hw1. fold w1 in Hw1.
    set (wb := snd (provisionHost_begin D (at_provisionHost w))) in *.
    destruct (after_increment_steps D ctx wb) as (_ & _ & Hatt & later & Hlater & Hf).
    rewrite <- Hw1 in Hatt, Hlater.
    rewrite (Hatt eq_refl), Hlater. unfold wb.
    rewrite provisionHost_begin_host, provisionHost_begin_trace.
    cbn [at_provisionHost host sys trace ProvisionAttempts set_ProvisionAttempts].
    fold r.
    change (tq ++ later ++ inc_log r ++ ?a :: ?b :: ?c :: ?d :: trace (sys w))
      with (tq ++ later ++ inc_log r ++ [a; b; c; d] ++ trace (sys w)).
    rewrite !app_assoc, added_app, <- !app_assoc.
    split; [reflexivity |]. split.
    + rewrite !List.filter_app, Hftq, (may_emit_not_inc _ _ _ Hf), filter_inc_log.
      reflexivity.
    + exists (tq ++ later). rewrite <- app_assoc. reflexivity.
Qed.

Lemma document_app now base a b doc :
  document now base (a ++ b) doc = document now (b ++ base) a (document now base b doc).
Proof.
  induction a as [| ev a IH]; [reflexivity |].
  cbn [app document]. rewrite IH, <- app_assoc. reflexivity.
Qed.

Lemma document_attempts now base new doc :
  ProvisionAttempts (document now base new doc)
  = ProvisionAttempts doc + Z.of_nat (length (List.filter inc_done new)).
Proof.
  induction new as [| ev new IH]; cbn [document List.filter length]; [lia |].
  destruct ev as [| | | op [e |] | | | | | |]; cbn [inc_done]; try exact IH.
  - destruct op; exact IH.
  - destruct op; cbn [apply_write inc_done length]; cbn; rewrite IH; lia.
Qed.

Lemma filter_inc_done l :
  List.filter inc_done l = List.filter inc_done (List.filter is_inc l).
Proof.
  induction l as [| ev l IH]; [reflexivity |].
  destruct ev as [| | | [] [e |] | | | | | |]; cbn [List.filter inc_done is_inc];
    rewrite <- IH; reflexivity.
Qed.

Lemma document_identity now base new doc :
  Id (document now base new doc) = Id doc /\
  ProvisionOpts (document now base new doc) = ProvisionOpts doc.
Proof.
  induction new as [| ev new IH]; cbn [document]; [split; reflexivity |].
  destruct ev as [| | | op [e |] | | | | | |]; try exact IH.
  destruct op; exact IH.
Qed.

(** [Run] on a job that comes from the queue, when the lookup answers with
    the document: the outside and the errors of the job are those of
    [Run_stored]. *)
Lemma Run_from_queue D ctx j w :
  j_host j = None ->
  j_errors j = [] ->
  HostID j = Id (host w) ->
  FindOneId D (trace (sys w)) (HostID j) = Ok (Some (host w)) ->
  snd (Run D ctx j (sys w)) = sys (Run_stored D ctx w) /\
  j_errors (fst (Run D ctx j (sys w))) = job_errors (Run_stored D ctx w).
Proof.
  intros Hh He Hid Hfind. unfold Run, Run_find. rewrite Hh, Hfind, He, Hid.
  split; reflexivity.
Qed.

(** The count in the database after one run from the queue. *)
Lemma Run_stored_attempts D ctx w :
  ProvisionAttempts (host (Run_stored D ctx w))
  = ProvisionAttempts (host w)
    + (if persists_increment D (looked_up w) then 1 else 0).
Proof.
  unfold Run_stored. cbn [host]. rewrite document_attempts, filter_inc_done.
  pose proof (Run_host_attempts_once D ctx (looked_up w)) as H. cbv zeta in H.
  unfold persists_increment.
  destruct (reaches D (looked_up w)); cbn [andb].
  - destruct H as (_ & Hf & _). rewrite Hf. cbn [looked_up host].
    destruct (persist D _ (host w) IncProvisionAttempts); reflexivity.
  - destruct H as (_ & Hf). rewrite Hf. reflexivity.
Qed.






(** Nor is the count the initial value plus the number of runs when the
    increment cannot be persisted: every run gets to the bootstrap sequence
    and works with a count of 1, the next one finds 0 again, and the host
    is retried without end. *)
Example unpersisted_increment_is_lost :
  let w := world_of (provisioning_host 0) in
  let wn := Run_host_n inc_fails None 16 w in
  reaches inc_fails (looked_up w) = true /\
  ProvisionAttempts (host (snd (Run_host inc_fails None (looked_up w)))) = 1 /\
  ProvisionAttempts (host wn) = 0 /\
  Status (host wn) = HostProvisioning /\
  length (List.filter is_put (trace (sys wn))) = 16%nat.
Proof. vm_compute. repeat split. Qed.

(** Sixteen failing runs in a row: the count is 16 and the host is
    Unprovisioned; after fifteen it was still Provisioning. *)
Example sixteen_failures :
  let w := world_of (provisioning_host 0) in
  ProvisionAttempts (host (Run_host_n no_manager None 16 w)) = 16 /\
  Status (host (Run_host_n no_manager None 16 w)) = HostUnprovisioned /\
  Status (host (Run_host_n no_manager None 15 w)) = HostProvisioning.
Proof. vm_compute. repeat split. Qed.

(** ** Requeueing *)

(** C8.  A run puts a job on the queue exactly when it was not skipped, the
    host it leaves has at most 15 attempts, is Provisioning and is not
    provisioned, and the remote queue is started.  Then it puts exactly one
    job: for the same host, with an id that ends in the attempt count, not to
    run before one minute from now.  An error [r] of the queue is logged and
    added to the job's errors; no second attempt is made. *)
Theorem Run_host_requeue D ctx w :
  let w1 := before_requeue D ctx w in
  let w' := snd (Run_host D ctx w) in
  let puts := List.filter is_put (added (trace (sys w)) (trace (sys w'))) in
  let job := retry_job (time_Now D (trace (sys w1))) (host w') in
  let r := Put D (trace (sys w1)) job in
  (shouldRetryProvisioning (host w') = true <->
   ProvisionAttempts (host w') <= 15 /\ Status (host w') = HostProvisioning
   /\ Provisioned (host w') = false) /\
  if negb (skips (host w)) && shouldRetryProvisioning (host w') && Started D (trace (sys w1))
  then puts = [EvPut job r] /\
       trace (sys w') = requeue_log r ++ EvPut job r :: trace (sys w1) /\
       job_errors w' = job_errors w1 ++ error_list r
  else puts = [].
Proof.
  intros w1 w' puts job r. split; [apply shouldRetryProvisioning_iff |].
  subst puts job r.
  unfold w'. rewrite Run_host_eq. fold w'.
  destruct (skips (host w)) eqn:Hskip; cbn [negb andb].
  - cbn [sys trace]. rewrite (added_app [skip_log]). reflexivity.
  - fold w1. pose proof (tryRequeue_spec D ctx w1) as Hq. cbv zeta in Hq.
    destruct (before_requeue_steps D ctx w) as (_ & _ & _ & new1 & Ht1 & Hf1).
    fold w1 in Ht1.
    assert (Hh : host (snd (tryRequeue D ctx w1)) = host w1).
    { destruct (shouldRetryProvisioning (host w1) && Started D (trace (sys w1)));
        rewrite Hq; reflexivity. }
    rewrite Hh.
    destruct (shouldRetryProvisioning (host w1) && Started D (trace (sys w1))) eqn:Hc.
    + rewrite Hq. cbn [sys trace job_errors]. rewrite Ht1.
      change (requeue_log ?r ++ ?e :: new1 ++ ?t) with (requeue_log r ++ [e] ++ new1 ++ t).
      rewrite !app_assoc, added_app, <- !app_assoc.
      rewrite !List.filter_app, filter_put_requeue_log, (may_emit_not_put _ _ _ _ Hf1).
      repeat split.
    + rewrite Hq, Ht1, added_app. apply (may_emit_not_put _ _ _ _ Hf1).
Qed.

(** After a first failing run the job queued is the one for attempt 1. *)
Example requeue_after_first_failure :
  let w' := snd (Run_host no_manager None (world_of (provisioning_host 0))) in
  map (fun ev => match ev with
                 | EvPut job _ => (q_ID job, q_HostID job)
                 | _ => ("", "")
                 end)
      (List.filter is_put (trace (sys w')))
  = [("provisioning-setup-host.h1.attempt-1", "h1")].
Proof. vm_compute. reflexivity. Qed.

(** ** Deadlines *)

Lemma op_timeout_amended op : op_timeout op = amended_timeout op.
Proof. destruct op; reflexivity. Qed.

Lemma respects_respectsb table ctx ev :
  respects table ctx ev -> respectsb table ctx ev = true.
Proof.
  destruct ev; simpl; auto. intros ->.
  destruct (under table ctx op); simpl; [apply Z.eqb_refl | reflexivity].
Qed.

(** C9.  Every command of a run goes out under the job's context with the
    timeout of its call site: 30 seconds for the remote shell setup of the
    client directory and for the transfer of the client's config file, 60
    seconds for the credential write and every script copy, 120 seconds for
    the download of the client binary, 900 seconds for the fetch of the
    task's data.  The three remaining commands (running the service-user
    script, fetching and reinstalling Jasper, running the spawn host's setup
    script) have no deadline of their own: they run under the context of
    the job as it is. *)
Theorem Run_deadlines D ctx j s :
  let new := added (trace s) (trace (snd (Run D ctx j s))) in
  Forall (respects amended_timeout ctx) new /\
  forall op c t out r,
    In (EvRemote op c t out r) new ->
    match op with
    | OpCliDirSetup | OpConfigTransfer => t = WithTimeout ctx (seconds 30)
    | OpCredentialWrite | OpServiceUserScriptCopy | OpDistroScriptCopy =>
        t = WithTimeout ctx (seconds 60)
    | OpClientDownload => t = WithTimeout ctx (seconds 120)
    | OpTaskDataFetch => t = WithTimeout ctx (seconds 900)
    | OpServiceUserRun | OpFetchJasper | OpSetupScriptRun => t = ctx
    end.
Proof.
  intros new.
  assert (Hall : Forall (respects amended_timeout ctx) new).
  { subst new. pose proof (Run_entries D ctx j s) as H.
    assert (Hgen : forall sp ev, run_emit ctx sp ev -> respects amended_timeout ctx ev).
    { intros sp ev [Hev | Hev]; destruct ev; simpl in *; try exact I; try discriminate.
      destruct Hev as (Ht & _). unfold under. rewrite <- op_timeout_amended. exact Ht. }
    destruct (fst (Run_find D j s)).
    - eapply List.Forall_impl; [| exact H]. apply Hgen.
    - eapply List.Forall_impl; [| exact H]. intros ev Hev. apply (Hgen true). right.
      exact Hev. }
  split; [exact Hall |].
  intros op c t out r Hin. rewrite List.Forall_forall in Hall.
  specialize (Hall _ Hin). cbn [respects] in Hall. rewrite Hall.
  destruct op; reflexivity.
Qed.

(** The fetch of Jasper on a host that is set up over ssh: the command runs
    under the context of the job, here one without a deadline. *)
Example jasper_fetch_has_no_deadline :
  existsb (fun ev => match ev with
                     | EvRemote OpFetchJasper _ None _ _ => true
                     | _ => false
                     end)
          (trace (snd (Run all_ok None (job_for setup_host) empty_sys))) = true.
Proof. vm_compute. reflexivity. Qed.

(** C9 as stated fails: on a spawn host that asks for the client, the
    config file is transferred under a 30-second timeout, not the 60 seconds
    of a file transfer. *)
Lemma config_transfer_has_30_seconds :
  ~ Forall (respects claimed_timeout None)
      (added (trace empty_sys)
             (trace (snd (Run all_ok None (job_for spawn_host) empty_sys)))).
Proof.
  intros H.
  assert (Hb : forallb (respectsb claimed_timeout None)
                 (added (trace empty_sys)
                    (trace (snd (Run all_ok None (job_for spawn_host) empty_sys))))
               = true).
  { apply forallb_forall. intros ev Hin. apply respects_respectsb.
    rewrite List.Forall_forall in H. apply H. exact Hin. }
  vm_compute in Hb. discriminate.
Qed.

(** * The frame of a run *)

Lemma within_refl P w : within P w w.
Proof.
  repeat split. exists []. repeat split; constructor.
Qed.

Lemma creds_call_eq D c w :
  let r := credsResult D (trace (sys w)) (host w) c in
  creds_call D c w
  = (r, mkWorld (host w) (job_errors w)
          (mkSys (EvCreds c r :: trace (sys w))
             match r, c with
             | None, SaveJasperCredentials b => <[Id (host w) := b]> (creds (sys w))
             | None, DeleteJasperCredentials => delete (Id (host w)) (creds (sys w))
             | _, _ => creds (sys w)
             end
             (files (sys w)))).
Proof.
  unfold creds_call, bind, history, get_host, emit, modify_sys, modify_creds, ret. simpl.
  destruct (credsResult D (trace (sys w)) (host w) c), c; reflexivity.
Qed.

Lemma within_trans P w1 w2 w3 : within P w1 w2 -> within P w2 w3 -> within P w1 w3.
Proof.
  intros (He1 & Hi1 & Hp1 & new1 & Ht1 & Hf1 & Hs1 & Hfl1 & Hcr1 & Hh1 & Hd1 & Hm1)
         (He2 & Hi2 & Hp2 & new2 & Ht2 & Hf2 & Hs2 & Hfl2 & Hcr2 & Hh2 & Hd2 & Hm2).
  split; [congruence |]. split; [congruence |]. split; [congruence |].
  exists (new2 ++ new1). split; [rewrite Ht2, Ht1; apply app_assoc |].
  split; [apply Forall_app; auto |].
  rewrite !existsb_app.
  split; [| split; [| split; [| split; [| split]]]]; intros H;
    apply orb_false_elim in H; destruct H as (H2 & H1).
  - destruct (Hs1 H1) as (Ha & Hb). destruct (Hs2 H2) as (Hc & Hd).
    split; congruence.
  - rewrite (Hfl2 H2). apply Hfl1. exact H1.
  - rewrite (Hcr2 H2). apply Hcr1. exact H1.
  - rewrite (Hh2 H2). apply Hh1. exact H1.
  - rewrite (Hd2 H2). apply Hd1. exact H1.
  - rewrite (Hm2 H2). apply Hm1. exact H1.
Qed.

(** One step that adds the entries [evs]. *)
Lemma within_intro P w w' evs :
  job_errors w' = job_errors w ->
  Id (host w') = Id (host w) ->
  ProvisionOpts (host w') = ProvisionOpts (host w) ->
  trace (sys w') = evs ++ trace (sys w) ->
  Forall P evs ->
  (existsb changes_status evs = false -> same_standing w w') ->
  (existsb is_file evs = false -> files (sys w') = files (sys w)) ->
  (existsb is_creds evs = false -> creds (sys w') = creds (sys w)) ->
  (existsb changes_host evs = false -> host w' = host w) ->
  (existsb is_distro_read evs = false -> Distro (host w') = Distro (host w)) ->
  (existsb is_marked evs = false -> Provisioned (host w') = Provisioned (host w)) ->
  within P w w'.
Proof.
  intros He Hi Hp Ht Hf Hs Hfl Hcr Hh Hd Hm.
  split; [exact He |]. split; [exact Hi |]. split; [exact Hp |].
  exists evs. tauto.
Qed.

Lemma inside_ret P {A} w0 (a : A) : inside P w0 (ret a).
Proof. intros w H. exact H. Qed.

Lemma inside_bind P {A B} w0 (m : M A) (k : A -> M B) :
  inside P w0 m -> (forall a, inside P w0 (k a)) -> inside P w0 (bind m k).
Proof. intros Hm Hk w H. unfold bind. apply Hk. apply Hm. exact H. Qed.

Lemma inside_get_host P w0 : inside P w0 get_host.
Proof. intros w H. exact H. Qed.

Lemma inside_history P w0 : inside P w0 history.
Proof. intros w H. exact H. Qed.

Lemma inside_emit P w0 ev : P ev -> inside P w0 (emit ev).
Proof.
  intros Hev w H. eapply within_trans; [exact H |].
  apply within_intro with (evs := [ev]); try reflexivity.
  - constructor; [exact Hev | constructor].
  - intros _. split; reflexivity.
Qed.

Lemma inside_grip P w0 lvl msg :
  (forall l m e, P (EvLog l m e)) -> inside P w0 (grip lvl msg).
Proof. intros HP. apply inside_emit. apply HP. Qed.

Lemma inside_grip_WrapError P w0 lvl oe msg :
  (forall l m e, P (EvLog l m e)) -> inside P w0 (grip_WrapError lvl oe msg).
Proof. intros HP. destruct oe; [apply inside_emit; apply HP | apply inside_ret]. Qed.

Lemma inside_host_write P D w0 op :
  (forall r, P (EvHostWrite op r)) -> inside P w0 (host_write D op).
Proof.
  intros HP w H. eapply within_trans; [exact H |].
  rewrite host_write_eq. cbn [snd].
  apply within_intro with (evs := [EvHostWrite op (persist D (trace (sys w)) (host w) op)]);
    try reflexivity.
  - destruct (persist D _ _ _); [destruct (kept_on_failure op) |]; destruct op; reflexivity.
  - destruct (persist D _ _ _); [destruct (kept_on_failure op) |]; destruct op; reflexivity.
  - constructor; [apply HP | constructor].
  - cbn [existsb]. rewrite orb_false_r.
    destruct (persist D _ _ _); destruct op; cbn; intros Hc; try discriminate;
      split; reflexivity.
  - discriminate.
  - intros _. destruct (persist D _ _ _); [destruct (kept_on_failure op) |];
      destruct op; reflexivity.
  - cbn [existsb]. rewrite orb_false_r.
    destruct (persist D _ _ _); destruct op; cbn; intros Hc; try discriminate;
      reflexivity.
Qed.

Lemma inside_cloud_call P D w0 c :
  (forall c r, P (EvCloud c r)) -> inside P w0 (cloud_call D c).
Proof.
  intros HP. unfold cloud_call.
  apply inside_bind; [apply inside_history | intros hs].
  apply inside_bind; [apply inside_get_host | intros h].
  apply inside_bind; [apply inside_emit; apply HP | intros _]. apply inside_ret.
Qed.

Lemma inside_run_command P D w0 op c t :
  (forall out r, P (EvRemote op c t out r)) -> inside P w0 (run_command D op c t).
Proof.
  intros HP. unfold run_command.
  apply inside_bind; [apply inside_history | intros hs].
  apply inside_bind; [apply inside_get_host | intros h].
  apply inside_bind; [apply inside_emit; apply HP | intros _]. apply inside_ret.
Qed.

Lemma inside_file_call P D w0 f :
  (forall f r, P (EvFile f r)) -> inside P w0 (file_call D f).
Proof.
  intros HP w H. eapply within_trans; [exact H |].
  rewrite file_call_eq. cbn [snd].
  apply within_intro with (evs := [EvFile f (fileResult D (trace (sys w)) f)]);
    try reflexivity.
  - constructor; [apply HP | constructor].
  - intros _. split; reflexivity.
  - discriminate.
Qed.

Lemma inside_creds_call P D w0 c :
  (forall c r, P (EvCreds c r)) -> inside P w0 (creds_call D c).
Proof.
  intros HP w H. eapply within_trans; [exact H |].
  rewrite creds_call_eq. cbn [snd].
  apply within_intro
    with (evs := [EvCreds c (credsResult D (trace (sys w)) (host w) c)]);
    try reflexivity.
  - constructor; [apply HP | constructor].
  - intros _. split; reflexivity.
  - discriminate.
Qed.

Lemma inside_db_read P {A} w0 q (answer : History -> Res A) :
  P (EvDbRead q) -> inside P w0 (db_read q answer).
Proof.
  intros HP. unfold db_read.
  apply inside_bind; [apply inside_history | intros hs].
  apply inside_bind; [apply inside_emit; apply HP | intros _]. apply inside_ret.
Qed.

(** The reload of the distro in [provisionHost]: the read and the assignment
    [h.Distro = d] that follows it. *)
Lemma inside_reload P {A} w0 id answer (K : Res distro.Distro -> M A) :
  P (EvDbRead (distro_FindOne id)) ->
  (forall e, inside P w0 (K (Err e))) ->
  (forall d, exists K2,
      K (Ok d) = bind (modify_host (set_Distro d)) K2 /\ forall u, inside P w0 (K2 u)) ->
  inside P w0 (bind (db_read (distro_FindOne id) answer) K).
Proof.
  intros HP HE HO w H. rewrite bind_eq.
  destruct (fst (db_read (distro_FindOne id) answer w)) as [d | e].
  - destruct (HO d) as (K2 & -> & HK). rewrite bind_eq. apply HK.
    eapply within_trans; [exact H |].
    apply within_intro with (evs := [EvDbRead (distro_FindOne id)]); try reflexivity.
    + constructor; [exact HP | constructor].
    + intros _. split; reflexivity.
    + discriminate.
    + discriminate.
  - apply HE. apply (inside_db_read P w0 (distro_FindOne id) answer HP). exact H.
Qed.

Lemma inside_defer P {A} w0 (d : M unit) (body : M A) :
  inside P w0 d -> inside P w0 body -> inside P w0 (defer d body).
Proof.
  intros Hd Hb. unfold defer.
  apply inside_bind; [exact Hb | intros a].
  apply inside_bind; [exact Hd | intros _]. apply inside_ret.
Qed.

(** Walks through a definition: known calls first, then the binds and the
    case distinctions of its body. *)
Ltac in_walk known :=
  repeat first
    [ known
    | apply inside_ret | apply inside_history | apply inside_get_host
    | apply inside_bind; [| intros ?]
    | match goal with
      | |- inside _ _ (match ?x with _ => _ end) => destruct x eqn:?
      | |- inside _ _ (let _ := _ in _) => cbv zeta
      end
    | progress cbv beta ].

(** ** The frame of each function *)

Section Inside.

Variable D : Deps.
Variable P : Event -> Prop.
Hypothesis P_log : forall l m e, P (EvLog l m e).
Hypothesis P_cloud : forall c r, P (EvCloud c r).
Hypothesis P_file : forall f r, P (EvFile f r).
Hypothesis P_creds : forall c r, P (EvCreds c r).
Hypothesis P_CredentialWrite : forall c t out r, P (EvRemote OpCredentialWrite c t out r).
Hypothesis P_ServiceUserScriptCopy :
  forall c t out r, P (EvRemote OpServiceUserScriptCopy c t out r).
Hypothesis P_ServiceUserRun : forall c t out r, P (EvRemote OpServiceUserRun c t out r).
Hypothesis P_FetchJasper : forall c t out r, P (EvRemote OpFetchJasper c t out r).
Hypothesis P_DistroScriptCopy : forall c t out r, P (EvRemote OpDistroScriptCopy c t out r).
Hypothesis P_CliDirSetup : forall c t out r, P (EvRemote OpCliDirSetup c t out r).
Hypothesis P_ClientDownload : forall c t out r, P (EvRemote OpClientDownload c t out r).
Hypothesis P_ConfigTransfer : forall c t out r, P (EvRemote OpConfigTransfer c t out r).
Hypothesis P_SetupScriptRun : forall c t out r, P (EvRemote OpSetupScriptRun c t out r).
Hypothesis P_TaskDataFetch : forall c t out r, P (EvRemote OpTaskDataFetch c t out r).
Hypothesis P_user : forall id, P (EvDbRead (user_FindOne id)).
Hypothesis P_distro : forall id, P (EvDbRead (distro_FindOne id)).
Hypothesis P_audit : forall a, P (EvAudit a).
Hypothesis P_enter : forall n s, P (EvEnterCopyScript n s).
Hypothesis P_SetDNSName : forall dns r, P (EvHostWrite (SetDNSName dns) r).
Hypothesis P_IncProvisionAttempts : forall r, P (EvHostWrite IncProvisionAttempts r).
Hypothesis P_UpdateLastCommunicated : forall r, P (EvHostWrite UpdateLastCommunicated r).
Hypothesis P_SetProvisionedNotRunning :
  forall r, P (EvHostWrite SetProvisionedNotRunning r).
Hypothesis P_SetUnprovisioned : forall r, P (EvHostWrite SetUnprovisioned r).
Hypothesis P_MarkAsProvisioned : forall r, P (EvHostWrite MarkAsProvisioned r).

Ltac prim :=
  first
    [ apply inside_grip; exact P_log
    | apply inside_grip_WrapError; exact P_log
    | apply inside_cloud_call; exact P_cloud
    | apply inside_file_call; exact P_file
    | apply inside_creds_call; exact P_creds
    | apply inside_run_command; intros;
      first [ apply P_CredentialWrite | apply P_ServiceUserRun | apply P_FetchJasper
            | apply P_CliDirSetup | apply P_ClientDownload | apply P_ConfigTransfer
            | apply P_SetupScriptRun | apply P_TaskDataFetch ]
    | apply inside_db_read; first [apply P_user | apply P_distro]
    | apply inside_emit; first [apply P_audit | apply P_enter]
    | apply inside_host_write; intros;
      first [ apply P_SetDNSName | apply P_IncProvisionAttempts
            | apply P_UpdateLastCommunicated | apply P_SetProvisionedNotRunning
            | apply P_SetUnprovisioned | apply P_MarkAsProvisioned ] ].

Lemma inside_cloudMgr_GetDNSName w0 : inside P w0 (cloudMgr_GetDNSName D).
Proof. unfold cloudMgr_GetDNSName. in_walk prim. Qed.

Lemma inside_setDNSName w0 : inside P w0 (setDNSName D).
Proof.
  unfold setDNSName.
  in_walk ltac:(first [prim | apply inside_cloudMgr_GetDNSName]).
Qed.

Lemma inside_ioutil_TempFile w0 p : inside P w0 (ioutil_TempFile D p).
Proof. unfold ioutil_TempFile. in_walk prim. Qed.

Lemma inside_util_WriteTempFile w0 d : inside P w0 (util_WriteTempFile D d).
Proof. unfold util_WriteTempFile. in_walk prim. Qed.

Lemma inside_host_GenerateJasperCredentials w0 :
  inside P w0 (host_GenerateJasperCredentials D).
Proof. unfold host_GenerateJasperCredentials. in_walk prim. Qed.

Lemma inside_expandScript w0 s : inside P w0 (expandScript D s).
Proof. unfold expandScript. in_walk prim. Qed.

Lemma inside_copyScript_transfer w0 op notice ctx info user file name script :
  (forall c t out r, P (EvRemote op c t out r)) ->
  inside P w0 (copyScript_transfer D op notice ctx info user file name script).
Proof.
  intros P_op. unfold copyScript_transfer.
  in_walk ltac:(first
    [ prim | apply inside_expandScript
    | apply inside_run_command; intros; apply P_op ]).
Qed.

Lemma inside_copyScript_cleanup w0 file : inside P w0 (copyScript_cleanup D file).
Proof. unfold copyScript_cleanup. in_walk prim. Qed.

Lemma inside_copyScript_common w0 op notice ctx name script :
  (forall c t out r, P (EvRemote op c t out r)) ->
  inside P w0 (copyScript_common D op notice ctx name script).
Proof.
  intros P_op. unfold copyScript_common.
  in_walk ltac:(first
    [ prim | apply inside_ioutil_TempFile
    | apply inside_defer;
      [apply inside_copyScript_cleanup | apply inside_copyScript_transfer; exact P_op] ]).
Qed.

Lemma inside_copyScript w0 ctx name script : inside P w0 (copyScript D ctx name script).
Proof. apply inside_copyScript_common. exact P_ServiceUserScriptCopy. Qed.

Lemma inside_job_copyScript w0 ctx name script :
  inside P w0 (job_copyScript D ctx name script).
Proof.
  unfold job_copyScript.
  in_walk ltac:(first
    [ prim | apply inside_copyScript_common; exact P_DistroScriptCopy ]).
Qed.

Lemma inside_putJasperCredentials w0 ctx opts :
  inside P w0 (putJasperCredentials D ctx opts).
Proof.
  unfold putJasperCredentials.
  in_walk ltac:(first [prim | apply inside_host_GenerateJasperCredentials]).
Qed.

Lemma inside_setupServiceUser w0 ctx opts : inside P w0 (setupServiceUser D ctx opts).
Proof. unfold setupServiceUser. in_walk ltac:(first [prim | apply inside_copyScript]). Qed.

Lemma inside_doFetchAndReinstallJasper w0 ctx opts :
  inside P w0 (doFetchAndReinstallJasper D ctx opts).
Proof. unfold doFetchAndReinstallJasper. in_walk prim. Qed.

Lemma inside_setupJasper w0 ctx : inside P w0 (setupJasper D ctx).
Proof.
  unfold setupJasper.
  in_walk ltac:(first
    [ prim | apply inside_setupServiceUser | apply inside_putJasperCredentials
    | apply inside_doFetchAndReinstallJasper ]).
Qed.

Lemma inside_loadClient w0 ctx : inside P w0 (loadClient D ctx).
Proof.
  unfold loadClient.
  in_walk ltac:(first [prim | apply inside_util_WriteTempFile | apply inside_defer]).
Qed.

Lemma inside_fetchRemoteTaskData w0 ctx t c f :
  inside P w0 (fetchRemoteTaskData D ctx t c f).
Proof. unfold fetchRemoteTaskData. in_walk prim. Qed.

Lemma inside_runHostSetup w0 ctx : inside P w0 (runHostSetup D ctx).
Proof.
  unfold runHostSetup.
  in_walk ltac:(first
    [ prim | apply inside_setDNSName | apply inside_setupJasper
    | apply inside_job_copyScript ]).
Qed.

Lemma inside_mark_unprovisioned w0 : inside P w0 (mark_unprovisioned D).
Proof.
  unfold mark_unprovisioned.
  in_walk prim.
Qed.

Lemma inside_provisionHost_spawn w0 ctx po : inside P w0 (provisionHost_spawn D ctx po).
Proof.
  unfold provisionHost_spawn.
  in_walk ltac:(first
    [ prim | apply inside_loadClient | apply inside_mark_unprovisioned
    | apply inside_fetchRemoteTaskData
    | apply inside_reload;
      [ apply P_distro | intros ?; cbn beta iota
      | intros ?; eexists; split; [reflexivity | intros ?; cbn beta] ] ]).
Qed.

Lemma inside_provisionHost_mark w0 : inside P w0 (provisionHost_mark D).
Proof.
  unfold provisionHost_mark.
  in_walk prim.
Qed.

Lemma inside_provisionHost_finish w0 ctx r : inside P w0 (provisionHost_finish D ctx r).
Proof.
  unfold provisionHost_finish.
  in_walk ltac:(first
    [ prim | apply inside_mark_unprovisioned | apply inside_provisionHost_spawn
    | apply inside_provisionHost_mark ]).
Qed.

Lemma inside_provisionHost_begin w0 : inside P w0 (provisionHost_begin D).
Proof.
  unfold provisionHost_begin.
  in_walk prim.
Qed.

Lemma inside_provisionHost w0 ctx : inside P w0 (provisionHost D ctx).
Proof.
  unfold provisionHost.
  in_walk ltac:(first
    [ apply inside_provisionHost_begin | apply inside_runHostSetup
    | apply inside_provisionHost_finish ]).
Qed.

Lemma inside_setupHost_report w0 r : inside P w0 (setupHost_report D r).
Proof. unfold setupHost_report. in_walk prim. Qed.

Lemma inside_setupHost w0 ctx : inside P w0 (setupHost D ctx).
Proof.
  unfold setupHost.
  in_walk ltac:(first [prim | apply inside_provisionHost | apply inside_setupHost_report]).
Qed.

End Inside.

(** * More of the job *)

(** ** Finding the host *)

(** X1.  [Run], lines 79-88: when no host is attached to the job and the
    lookup fails or finds nothing, the run records that one error, marks the
    job complete and does nothing else: the only new entry is the lookup,
    and credentials and files are as before. *)
Theorem Run_host_missing D ctx j s e :
  j_host j = None ->
  lookup_error D j s = Some e ->
  Run D ctx j s
  = (mkJob (HostID j) (JobID j) (TaskID j) None (j_errors j ++ [e]) true,
     mkSys (EvDbRead (host_FindOneId (HostID j)) :: trace s) (creds s) (files s)).
Proof.
  intros Hj He. unfold Run, Run_find, lookup_error in *. rewrite Hj.
  destruct (FindOneId D (trace s) (HostID j)) as [[h |] | e'].
  - discriminate.
  - injection He as <-. reflexivity.
  - injection He as <-. reflexivity.
Qed.

Lemma Run_host_missing_witness :
  Run all_ok None (mkJob "h1" "job" "t1" None [] false) empty_sys
  = (mkJob "h1" "job" "t1" None
       ([] ++ [errors_New ("could not find host " +:+ "h1" +:+ " for job " +:+ "t1")]) true,
     mkSys (EvDbRead (host_FindOneId "h1") :: trace empty_sys)
           (creds empty_sys) (files empty_sys)).
Proof.
  apply (Run_host_missing all_ok None (mkJob "h1" "job" "t1" None [] false) empty_sys);
    reflexivity.
Defined.

(** X2.  [Run], lines 79-89: when no host is attached to the job and the
    lookup finds the host [h], the run is the run of the job with [h]
    attached, after the entry of the lookup. *)
Theorem Run_host_found D ctx j s h :
  j_host j = None ->
  FindOneId D (trace s) (HostID j) = Ok (Some h) ->
  Run D ctx j s
  = Run D ctx (attach h j) (add_event (EvDbRead (host_FindOneId (HostID j))) s).
Proof.
  intros Hj Hf. unfold Run, Run_find, attach. cbn [j_host HostID JobID TaskID j_errors].
  rewrite Hj, Hf. reflexivity.
Qed.

Lemma Run_host_found_witness :
  Run (finds running_host) None (mkJob "h1" "job" "" None [] false) empty_sys
  = Run (finds running_host) None
        (attach running_host (mkJob "h1" "job" "" None [] false))
        (add_event (EvDbRead (host_FindOneId (HostID (mkJob "h1" "job" "" None [] false))))
                   empty_sys).
Proof.
  apply (Run_host_found (finds running_host) None (mkJob "h1" "job" "" None [] false)
           empty_sys running_host);
    reflexivity.
Defined.

(** ** The errors of the job *)

Lemma setupHost_within D ctx w : within anything w (snd (setupHost D ctx w)).
Proof.
  apply (inside_setupHost D anything); try (intros; exact I). apply within_refl.
Qed.

Lemma setupHost_report_fst D r w : fst (setupHost_report D r w) = None.
Proof.
  unfold setupHost_report. rewrite !bind_eq. cbn [get_host fst snd].
  match goal with |- context [if ?c then _ else _] => destruct c end; reflexivity.
Qed.

Lemma setupHost_fst D ctx w : fst (setupHost D ctx w) = cancel_error D w.
Proof.
  unfold setupHost, cancel_error. rewrite !bind_eq.
  cbn [get_host history grip emit modify_sys fst snd sys trace]. fold attempt_log.
  destruct (ctx_Err D (attempt_log :: trace (sys w))); [reflexivity |].
  rewrite !bind_eq. apply setupHost_report_fst.
Qed.

Lemma AddError_eq oe w :
  snd (AddError oe w) = mkWorld (host w) (job_errors w ++ error_list oe) (sys w).
Proof.
  destruct oe; simpl; [reflexivity |]. rewrite app_nil_r. destruct w; reflexivity.
Qed.

Lemma before_requeue_eq D ctx w :
  before_requeue D ctx w
  = mkWorld (host (snd (setupHost D ctx w)))
            (job_errors w ++ error_list (cancel_error D w))
            (sys (snd (setupHost D ctx w))).
Proof.
  unfold before_requeue. rewrite bind_eq, AddError_eq, setupHost_fst.
  destruct (setupHost_within D ctx w) as (He & _). rewrite He. reflexivity.
Qed.

Lemma tryRequeue_errors D ctx w1 :
  job_errors (snd (tryRequeue D ctx w1)) = job_errors w1 ++ error_list (requeue_error D w1) /\
  host (snd (tryRequeue D ctx w1)) = host w1.
Proof.
  pose proof (tryRequeue_spec D ctx w1) as H. cbv zeta in H. unfold requeue_error.
  destruct (shouldRetryProvisioning (host w1) && Started D (trace (sys w1))).
  - rewrite H. split; reflexivity.
  - rewrite H. simpl. rewrite app_nil_r. split; reflexivity.
Qed.

Lemma before_requeue_errors D ctx w :
  job_errors (before_requeue D ctx w) = job_errors w ++ error_list (cancel_error D w).
Proof. rewrite before_requeue_eq. reflexivity. Qed.

(** X3.  [Run], [setupHost] and [tryRequeue]: the only errors that a run
    adds to the job are the cancellation error of [setupHost] and the error
    of putting the retry job on the queue. An error of [provisionHost] is
    logged and never becomes an error of the job; a skipped run adds none. *)
Theorem Run_host_errors D ctx w :
  let w' := snd (Run_host D ctx w) in
  job_errors w'
  = job_errors w
      ++ (if skips (host w) then []
          else error_list (cancel_error D w)
                 ++ error_list (requeue_error D (before_requeue D ctx w))).
Proof.
  cbv zeta. rewrite Run_host_eq. destruct (skips (host w)).
  - simpl. rewrite app_nil_r. reflexivity.
  - destruct (tryRequeue_errors D ctx (before_requeue D ctx w)) as (He & _).
    rewrite He, before_requeue_errors, app_assoc. reflexivity.
Qed.

Lemma length_error_list r : (length (error_list r) <= 1)%nat.
Proof. destruct r; simpl; lia. Qed.

(** A run keeps the errors of the job and adds at most two. *)
Lemma Run_host_adds_errors D ctx w :
  exists es,
    job_errors (snd (Run_host D ctx w)) = job_errors w ++ es /\ (length es <= 2)%nat.
Proof.
  rewrite Run_host_eq. destruct (skips (host w)).
  - exists []. split; [simpl; rewrite app_nil_r; reflexivity | simpl; lia].
  - destruct (tryRequeue_errors D ctx (before_requeue D ctx w)) as (He & _).
    rewrite He, before_requeue_errors, <- app_assoc.
    eexists. split; [reflexivity |].
    rewrite length_app.
    pose proof (length_error_list (cancel_error D w)).
    pose proof (length_error_list (requeue_error D (before_requeue D ctx w))). lia.
Qed.

(** X4.  [Run], lines 75-107: on every path the job is marked complete and
    keeps its ids, the errors it had are kept, and at most two errors are
    added. *)
Theorem Run_completes D ctx j s :
  let r := Run D ctx j s in
  j_complete (fst r) = true /\
  HostID (fst r) = HostID j /\
  JobID (fst r) = JobID j /\
  TaskID (fst r) = TaskID j /\
  exists es, j_errors (fst r) = j_errors j ++ es /\ (length es <= 2)%nat.
Proof.
  cbv zeta. unfold Run. destruct (Run_find D j s) as [[h | e] s'];
    cbn [fst j_complete HostID JobID TaskID j_errors].
  - repeat split. apply (Run_host_adds_errors D ctx (mkWorld h (j_errors j) s')).
  - repeat split. exists [e]. split; [reflexivity | simpl; lia].
Qed.

(** ** What a run keeps *)

Lemma Run_host_within_id D ctx w :
  Id (host (snd (Run_host D ctx w))) = Id (host w) /\
  ProvisionOpts (host (snd (Run_host D ctx w))) = ProvisionOpts (host w).
Proof.
  rewrite Run_host_eq. destruct (skips (host w)); [split; reflexivity |].
  destruct (tryRequeue_errors D ctx (before_requeue D ctx w)) as (_ & Hh).
  rewrite Hh, before_requeue_eq. cbn [host].
  destruct (setupHost_within D ctx w) as (_ & Hi & Hp & _). split; assumption.
Qed.

Lemma Run_stored_identity D ctx w :
  Id (host (Run_stored D ctx w)) = Id (host w) /\
  ProvisionOpts (host (Run_stored D ctx w)) = ProvisionOpts (host w).
Proof. unfold Run_stored. cbn [host]. apply document_identity. Qed.

(** X5.  [Run] over any number of runs: no step of the job changes the id of
    the host or its provision options (owner, task and whether to load the
    client), so every retry works on the host it was queued for.  This
    holds for the host in the database after [n] runs and for the host
    struct that the next run leaves. *)
Theorem Run_host_n_identity D ctx n :
  forall w,
    Id (host (Run_host_n D ctx n w)) = Id (host w) /\
    ProvisionOpts (host (Run_host_n D ctx n w)) = ProvisionOpts (host w) /\
    let w' := snd (Run_host D ctx (looked_up (Run_host_n D ctx n w))) in
    Id (host w') = Id (host w) /\ ProvisionOpts (host w') = ProvisionOpts (host w).
Proof.
  assert (H : forall w,
             Id (host (Run_host_n D ctx n w)) = Id (host w) /\
             ProvisionOpts (host (Run_host_n D ctx n w)) = ProvisionOpts (host w)).
  { induction n as [| n IH]; intros w; cbn [Run_host_n].
    - split; reflexivity.
    - destruct (IH (Run_stored D ctx w)) as (Hi & Hp).
      destruct (Run_stored_identity D ctx w) as (Hi' & Hp').
      split; congruence. }
  intros w. destruct (H w) as (Hi & Hp).
  split; [exact Hi |]. split; [exact Hp |]. cbv zeta.
  destruct (Run_host_within_id D ctx (looked_up (Run_host_n D ctx n w))) as (Hi' & Hp').
  cbn [looked_up host] in Hi', Hp'. split; congruence.
Qed.

(** ** A cancelled run *)

(** X6.  [setupHost], lines 122-124, and [Run]: when the context is already
    cancelled, the run writes its first log entry and stops: the host, the
    credentials and the files are as before and no entry acts on the host;
    the job gets the cancellation error. The deferred requeue still runs, so
    a retry job may be queued. *)
Theorem Run_host_cancelled D ctx w e :
  skips (host w) = false ->
  ctx_Err D (attempt_log :: trace (sys w)) = Some e ->
  let w1 := before_requeue D ctx w in
  let w' := snd (Run_host D ctx w) in
  w1 = mkWorld (host w)
         (job_errors w
            ++ [errors_Wrap e ("hostinit canceled during setup for host " +:+ Id (host w))])
         (mkSys (attempt_log :: trace (sys w)) (creds (sys w)) (files (sys w))) /\
  w' = snd (tryRequeue D ctx w1) /\
  host w' = host w /\
  creds (sys w') = creds (sys w) /\
  files (sys w') = files (sys w) /\
  List.filter acts (added (trace (sys w)) (trace (sys w'))) = [].
Proof.
  intros Hs Hc. cbv zeta.
  assert (H1 : before_requeue D ctx w
               = mkWorld (host w)
                   (job_errors w
                      ++ [errors_Wrap e
                            ("hostinit canceled during setup for host " +:+ Id (host w))])
                   (mkSys (attempt_log :: trace (sys w)) (creds (sys w)) (files (sys w)))).
  { unfold before_requeue, setupHost.
    rewrite !bind_eq. cbn [get_host history grip emit modify_sys fst snd sys trace].
    fold attempt_log. rewrite Hc. reflexivity. }
  rewrite Run_host_eq, Hs. split; [exact H1 |]. split; [reflexivity |].
  pose proof (tryRequeue_spec D ctx (before_requeue D ctx w)) as H. cbv zeta in H.
  destruct (shouldRetryProvisioning _ && Started D _).
  - rewrite H, H1. cbn [host sys trace creds files]. repeat split.
    change (requeue_log ?r ++ ?p :: attempt_log :: ?t)
      with (requeue_log r ++ [p; attempt_log] ++ t).
    rewrite app_assoc, added_app, List.filter_app.
    match goal with |- context [requeue_log ?r] => destruct r end; reflexivity.
  - rewrite H, H1. cbn [host sys trace creds files]. repeat split.
    change (attempt_log :: trace (sys w)) with ([attempt_log] ++ trace (sys w)).
    rewrite added_app. reflexivity.
Qed.

Lemma Run_host_cancelled_witness :
  let w := world_of (provisioning_host 0) in
  let w1 := before_requeue cancelled None w in
  let w' := snd (Run_host cancelled None w) in
  w1 = mkWorld (host w)
         (job_errors w
            ++ [errors_Wrap boom ("hostinit canceled during setup for host " +:+ Id (host w))])
         (mkSys (attempt_log :: trace (sys w)) (creds (sys w)) (files (sys w))) /\
  w' = snd (tryRequeue cancelled None w1) /\
  host w' = host w /\
  creds (sys w') = creds (sys w) /\
  files (sys w') = files (sys w) /\
  List.filter acts (added (trace (sys w)) (trace (sys w'))) = [].
Proof.
  apply (Run_host_cancelled cancelled None (world_of (provisioning_host 0)) boom);
    reflexivity.
Defined.

(** ** Credentials after a failed attempt *)

(** X7.  [setupHost], lines 134-154: after [provisionHost] returned an error
    for a host bootstrapped over SSH, the host's Jasper credentials are
    deleted (one attempt, whose error is only logged). When [provisionHost]
    returned nil, as it does for a failure that will be retried, or the host
    is bootstrapped in another way, the credential store is not touched. The
    host itself is never changed. *)
Theorem setupHost_report_credentials D r w :
  let w' := snd (setupHost_report D r w) in
  let new := added (trace (sys w)) (trace (sys w')) in
  let res := credsResult D (EvAudit (LogHostProvisionError (Id (host w))) :: trace (sys w))
                         (host w) DeleteJasperCredentials in
  host w' = host w /\
  files (sys w') = files (sys w) /\
  if is_Err r && match distro.Method (Distro (host w)) with
                 | distro.BootstrapMethodSSH => true
                 | _ => false
                 end
  then List.filter is_creds new = [EvCreds DeleteJasperCredentials res] /\
       creds (sys w')
       = match res with
         | None => delete (Id (host w)) (creds (sys w))
         | Some _ => creds (sys w)
         end
  else List.filter is_creds new = [] /\ creds (sys w') = creds (sys w).
Proof.
  cbv zeta. unfold setupHost_report.
  destruct r as [[] | err]; cbn [is_Err andb].
  - rewrite !bind_eq. cbn [get_host ret fst snd].
    match goal with |- context [if ?c then _ else _] => destruct c end;
      cbn [grip emit modify_sys bind ret fst snd host sys trace creds files];
      (split; [reflexivity |]); (split; [reflexivity |]);
      (split; [| reflexivity]);
      match goal with
      | |- context [added ?t (?x :: ?t)] => change (x :: t) with ([x] ++ t)
      end; rewrite added_app; reflexivity.
  - destruct (distro.Method (Distro (host w))) eqn:Hm;
      rewrite !bind_eq; cbn [get_host emit modify_sys fst snd]; rewrite ?Hm.
    all: try rewrite !bind_eq.
    all: try rewrite creds_call_eq.
    all: cbn [fst snd host sys trace creds files grip_WrapError emit modify_sys ret bind
                get_host job_errors].
    all: try (destruct (credsResult D _ _ _) eqn:Hr).
    all: cbn [fst snd host sys trace creds files grip_WrapError emit modify_sys ret bind
                get_host job_errors grip].
    all: match goal with |- context [if ?c then _ else _] => destruct c end.
    all: cbn [fst snd host sys trace creds files grip_WrapError emit modify_sys ret bind
                get_host job_errors grip].
    all: (split; [reflexivity |]); (split; [reflexivity |]).
    all: (split; [| reflexivity]).
    all: match goal with
         | |- context [added ?t ?l] =>
             let p := prefix_of l t in change l with (p ++ t)
         end; rewrite added_app; reflexivity.
Qed.

(** ** The ids of the retry jobs *)

Lemma append_inj_l (s a b : string) : s +:+ a = s +:+ b -> a = b.
Proof.
  induction s as [| c s IH]; simpl; intros H; [exact H |].
  injection H as H. apply IH. exact H.
Qed.

Lemma fmt_d_inj (a b : Z) : fmt_d a = fmt_d b -> a = b.
Proof.
  unfold fmt_d. intros H.
  assert (Hn : forall n, Z.to_int n <> Decimal.Pos Decimal.Nil
                         /\ Z.to_int n <> Decimal.Neg Decimal.Nil).
  { intros [| p | p]; simpl; split; try discriminate; intros Hc; injection Hc as Hc;
      exact (DecimalPos.Unsigned.to_uint_nonnil p Hc). }
  apply DecimalZ.to_int_inj.
  assert (Hs : Some (Z.to_int a) = Some (Z.to_int b)).
  { rewrite <- (NilZero.isi (Z.to_int a)) by apply Hn.
    rewrite <- (NilZero.isi (Z.to_int b)) by apply Hn.
    rewrite H. reflexivity. }
  injection Hs as Hs. exact Hs.
Qed.

(** X8.  [tryRequeue] and [NewHostSetupJob], lines 71 and 882: the id of the
    retry job ends in the attempt count, so two retry jobs for the same host
    that were queued at different attempt counts have different ids. *)
Theorem retry_ids_differ (h1 h2 : Host) :
  Id h1 = Id h2 ->
  ProvisionAttempts h1 <> ProvisionAttempts h2 ->
  retry_id h1 <> retry_id h2.
Proof.
  intros Hi Ha Hq. apply Ha. unfold retry_id, NewHostSetupJob in Hq. cbn [q_ID] in Hq.
  rewrite Hi in Hq.
  apply append_inj_l in Hq. apply append_inj_l in Hq. apply append_inj_l in Hq.
  apply append_inj_l in Hq. apply append_inj_l in Hq.
  apply fmt_d_inj. exact Hq.
Qed.

Lemma retry_ids_differ_witness :
  retry_id (provisioning_host 1) <> retry_id (provisioning_host 2).
Proof.
  apply (retry_ids_differ (provisioning_host 1) (provisioning_host 2));
    [reflexivity | discriminate].
Defined.

(** ** What the transfers leave alone *)

Lemma Forall_existsb_false (f : Event -> bool) (l : list Event) :
  Forall (fun ev => f ev = false) l -> existsb f l = false.
Proof.
  induction 1 as [| ev l Hev _ IH]; simpl; [reflexivity |]. rewrite Hev, IH. reflexivity.
Qed.

Lemma within_added P w w' :
  within P w w' -> Forall P (added (trace (sys w)) (trace (sys w'))).
Proof.
  intros (_ & _ & _ & new & Ht & Hf & _). rewrite Ht, added_app. exact Hf.
Qed.

Lemma within_off_host w w' : within off_host w w' -> untouched w w'.
Proof.
  intros (He & _ & _ & new & _ & Hf & _ & _ & Hc & Hh & _). unfold untouched.
  split; [| split; [| exact He]].
  - apply Hh. apply Forall_existsb_false.
    eapply List.Forall_impl; [| exact Hf]. intros ev (H & _). exact H.
  - apply Hc. apply Forall_existsb_false.
    eapply List.Forall_impl; [| exact Hf]. intros ev (_ & H). exact H.
Qed.

Lemma within_off_files w w' :
  within off_files w w' -> host w' = host w /\ files (sys w') = files (sys w).
Proof.
  intros (_ & _ & _ & new & _ & Hf & _ & Hfl & _ & Hh & _). split.
  - apply Hh. apply Forall_existsb_false.
    eapply List.Forall_impl; [| exact Hf]. intros ev (H & _). exact H.
  - apply Hfl. apply Forall_existsb_false.
    eapply List.Forall_impl; [| exact Hf]. intros ev (_ & H). exact H.
Qed.

Ltac off := intros; split; reflexivity.

(** Uses a lemma of the form [inside P w m] at the start [w]. *)
Ltac from_start lem :=
  let H := fresh in
  pose proof lem as H; unfold inside in H; apply H; clear H;
  [.. | apply within_refl].

Lemma off_host_job_copyScript D ctx name script w :
  within off_host w (snd (job_copyScript D ctx name script w)).
Proof. from_start (inside_job_copyScript D off_host); off. Qed.

Lemma off_host_copyScript D ctx name script w :
  within off_host w (snd (copyScript D ctx name script w)).
Proof. from_start (inside_copyScript D off_host); off. Qed.

Lemma off_host_loadClient D ctx w : within off_host w (snd (loadClient D ctx w)).
Proof. from_start (inside_loadClient D off_host); off. Qed.

Lemma off_host_fetchRemoteTaskData D ctx t c f w :
  within off_host w (snd (fetchRemoteTaskData D ctx t c f w)).
Proof. from_start (inside_fetchRemoteTaskData D off_host); off. Qed.

(** X9.  Both [copyScript] functions, [loadClient] and
    [fetchRemoteTaskData]: whatever happens in them, they do not change the
    host, the credential store or the errors of the job; none of their
    entries is a write to the host or a credential operation. *)
Theorem transfers_leave_host D ctx w :
  (forall name script,
      let w' := snd (job_copyScript D ctx name script w) in
      untouched w w' /\ Forall off_host (added (trace (sys w)) (trace (sys w')))) /\
  (forall name script,
      let w' := snd (copyScript D ctx name script w) in
      untouched w w' /\ Forall off_host (added (trace (sys w)) (trace (sys w')))) /\
  (let w' := snd (loadClient D ctx w) in
   untouched w w' /\ Forall off_host (added (trace (sys w)) (trace (sys w')))) /\
  (forall taskId cliPath confPath,
      let w' := snd (fetchRemoteTaskData D ctx taskId cliPath confPath w) in
      untouched w w' /\ Forall off_host (added (trace (sys w)) (trace (sys w')))).
Proof.
  assert (H : forall w', within off_host w w' ->
                untouched w w' /\ Forall off_host (added (trace (sys w)) (trace (sys w')))).
  { intros w' Hw. split; [apply within_off_host | apply within_added]; exact Hw. }
  split; [| split; [| split]]; intros; apply H.
  - apply off_host_job_copyScript.
  - apply off_host_copyScript.
  - apply off_host_loadClient.
  - apply off_host_fetchRemoteTaskData.
Qed.

(** ** Jasper *)

(** X10.  [putJasperCredentials], lines 343-372: the bundle that is saved in
    the credential store is the one that was generated in this call and
    whose write command was run on the host; a call that returns an error
    saved nothing, and a call that returns nil stored that bundle under the
    host's id after the remote write succeeded. The host and the local files
    are not changed. *)
Theorem putJasperCredentials_bundle D ctx opts w :
  let r := putJasperCredentials D ctx opts w in
  let c := newCredentials D (trace (sys w)) (host w) in
  let new := added (trace (sys w)) (trace (sys (snd r))) in
  host (snd r) = host w /\
  files (sys (snd r)) = files (sys w) /\
  if is_Err (fst r)
  then existsb is_saved new = false /\ creds (sys (snd r)) = creds (sys w)
  else
    creds (sys (snd r)) = <[Id (host w) := c]> (creds (sys w)) /\
    exists cmds out,
      WriteJasperCredentialsFilesCommands D
        (EvCreds GenerateJasperCredentials None :: trace (sys w)) (host w) c = Ok cmds /\
      trace (sys (snd r))
      = EvCreds (SaveJasperCredentials c) None
          :: EvRemote OpCredentialWrite (RunSSHCommandLiterally cmds opts)
               (WithTimeout ctx scpTimeout) out None
          :: EvLog LvInfo "putting Jasper credentials on host" None
          :: EvCreds GenerateJasperCredentials None :: trace (sys w).
Proof.
  cbv zeta.
  unfold putJasperCredentials, host_GenerateJasperCredentials, creds_call,
    run_command, grip, emit, modify_creds, modify_sys, bind, get_host, history, ret.
  simpl.
  destruct (credsResult D (trace (sys w)) (host w) GenerateJasperCredentials) eqn:Eg; simpl.
  { repeat split.
    change (?x :: trace (sys w)) with ([x] ++ trace (sys w)). rewrite added_app.
    reflexivity. }
  destruct (WriteJasperCredentialsFilesCommands D _ _ _) eqn:Ec; simpl.
  2:{ repeat split.
      change (?x :: trace (sys w)) with ([x] ++ trace (sys w)). rewrite added_app.
      reflexivity. }
  destruct (run D _ _ _ _) as [out [e|]] eqn:Er; simpl.
  { repeat split.
    match goal with
    | |- context [added ?t ?l] => let p := prefix_of l t in change l with (p ++ t)
    end.
    rewrite added_app. reflexivity. }
  destruct (credsResult D _ _ (SaveJasperCredentials _)) eqn:Es; simpl.
  { repeat split.
    match goal with
    | |- context [added ?t ?l] => let p := prefix_of l t in change l with (p ++ t)
    end.
    rewrite added_app. reflexivity. }
  split; [reflexivity |]. split; [reflexivity |]. split; [reflexivity |].
  eexists. eexists. split; reflexivity.
Qed.

(** A call of [putJasperCredentials] that returns nil. *)
Lemma putJasperCredentials_ok D ctx opts w :
  let r := putJasperCredentials D ctx opts w in
  let c := newCredentials D (trace (sys w)) (host w) in
  fst r = Ok tt ->
  host (snd r) = host w /\
  creds (sys (snd r)) = <[Id (host w) := c]> (creds (sys w)) /\
  exists cmds out,
    trace (sys (snd r))
    = EvCreds (SaveJasperCredentials c) None
        :: EvRemote OpCredentialWrite (RunSSHCommandLiterally cmds opts)
             (WithTimeout ctx scpTimeout) out None
        :: EvLog LvInfo "putting Jasper credentials on host" None
        :: EvCreds GenerateJasperCredentials None :: trace (sys w).
Proof.
  cbv zeta.
  unfold putJasperCredentials, host_GenerateJasperCredentials, creds_call,
    run_command, grip, emit, modify_creds, modify_sys, bind, get_host, history, ret.
  simpl.
  destruct (credsResult D (trace (sys w)) (host w) GenerateJasperCredentials);
    simpl; [discriminate |].
  destruct (WriteJasperCredentialsFilesCommands D _ _ _); simpl; [| discriminate].
  destruct (run D _ _ _ _) as [out [e|]]; simpl; [discriminate |].
  destruct (credsResult D _ _ (SaveJasperCredentials _)); simpl; [discriminate |].
  intros _. split; [reflexivity |]. split; [reflexivity |].
  eexists. eexists. reflexivity.
Qed.

Lemma doFetchAndReinstallJasper_eq D ctx opts w :
  let c := RunSSHCommandLiterally (FetchAndReinstallJasperCommands D (host w)) opts in
  let r := run D (trace (sys w)) (host w) c ctx in
  snd (doFetchAndReinstallJasper D ctx opts w)
  = mkWorld (host w) (job_errors w)
      (mkSys (EvRemote OpFetchJasper c ctx (fst r) (snd r) :: trace (sys w))
             (creds (sys w)) (files (sys w))) /\
  is_Err (fst (doFetchAndReinstallJasper D ctx opts w))
  = match snd r with Some _ => true | None => false end.
Proof.
  cbv zeta.
  unfold doFetchAndReinstallJasper, run_command, emit, modify_sys, bind, get_host,
    history, ret.
  simpl. destruct (snd (run D _ _ _ _)); split; reflexivity.
Qed.

Lemma off_host_setupServiceUser D ctx opts w :
  within off_host w (snd (setupServiceUser D ctx opts w)).
Proof. from_start (inside_setupServiceUser D off_host); off. Qed.

(** X11.  [setupJasper], lines 320-339: when it returns nil, its last four
    steps were, in this order, the generation of a bundle, its write on the
    host (under the one-minute timeout), its save in the credential store
    and the fetch of Jasper (under the job's own context), all without
    error; the credential store then holds the bundle under the host's id,
    and the host is as before. *)
Theorem setupJasper_success D ctx w :
  let r := setupJasper D ctx w in
  fst r = Ok tt ->
  exists opts c cmds out1 out2 mid,
    GetSSHOptions D (trace (sys w)) (host w) = Ok opts /\
    trace (sys (snd r))
    = EvRemote OpFetchJasper
        (RunSSHCommandLiterally (FetchAndReinstallJasperCommands D (host w)) opts)
        ctx out2 None
        :: EvCreds (SaveJasperCredentials c) None
        :: EvRemote OpCredentialWrite (RunSSHCommandLiterally cmds opts)
             (WithTimeout ctx scpTimeout) out1 None
        :: EvLog LvInfo "putting Jasper credentials on host" None
        :: EvCreds GenerateJasperCredentials None :: mid ++ trace (sys w) /\
    Forall off_host mid /\
    creds (sys (snd r)) = <[Id (host w) := c]> (creds (sys w)) /\
    host (snd r) = host w.
Proof.
  cbv zeta. unfold setupJasper. rewrite !bind_eq. cbn [get_host history fst snd].
  destruct (GetSSHOptions D (trace (sys w)) (host w)) as [opts | e] eqn:Eo;
    [| discriminate].
  rewrite bind_eq.
  pose proof (off_host_setupServiceUser D ctx opts w) as H1.
  destruct (within_off_host _ _ H1) as (Hh1 & Hc1 & _).
  destruct H1 as (_ & _ & _ & mid & Ht1 & Hf1 & _).
  destruct (setupServiceUser D ctx opts w) as [r1 w1]. cbn [fst snd] in *.
  destruct r1 as [[] | e]; [| discriminate].
  rewrite bind_eq.
  pose proof (putJasperCredentials_ok D ctx opts w1) as H2. cbv zeta in H2.
  destruct (putJasperCredentials D ctx opts w1) as [r2 w2]. cbn [fst snd] in *.
  destruct r2 as [[] | e]; [| discriminate].
  destruct (H2 eq_refl) as (Hh2 & Hc2 & cmds & out1 & Ht2).
  rewrite bind_eq.
  destruct (doFetchAndReinstallJasper_eq D ctx opts w2) as (Hw3 & He3).
  destruct (doFetchAndReinstallJasper D ctx opts w2) as [r3 w3]. cbn [fst snd] in *.
  destruct r3 as [[] | e]; [| discriminate]. cbn [is_Err] in He3.
  intros _. cbn [ret snd]. subst w3. cbn [host sys trace creds].
  destruct (run D (trace (sys w2)) (host w2) _ ctx) as [out2 [e |]] eqn:Er;
    [discriminate |]. cbn [fst snd].
  exists opts, (newCredentials D (trace (sys w1)) (host w1)), cmds, out1, out2, mid.
  split; [reflexivity |]. split.
  - rewrite Ht2, Ht1, Hh2, Hh1. reflexivity.
  - split; [exact Hf1 |]. split; [| congruence].
    rewrite Hc2, Hc1, Hh1. reflexivity.
Qed.

Lemma setupJasper_success_witness :
  exists opts c cmds out1 out2 mid,
    GetSSHOptions all_ok (trace (sys (world_of setup_host))) (host (world_of setup_host))
    = Ok opts /\
    trace (sys (snd (setupJasper all_ok None (world_of setup_host))))
    = EvRemote OpFetchJasper
        (RunSSHCommandLiterally
           (FetchAndReinstallJasperCommands all_ok (host (world_of setup_host))) opts)
        None out2 None
        :: EvCreds (SaveJasperCredentials c) None
        :: EvRemote OpCredentialWrite (RunSSHCommandLiterally cmds opts)
             (WithTimeout None scpTimeout) out1 None
        :: EvLog LvInfo "putting Jasper credentials on host" None
        :: EvCreds GenerateJasperCredentials None
        :: mid ++ trace (sys (world_of setup_host)) /\
    Forall off_host mid /\
    creds (sys (snd (setupJasper all_ok None (world_of setup_host))))
    = <[Id (host (world_of setup_host)) := c]> (creds (sys (world_of setup_host))) /\
    host (snd (setupJasper all_ok None (world_of setup_host))) = host (world_of setup_host).
Proof.
  apply (setupJasper_success all_ok None (world_of setup_host)). reflexivity.
Defined.

Lemma inside_setupServiceUser_unix D w0 ctx opts :
  distro.IsWindows (Distro (host w0)) = false ->
  inside off_files w0 (setupServiceUser D ctx opts).
Proof.
  intros Hw w H. destruct (within_off_files _ _ H) as (Hh & _).
  unfold setupServiceUser. rewrite bind_eq. cbn [get_host fst snd].
  rewrite Hh, Hw. exact H.
Qed.

(** X12.  [setupJasper] and [setupServiceUser], lines 376-379: on a distro
    that is not Windows the service-user step does nothing, so [setupJasper]
    creates no local file: none of its entries is a file operation, and the
    files and the host are as before. *)
Theorem setupJasper_no_files D ctx w :
  distro.IsWindows (Distro (host w)) = false ->
  let w' := snd (setupJasper D ctx w) in
  Forall off_files (added (trace (sys w)) (trace (sys w'))) /\
  files (sys w') = files (sys w) /\
  host w' = host w.
Proof.
  intros Hw. cbv zeta.
  assert (H : within off_files w (snd (setupJasper D ctx w))).
  { assert (Hi : inside off_files w (setupJasper D ctx)).
    { unfold setupJasper.
      in_walk ltac:(first
        [ apply inside_setupServiceUser_unix; exact Hw
        | apply (inside_putJasperCredentials D off_files); off
        | apply (inside_doFetchAndReinstallJasper D off_files); off ]). }
    apply Hi. apply within_refl. }
  split; [apply within_added; exact H |].
  destruct (within_off_files _ _ H) as (Hh & Hf). split; assumption.
Qed.

Lemma setupJasper_no_files_witness :
  let w := world_of setup_host in
  let w' := snd (setupJasper all_ok None w) in
  Forall off_files (added (trace (sys w)) (trace (sys w'))) /\
  files (sys w') = files (sys w) /\
  host w' = host w.
Proof. apply (setupJasper_no_files all_ok None (world_of setup_host)). reflexivity. Defined.

(** ** The client *)

Ltac open_loadClient :=
  unfold loadClient, util_WriteTempFile, defer, db_read, run_command, emit, modify_sys,
    bind, get_host, history, ret; cbn [fst snd host sys trace creds files job_errors].

Ltac new_entries :=
  match goal with
  | |- context [added ?t ?l] =>
      let p := prefix_of l t in change l with (p ++ t); rewrite added_app
  end.

(** X13.  [loadClient], lines 741-751: without provision options, or with an
    empty owner, it returns an error and does nothing at all. Otherwise its
    first step is the lookup of the owner; when that lookup fails it returns
    an error and nothing else is done. *)
Theorem loadClient_owner D ctx w :
  let r := loadClient D ctx w in
  match ProvisionOpts (host w) with
  | None => r = (Err (errors_New "ProvisionOptions is nil"), w)
  | Some po =>
      if String.eqb (OwnerId po) ""
      then r = (Err (errors_New "OwnerId not set"), w)
      else
        let new := added (trace (sys w)) (trace (sys (snd r))) in
        last new = Some (EvDbRead (user_FindOne (OwnerId po))) /\
        (is_Err (userFindOne D (trace (sys w)) (OwnerId po)) = true ->
         is_Err (fst r) = true /\ new = [EvDbRead (user_FindOne (OwnerId po))])
  end.
Proof.
  cbv zeta. open_loadClient.
  destruct (ProvisionOpts (host w)) as [po |]; [| reflexivity].
  destruct (String.eqb (OwnerId po) ""); [reflexivity |].
  cbn [fst snd host sys trace creds files job_errors].
  destruct (userFindOne D (trace (sys w)) (OwnerId po)) as [owner | e].
  2:{ cbn [fst snd host sys trace]. new_entries. repeat split. }
  cbn [fst snd host sys trace creds files job_errors is_Err].
  split; [| discriminate].
  destruct (GetSSHInfo D _ _) as [info | e];
    [| cbn [fst snd host sys trace]; new_entries; reflexivity].
  destruct (GetSSHOptions D _ _) as [opts | e];
    [| cbn [fst snd host sys trace]; new_entries; reflexivity].
  cbn [fst snd host sys trace creds files job_errors].
  destruct (run D _ _ _ _) as [o1 [e |]];
    cbn [fst snd host sys trace creds files job_errors]; [new_entries; reflexivity |].
  destruct (run D _ _ _ _) as [o2 [e |]];
    cbn [fst snd host sys trace creds files job_errors]; [new_entries; reflexivity |].
  destruct (json_Marshal D _ _ _ _) as [json | e];
    cbn [fst snd host sys trace creds files job_errors]; [| new_entries; reflexivity].
  rewrite !file_call_eq. cbn [fst snd host sys trace creds files job_errors].
  destruct (fileResult D _ (WriteTempFile _)) as [e |];
    cbn [fst snd host sys trace creds files job_errors]; [new_entries; reflexivity |].
  rewrite !file_call_eq. cbn [fst snd host sys trace creds files job_errors].
  destruct (run D _ _ _ _) as [o3 [e |]];
    cbn [fst snd host sys trace creds files job_errors]; new_entries; reflexivity.
Qed.

Ltac lc_step :=
  cbn [fst snd host sys trace creds files job_errors].

(** X14.  [loadClient], lines 740-837: when it returns a result, the result
    names the binary [~/evergreen] and the settings file
    [cli_bin/.evergreen.yml], and the call did, in this order and each
    without error: the lookup of the owner, the directory setup (30
    seconds), the download of the client (2 minutes), the writing of a local
    settings file, its copy to [~/cli_bin/.evergreen.yml] on the host (30
    seconds), and last the removal of the local file. *)
Theorem loadClient_success D ctx w lcr :
  let r := loadClient D ctx w in
  fst r = Ok lcr ->
  lcr = mkLoadClientResult "~/evergreen" "cli_bin/.evergreen.yml" /\
  exists po info opts tmp cmd o1 o2 o3 rm,
    ProvisionOpts (host w) = Some po /\
    GetSSHInfo D (EvDbRead (user_FindOne (OwnerId po)) :: trace (sys w)) (host w)
    = Ok info /\
    trace (sys (snd r))
    = [EvFile (Remove tmp) rm;
       EvRemote OpConfigTransfer
         (JasperLocal (buildScpCommand tmp "~/cli_bin/.evergreen.yml" info (User (host w))
                         (opts ++ ["-o"; "UserKnownHostsFile=/dev/null"])))
         (WithTimeout ctx (30 * time_Second)) o3 None;
       EvFile (WriteTempFile tmp) None;
       EvRemote OpClientDownload
         (JasperRemote (ssh_Hostname info) (User (host w))
            (["-p"; ssh_Port info] ++ opts ++ ["-o"; "UserKnownHostsFile=/dev/null"])
            (CurlCommand D (host w)))
         (WithTimeout ctx (2 * time_Minute)) o2 None;
       EvRemote OpCliDirSetup
         (RunSSHCommandLiterally cmd (opts ++ ["-o"; "UserKnownHostsFile=/dev/null"]))
         (WithTimeout ctx (30 * time_Second)) o1 None;
       EvDbRead (user_FindOne (OwnerId po))] ++ trace (sys w).
Proof.
  cbv zeta. open_loadClient.
  destruct (ProvisionOpts (host w)) as [po |] eqn:Ep; [| discriminate].
  destruct (String.eqb (OwnerId po) ""); [discriminate |]. lc_step.
  destruct (userFindOne D (trace (sys w)) (OwnerId po)) as [owner | e]; [| discriminate].
  lc_step.
  destruct (GetSSHInfo D _ _) as [info | e] eqn:Ei; [| discriminate].
  destruct (GetSSHOptions D _ _) as [opts | e]; [| discriminate]. lc_step.
  destruct (run D _ _ _ _) as [o1 [e |]]; lc_step; [discriminate |].
  destruct (run D _ _ _ _) as [o2 [e |]]; lc_step; [discriminate |].
  destruct (json_Marshal D _ _ _ _) as [json | e]; lc_step; [| discriminate].
  rewrite !file_call_eq. lc_step.
  destruct (fileResult D _ (WriteTempFile _)) as [e |]; lc_step; [discriminate |].
  rewrite !file_call_eq. lc_step.
  destruct (run D _ _ _ _) as [o3 [e |]]; lc_step; [discriminate |].
  intros H. injection H as <-. split; [reflexivity |].
  exists po, info, opts. do 6 eexists. split; [reflexivity |]. split; [exact Ei |].
  reflexivity.
Qed.

Lemma loadClient_success_witness :
  mkLoadClientResult "~/evergreen" "cli_bin/.evergreen.yml"
  = mkLoadClientResult "~/evergreen" "cli_bin/.evergreen.yml" /\
  exists po info opts tmp cmd o1 o2 o3 rm,
    ProvisionOpts (host (world_of spawn_host)) = Some po /\
    GetSSHInfo all_ok (EvDbRead (user_FindOne (OwnerId po)) :: trace (sys (world_of spawn_host)))
               (host (world_of spawn_host))
    = Ok info /\
    trace (sys (snd (loadClient all_ok None (world_of spawn_host))))
    = [EvFile (Remove tmp) rm;
       EvRemote OpConfigTransfer
         (JasperLocal (buildScpCommand tmp "~/cli_bin/.evergreen.yml" info
                         (User (host (world_of spawn_host)))
                         (opts ++ ["-o"; "UserKnownHostsFile=/dev/null"])))
         (WithTimeout None (30 * time_Second)) o3 None;
       EvFile (WriteTempFile tmp) None;
       EvRemote OpClientDownload
         (JasperRemote (ssh_Hostname info) (User (host (world_of spawn_host)))
            (["-p"; ssh_Port info] ++ opts ++ ["-o"; "UserKnownHostsFile=/dev/null"])
            (CurlCommand all_ok (host (world_of spawn_host))))
         (WithTimeout None (2 * time_Minute)) o2 None;
       EvRemote OpCliDirSetup
         (RunSSHCommandLiterally cmd (opts ++ ["-o"; "UserKnownHostsFile=/dev/null"]))
         (WithTimeout None (30 * time_Second)) o1 None;
       EvDbRead (user_FindOne (OwnerId po))] ++ trace (sys (world_of spawn_host)).
Proof.
  apply (loadClient_success all_ok None (world_of spawn_host)). reflexivity.
Defined.

Lemma added_same (t : History) : added t t = [].
Proof. exact (added_app [] t). Qed.

(** X15.  [loadClient], lines 811-815: the local settings file holds the API
    key of the owner. Once it was written, its removal is the last thing the
    call does, whether or not the copy to the host worked, and the file is
    gone when the removal succeeds. *)
Theorem loadClient_removes_config D ctx w :
  let w' := snd (loadClient D ctx w) in
  let new := added (trace (sys w)) (trace (sys w')) in
  forall tmp,
    In (EvFile (WriteTempFile tmp) None) new ->
    exists rm,
      hd_error new = Some (EvFile (Remove tmp) rm) /\
      (rm = None -> tmp ∉ files (sys w')).
Proof.
  cbv zeta. open_loadClient.
  destruct (ProvisionOpts (host w)) as [po |];
    [| lc_step; rewrite added_same; intros tmp []].
  destruct (String.eqb (OwnerId po) "");
    [lc_step; rewrite added_same; intros tmp [] |].
  lc_step.
  destruct (userFindOne D (trace (sys w)) (OwnerId po)) as [owner | e]; lc_step.
  2:{ new_entries. intros tmp [H | []]. discriminate. }
  destruct (GetSSHInfo D _ _) as [info | e]; lc_step.
  2:{ new_entries. intros tmp [H | []]. discriminate. }
  destruct (GetSSHOptions D _ _) as [opts | e]; lc_step.
  2:{ new_entries. intros tmp [H | []]. discriminate. }
  destruct (run D _ _ _ _) as [o1 [e |]]; lc_step.
  { new_entries. intros tmp [H | [H | []]]; discriminate. }
  destruct (run D _ _ _ _) as [o2 [e |]]; lc_step.
  { new_entries. intros tmp [H | [H | [H | []]]]; discriminate. }
  destruct (json_Marshal D _ _ _ _) as [json | e]; lc_step.
  2:{ new_entries. intros tmp [H | [H | [H | []]]]; discriminate. }
  rewrite !file_call_eq. lc_step.
  destruct (fileResult D _ (WriteTempFile _)) as [e |]; lc_step.
  { new_entries. intros tmp [H | [H | [H | [H | []]]]]; discriminate. }
  rewrite !file_call_eq. lc_step.
  assert (Hgone : forall (name : string) (fs : gset string), name ∉ ({[name]} ∪ fs) ∖ {[name]}).
  { intros name fs. apply not_elem_of_difference. right. apply elem_of_singleton.
    reflexivity. }
  destruct (run D _ _ _ _) as [o3 [e |]]; lc_step; new_entries;
    intros tmp [H | [H | [H | [H | [H | [H | []]]]]]]; try discriminate;
    injection H as <-; eexists; (split; [reflexivity |]); intros ->; apply Hgone.
Qed.

Lemma loadClient_removes_config_witness :
  let w' := snd (loadClient all_ok None (world_of spawn_host)) in
  let new := added (trace (sys (world_of spawn_host))) (trace (sys w')) in
  exists rm,
    hd_error new = Some (EvFile (Remove "/tmp/0042") rm) /\
    (rm = None -> "/tmp/0042" ∉ files (sys w')).
Proof.
  apply (loadClient_removes_config all_ok None (world_of spawn_host) "/tmp/0042").
  vm_compute. right. right. left. reflexivity.
Defined.

(** ** The spawn-host part of provisionHost *)

Ltac prefix_app l t :=
  lazymatch l with
  | t => constr:(@nil Event)
  | ?a ++ t => constr:(a)
  | ?x :: ?l' => let p := prefix_app l' t in constr:(x :: p)
  | ?a ++ ?l' => let p := prefix_app l' t in constr:(a ++ p)
  end.

Ltac new_entries_app :=
  match goal with
  | |- context [added ?t ?l] =>
      let p := prefix_app l t in
      replace l with (p ++ t)
        by (repeat (cbn [app]; rewrite <- ?app_assoc); reflexivity);
      rewrite added_app
  end.

Lemma client_loadClient D ctx w : within client_step w (snd (loadClient D ctx w)).
Proof. from_start (inside_loadClient D client_step); intros; repeat split. Qed.

Lemma fetch_fetchRemoteTaskData D ctx t c f w :
  within fetch_step w (snd (fetchRemoteTaskData D ctx t c f w)).
Proof. from_start (inside_fetchRemoteTaskData D fetch_step); intros; repeat split. Qed.

Lemma client_step_quiet l :
  Forall client_step l ->
  existsb is_unprovision l = false /\ existsb setup_ran l = false /\
  existsb is_fetch l = false.
Proof.
  induction 1 as [| ev l ((Hu & Hs) & Hf) _ (IHu & IHs & IHf)]; simpl; [auto |].
  rewrite Hu, Hf, IHu, IHs, IHf.
  repeat split. destruct ev as [| | | | | | | | [] ? ? ? [] |]; try reflexivity; discriminate.
Qed.

Lemma fetch_step_quiet l :
  Forall fetch_step l ->
  existsb is_unprovision l = false /\ existsb setup_ran l = false.
Proof.
  induction 1 as [| ev l (Hu & Hs) _ (IHu & IHs)]; simpl; [auto |].
  rewrite Hu, IHu, IHs.
  repeat split. destruct ev as [| | | | | | | | [] ? ? ? [] |]; try reflexivity; discriminate.
Qed.

Lemma mark_unprovisioned_trace D w :
  exists res,
    trace (sys (snd (mark_unprovisioned D w)))
    = match res with
      | Some e => [EvLog LvError "setting host unprovisioned" (Some e)]
      | None => []
      end ++ EvHostWrite SetUnprovisioned res :: trace (sys w).
Proof.
  unfold mark_unprovisioned. rewrite bind_eq, host_write_eq. cbn [fst snd].
  exists (persist D (trace (sys w)) (host w) SetUnprovisioned).
  destruct (persist D (trace (sys w)) (host w) SetUnprovisioned); reflexivity.
Qed.

Ltac use_quiet :=
  repeat match goal with
         | H : existsb _ _ = false |- _ => rewrite H
         | H : existsb _ _ = true |- _ => rewrite H
         end.

Ltac spawn_finish :=
  repeat (progress (cbn [app existsb]; rewrite ?existsb_app; use_quiet));
  cbn [existsb is_unprovision setup_ran is_fetch orb is_Err negb];
  rewrite ?orb_true_r, ?orb_false_r;
  repeat split; intros; try reflexivity; try discriminate.

Ltac spawn_unprovision E :=
  match type of E with
  | context [mark_unprovisioned ?D ?v] =>
      let res := fresh "res" in
      let Hm := fresh "Hm" in
      let wm := fresh "wm" in
      destruct (mark_unprovisioned_trace D v) as (res & Hm);
      destruct (mark_unprovisioned D v) as [[] wm];
      cbn [emit modify_sys ret fst snd sys trace] in *;
      injection E as <- <-; cbn [sys trace is_Err negb];
      rewrite Hm;
      destruct res
  end.

Lemma provisionHost_spawn_cases D ctx po w :
  let r := provisionHost_spawn D ctx po w in
  let new := added (trace (sys w)) (trace (sys (snd r))) in
  existsb is_unprovision new = is_Err (fst r) /\
  existsb setup_ran new = negb (is_Err (fst r)) /\
  (existsb is_fetch new = true -> fst r = Ok tt).
Proof.
  cbv zeta. destruct (provisionHost_spawn D ctx po w) as [x w'] eqn:E. cbn [fst snd].
  unfold provisionHost_spawn in E.
  rewrite !bind_eq in E. cbn [get_host grip emit modify_sys fst snd] in E.
  match type of E with
  | context [loadClient D ctx ?w1] =>
      pose proof (client_loadClient D ctx w1) as Hl;
      destruct Hl as (_ & _ & _ & newl & Htl & Hfl & _);
      destruct (loadClient D ctx w1) as [l wl]
  end.
  cbn [fst snd sys trace] in *.
  destruct (client_step_quiet _ Hfl) as (Hlu & Hls & Hlf).
  destruct l as [lcr | err].
  - rewrite !bind_eq in E. cbn [history fst snd] in E.
    destruct (GetSSHOptions D (trace (sys wl)) (host w)) as [opts | e].
    + rewrite !bind_eq in E. unfold db_read in E. rewrite !bind_eq in E.
      cbn [history emit modify_sys ret fst snd sys trace] in E.
      destruct (distroFindOne D (trace (sys wl)) _) as [d | e].
      * rewrite !bind_eq in E.
        cbn [modify_host get_host grip emit modify_sys ret fst snd sys trace host
               job_errors creds files] in E.
        unfold run_command in E. rewrite !bind_eq in E.
        cbn [history get_host emit modify_sys ret fst snd sys trace host job_errors
               creds files] in E.
        destruct (run D _ _ _ ctx) as [out [e |]]; cbn [fst snd] in E.
        -- rewrite !bind_eq in E.
           spawn_unprovision E; rewrite Htl; new_entries_app; spawn_finish.
        -- rewrite !bind_eq in E.
           destruct (negb (OwnerId po =? "")%string
                     && (0 <? Z.of_nat (String.length (TaskId po)))).
           ++ rewrite !bind_eq in E. cbn [grip emit modify_sys fst snd] in E.
              match type of E with
              | context [fetchRemoteTaskData D ctx ?t ?c ?f ?v] =>
                  pose proof (fetch_fetchRemoteTaskData D ctx t c f v) as Hf;
                  destruct Hf as (_ & _ & _ & newf & Htf & Hff & _);
                  destruct (fetchRemoteTaskData D ctx t c f v) as [ferr wf]
              end.
              cbn [fst snd sys trace] in *.
              destruct (fetch_step_quiet _ Hff) as (Hfu & Hfs).
              destruct ferr; cbn [grip_WrapError emit modify_sys ret fst snd] in E;
                injection E as <- <-; cbn [sys trace is_Err negb];
                rewrite Htf, Htl; new_entries_app; spawn_finish.
           ++ cbn [ret fst snd] in E. injection E as <- <-. cbn [sys trace is_Err negb].
              rewrite Htl. new_entries_app. spawn_finish.
      * rewrite !bind_eq in E.
        spawn_unprovision E; rewrite Htl; new_entries_app; spawn_finish.
    + rewrite !bind_eq in E.
      spawn_unprovision E; rewrite Htl; new_entries_app; spawn_finish.
  - rewrite !bind_eq in E. cbn [grip_WrapError emit modify_sys fst snd] in E.
    spawn_unprovision E; rewrite Htl; new_entries_app; spawn_finish.
Qed.

Lemma spawn_part_eq D ctx w :
  spawn_part D ctx w
  = match ProvisionOpts (host w) with
    | Some po => if LoadCLI po then provisionHost_spawn D ctx po w else (Ok tt, w)
    | None => (Ok tt, w)
    end.
Proof.
  unfold spawn_part. rewrite bind_eq. cbn [get_host fst snd].
  destruct (ProvisionOpts (host w)) as [po |]; [destruct (LoadCLI po) |]; reflexivity.
Qed.

(** X16.  [provisionHost], lines 628-702, the steps for a spawn host: for a
    host without provision options, or whose options do not ask for the
    client, they do nothing. Otherwise they return an error exactly when
    they tried to set the host to Unprovisioned, and nil exactly when the
    setup script ran on the host without error. The fetch of the task's data
    comes after that: whatever its outcome, the result is nil. *)
Theorem spawn_part_result D ctx w :
  let r := spawn_part D ctx w in
  let new := added (trace (sys w)) (trace (sys (snd r))) in
  if is_spawn_host (host w)
  then existsb is_unprovision new = is_Err (fst r) /\
       existsb setup_ran new = negb (is_Err (fst r)) /\
       (existsb is_fetch new = true -> fst r = Ok tt)
  else r = (Ok tt, w).
Proof.
  cbv zeta. rewrite spawn_part_eq. unfold is_spawn_host.
  destruct (ProvisionOpts (host w)) as [po |]; [| reflexivity].
  destruct (LoadCLI po); [| reflexivity].
  apply provisionHost_spawn_cases.
Qed.

(** ** Runs that end in a given way *)

Lemma unless_of_inside {A} (Q : A * World -> Prop) P w0 (m : M A) :
  inside P w0 m -> inside_unless Q P w0 m.
Proof. intros H w Hw. right. apply H. exact Hw. Qed.

Lemma unless_bind {A B} (Q : B * World -> Prop) P w0 (m : M A) (k : A -> M B) :
  inside P w0 m -> (forall a, inside_unless Q P w0 (k a)) ->
  inside_unless Q P w0 (bind m k).
Proof. intros Hm Hk w Hw. rewrite bind_eq. apply Hk. apply Hm. exact Hw. Qed.

(** The write of the status [HostProvisionedNotRunning] in [runHostSetup]:
    the function returns nil when the write succeeded. *)
Lemma unless_SetProvisionedNotRunning D w0 {A} (k : option error -> M (Res A)) :
  (forall e, inside keeps_status w0 (k (Some e))) ->
  (forall w, is_Err (fst (k None w)) = false) ->
  inside_unless returned_nil keeps_status w0 (bind (host_write D SetProvisionedNotRunning) k).
Proof.
  intros Hs Hn w Hw. unfold returned_nil. rewrite bind_eq. rewrite host_write_eq.
  cbn [fst snd].
  destruct (persist D (trace (sys w)) (host w) SetProvisionedNotRunning) as [e |].
  - right. apply Hs. eapply within_trans; [exact Hw |].
    apply within_intro with (evs := [EvHostWrite SetProvisionedNotRunning (Some e)]);
      try reflexivity.
    + constructor; [reflexivity | constructor].
    + intros _. split; reflexivity.
  - left. apply Hn.
Qed.

Ltac calm := intros; reflexivity.

Ltac calm_call D P :=
  first
    [ apply inside_ret | apply inside_get_host | apply inside_history
    | apply inside_grip; calm
    | apply inside_grip_WrapError; calm
    | apply inside_cloud_call; calm
    | apply inside_emit; calm
    | apply (inside_setDNSName D P); calm
    | apply (inside_setupJasper D P); calm
    | apply (inside_job_copyScript D P); calm
    | apply (inside_provisionHost_spawn D P); calm
    | apply (inside_mark_unprovisioned D P); calm
    | apply inside_host_write; calm ].

(** Walks through a definition whose last steps may end in [Q]. *)
Ltac unless_walk known D P :=
  repeat first
    [ known
    | apply unless_bind; [solve [in_walk ltac:(calm_call D P)] | intros ?]
    | apply unless_of_inside; apply inside_ret
    | match goal with
      | |- inside_unless _ _ _ (match ?x with _ => _ end) => destruct x eqn:?
      | |- inside_unless _ _ _ (let _ := _ in _) => cbv zeta
      end
    | progress cbv beta ].

Lemma runHostSetup_failing D ctx w0 :
  inside_unless returned_nil keeps_status w0 (runHostSetup D ctx).
Proof.
  unfold runHostSetup.
  unless_walk
    ltac:(apply unless_SetProvisionedNotRunning;
          [intros ?; apply inside_ret | intros ?; reflexivity])
    D keeps_status.
Qed.

Lemma runHostSetup_failed D ctx w :
  is_Err (fst (runHostSetup D ctx w)) = true ->
  within keeps_status w (snd (runHostSetup D ctx w)).
Proof.
  intros He. destruct (runHostSetup_failing D ctx w w (within_refl _ _)) as [Hn | H];
    [| exact H].
  unfold returned_nil in Hn. rewrite He in Hn. discriminate.
Qed.

Lemma keeps_status_standing w w' : within keeps_status w w' -> same_standing w w'.
Proof.
  intros (_ & _ & _ & new & _ & Hf & Hs & _). apply Hs.
  apply Forall_existsb_false. exact Hf.
Qed.

(** X17.  [runHostSetup], lines 217-315: when the bootstrap sequence returns
    an error, the status of the host and its provisioned flag are what they
    were, and none of its entries is a write that changed the status. *)
Theorem runHostSetup_failure_standing D ctx w :
  let r := runHostSetup D ctx w in
  is_Err (fst r) = true ->
  Status (host (snd r)) = Status (host w) /\
  Provisioned (host (snd r)) = Provisioned (host w) /\
  existsb changes_status (added (trace (sys w)) (trace (sys (snd r)))) = false.
Proof.
  cbv zeta. intros He.
  pose proof (runHostSetup_failed D ctx w He) as H.
  destruct (keeps_status_standing _ _ H) as (Hs & Hp).
  split; [exact Hs |]. split; [exact Hp |].
  apply Forall_existsb_false. apply (within_added keeps_status). exact H.
Qed.

Lemma runHostSetup_failure_standing_witness :
  let r := runHostSetup no_manager None (world_of (provisioning_host 0)) in
  Status (host (snd r)) = Status (host (world_of (provisioning_host 0))) /\
  Provisioned (host (snd r)) = Provisioned (host (world_of (provisioning_host 0))) /\
  existsb changes_status
    (added (trace (sys (world_of (provisioning_host 0)))) (trace (sys (snd r)))) = false.
Proof.
  apply (runHostSetup_failure_standing no_manager None (world_of (provisioning_host 0))).
  reflexivity.
Defined.

(** ** The retry budget *)

Lemma setupHost_report_host D r w : host (snd (setupHost_report D r w)) = host w.
Proof.
  assert (H : within off_files w (snd (setupHost_report D r w))).
  { from_start (inside_setupHost_report D off_files); off. }
  apply within_off_files in H. apply H.
Qed.

Lemma document_standing now base new doc :
  existsb changes_status new = false ->
  Status (document now base new doc) = Status doc /\
  Provisioned (document now base new doc) = Provisioned doc.
Proof.
  induction new as [| ev new IH]; cbn [document existsb]; [split; reflexivity |].
  intros H. apply orb_false_iff in H. destruct H as (Hev & Hn).
  destruct ev as [| | | op [e |] | | | | | |]; try exact (IH Hn).
  destruct op; try discriminate; exact (IH Hn).
Qed.

Lemma document_quiet_app now base a b doc :
  existsb changes_status a = false ->
  Status (document now base (a ++ b) doc) = Status (document now base b doc) /\
  Provisioned (document now base (a ++ b) doc) = Provisioned (document now base b doc).
Proof. intros H. rewrite document_app. apply document_standing. exact H. Qed.

Lemma quiet_requeue_log r : existsb changes_status (requeue_log r) = false.
Proof. destruct r; reflexivity. Qed.

Lemma quiet_inc_log r : existsb changes_status (inc_log r) = false.
Proof. destruct r; reflexivity. Qed.

(** The host struct after a bootstrap sequence that failed. *)
Lemma bootstrap_failed_host D ctx w :
  let wb := snd (provisionHost_begin D (at_provisionHost w)) in
  let w2 := snd (runHostSetup D ctx wb) in
  is_Err (fst (runHostSetup D ctx wb)) = true ->
  ProvisionAttempts (host w2) = ProvisionAttempts (host w) + 1 /\
  Status (host w2) = Status (host w) /\
  Provisioned (host w2) = Provisioned (host w) /\
  exists new,
    trace (sys w2) = new ++ trace (sys wb) /\ existsb changes_status new = false.
Proof.
  intros wb w2 He.
  assert (Hb : host wb = set_ProvisionAttempts (ProvisionAttempts (host w) + 1) (host w)).
  { subst wb. rewrite provisionHost_begin_host. reflexivity. }
  destruct (runHostSetup_failed D ctx wb He) as (_ & _ & _ & H2).
  destruct H2 as (new & Ht & Hf & Hst & _).
  pose proof (Forall_existsb_false _ _ Hf) as Hq.
  destruct (Hst Hq) as (Hs2 & Hp2). fold w2 in Hs2, Hp2.
  rewrite Hb in Hs2, Hp2. cbn [set_ProvisionAttempts Status Provisioned] in Hs2, Hp2.
  split; [| split; [exact Hs2 | split; [exact Hp2 |]]].
  - pose proof (ok_runHostSetup D false ctx wb wb (steps_refl _ _ _)) as (_ & _ & Ha & _).
    fold w2 in Ha. rewrite (Ha eq_refl), Hb. reflexivity.
  - exists new. split; [exact Ht | exact Hq].
Qed.

(** What [provisionHost] adds after a bootstrap sequence that failed. *)
Lemma provisionHost_finish_failed D ctx err w :
  let w' := snd (provisionHost_finish D ctx (Err err) w) in
  let res := persist D (EvAudit (LogProvisionFailed (Id (host w)) "") :: trace (sys w))
                     (host w) SetUnprovisioned in
  if shouldRetryProvisioning (host w) then w' = w
  else
    trace (sys w')
    = match res with
      | Some e => [EvLog LvError "setting host unprovisioned" (Some e)]
      | None => []
      end ++ [EvHostWrite SetUnprovisioned res;
              EvAudit (LogProvisionFailed (Id (host w)) "")] ++ trace (sys w).
Proof.
  cbv zeta. unfold provisionHost_finish. rewrite bind_eq. cbn [get_host fst snd].
  destruct (shouldRetryProvisioning (host w)); [reflexivity |].
  unfold mark_unprovisioned. rewrite !bind_eq. cbn [emit modify_sys fst snd].
  rewrite host_write_eq. cbn [fst snd host sys trace ret].
  destruct (persist D _ _ SetUnprovisioned); reflexivity.
Qed.

(** One run from the queue whose bootstrap sequence fails: what the
    database holds afterwards. *)
Lemma Run_stored_failed D ctx w :
  skips (host w) = false ->
  ctx_Err D (attempt_log :: trace (sys (looked_up w))) = None ->
  (forall hs h, persist D hs h SetUnprovisioned = None) ->
  is_Err (fst (runHostSetup D ctx (at_bootstrap D w))) = true ->
  let w1 := Run_stored D ctx w in
  Provisioned (host w1) = Provisioned (host w) /\
  Status (host w1)
  = if (ProvisionAttempts (host w) + 1 <=? 15)
       && HostStatus_eqb (Status (host w)) HostProvisioning
       && negb (Provisioned (host w))
    then Status (host w)
    else HostUnprovisioned.
Proof.
  intros Hs Hc Hun He. cbv zeta. unfold Run_stored. cbn [host].
  set (now := time_Now D).
  assert (Hsplit :
    exists post pre,
      trace (sys (snd (Run_host D ctx (looked_up w))))
      = post
          ++ (if (ProvisionAttempts (host w) + 1 <=? 15)
                 && HostStatus_eqb (Status (host w)) HostProvisioning
                 && negb (Provisioned (host w))
              then []
              else [EvHostWrite SetUnprovisioned None])
          ++ pre ++ trace (sys (looked_up w)) /\
      existsb changes_status post = false /\
      existsb changes_status pre = false).
  { rewrite Run_host_eq. change (skips (host (looked_up w))) with (skips (host w)). rewrite Hs.
    pose proof (tryRequeue_spec D ctx (before_requeue D ctx (looked_up w))) as Hq. cbv zeta in Hq.
    assert (Hw' : exists tq,
               trace (sys (snd (tryRequeue D ctx (before_requeue D ctx (looked_up w)))))
               = tq ++ trace (sys (before_requeue D ctx (looked_up w))) /\
               existsb changes_status tq = false).
    { destruct (shouldRetryProvisioning _ && Started D _); rewrite Hq.
      - eexists (requeue_log _ ++ [_]). rewrite <- app_assoc. split; [reflexivity |].
        rewrite existsb_app, quiet_requeue_log. reflexivity.
      - exists []. split; reflexivity. }
    destruct Hw' as (tq & Htq & Hqq). rewrite Htq. clear Hq Htq.
    rewrite (before_requeue_reaching D ctx (looked_up w) Hc). unfold after_increment.
    rewrite !bind_eq, AddError_eq. cbn [sys].
    fold (at_bootstrap D w) in *. set (wb := at_bootstrap D w) in *.
    destruct (bootstrap_failed_host D ctx (looked_up w) He) as (Ha2 & Hs2 & Hp2 & new2 & Ht2 & Hq2).
    fold (at_bootstrap D w) in Ha2, Hs2, Hp2, Ht2. fold wb in Ha2, Hs2, Hp2, Ht2.
    set (w2 := snd (runHostSetup D ctx wb)) in *.
    destruct (fst (runHostSetup D ctx wb)) as [[] | err]; [discriminate |].
    set (w3 := snd (provisionHost_finish D ctx (Err err) w2)).
    set (r3 := fst (provisionHost_finish D ctx (Err err) w2)).
    assert (H4 : within keeps_status w3 (snd (setupHost_report D r3 w3))).
    { from_start (inside_setupHost_report D keeps_status); calm. }
    destruct H4 as (_ & _ & _ & rep & Ht4 & Hf4 & _).
    apply Forall_existsb_false in Hf4. rewrite Ht4.
    pose proof (provisionHost_finish_failed D ctx err w2) as Hfin. cbv zeta in Hfin.
    fold w3 in Hfin. unfold shouldRetryProvisioning, provisionRetryLimit in Hfin.
    rewrite Ha2, Hs2, Hp2, Hun in Hfin. change (host (looked_up w)) with (host w) in Hfin.
    assert (Htb : exists beg, trace (sys wb) = beg ++ trace (sys (looked_up w)) /\
                              existsb changes_status beg = false).
    { unfold wb, at_bootstrap. rewrite provisionHost_begin_trace.
      cbn [at_provisionHost sys trace host].
      eexists (inc_log _ ++ [_; _; _; _]). rewrite <- app_assoc.
      split; [reflexivity |]. rewrite existsb_app, quiet_inc_log. reflexivity. }
    destruct Htb as (beg & Htb & Hqb).
    assert (Hqp : existsb changes_status (tq ++ rep) = false)
      by (rewrite existsb_app, Hqq, Hf4; reflexivity).
    assert (Hqn : existsb changes_status (new2 ++ beg) = false)
      by (rewrite existsb_app, Hq2, Hqb; reflexivity).
    destruct ((ProvisionAttempts (host w) + 1 <=? 15)
              && HostStatus_eqb (Status (host w)) HostProvisioning
              && negb (Provisioned (host w))).
    - exists (tq ++ rep), (new2 ++ beg).
      split; [| split; assumption].
      rewrite Hfin, Ht2, Htb. rewrite <- !app_assoc. reflexivity.
    - exists (tq ++ rep), (EvAudit (LogProvisionFailed (Id (host w2)) "") :: new2 ++ beg).
      split; [| split; [exact Hqp | exact Hqn]].
      rewrite Hfin, Ht2, Htb. cbn [app]. rewrite <- !app_assoc. reflexivity. }
  destruct Hsplit as (post & pre & Ht & Hqpost & Hqpre).
  rewrite Ht, !app_assoc, added_app, <- !app_assoc.
  destruct (document_quiet_app now (trace (sys (looked_up w))) post
              ((if (ProvisionAttempts (host w) + 1 <=? 15)
                   && HostStatus_eqb (Status (host w)) HostProvisioning
                   && negb (Provisioned (host w))
                then []
                else [EvHostWrite SetUnprovisioned None]) ++ pre) (host w) Hqpost)
    as (Hs1 & Hp1).
  rewrite Hs1, Hp1.
  destruct (document_standing now (trace (sys (looked_up w))) pre (host w) Hqpre) as (Hs0 & Hp0).
  destruct ((ProvisionAttempts (host w) + 1 <=? 15)
            && HostStatus_eqb (Status (host w)) HostProvisioning
            && negb (Provisioned (host w))).
  - cbn [app]. split; [exact Hp0 | exact Hs0].
  - cbn [app document apply_write]. split; [exact Hp0 | reflexivity].
Qed.

Lemma persists_increment_true D w :
  skips (host w) = false ->
  (forall hs, ctx_Err D hs = None) ->
  (forall hs h, persist D hs h IncProvisionAttempts = None) ->
  persists_increment D (looked_up w) = true.
Proof.
  intros Hs Hc Hi. unfold persists_increment, reaches.
  change (host (looked_up w)) with (host w). rewrite Hs, Hc, Hi. reflexivity.
Qed.

Lemma retry_budget_general D ctx
      (Hctx : forall hs, ctx_Err D hs = None)
      (Hinc : forall hs h, persist D hs h IncProvisionAttempts = None)
      (Hun : forall hs h, persist D hs h SetUnprovisioned = None) n :
  forall w,
    (forall k, (k < n)%nat ->
               is_Err (fst (runHostSetup D ctx (at_bootstrap D (Run_host_n D ctx k w))))
               = true) ->
    Provisioned (host w) = false ->
    Status (host w) = HostProvisioning \/ Status (host w) = HostUnprovisioned ->
    let wn := Run_host_n D ctx n w in
    let a := ProvisionAttempts (host w) + Z.of_nat n in
    ProvisionAttempts (host wn) = a /\
    Provisioned (host wn) = false /\
    (Status (host w) = HostProvisioning -> a <= 15 -> Status (host wn) = HostProvisioning) /\
    (Status (host w) = HostProvisioning -> 15 < a -> (0 < n)%nat ->
     Status (host wn) = HostUnprovisioned) /\
    (Status (host w) = HostUnprovisioned -> Status (host wn) = HostUnprovisioned).
Proof.
  induction n as [| n IH]; intros w Hfail Hp Hst; cbn [Run_host_n]; cbv zeta.
  - rewrite Z.add_0_r. repeat split; auto; intros; lia.
  - assert (Hsk : skips (host w) = false).
    { unfold skips. rewrite Hp. destruct Hst as [-> | ->]; reflexivity. }
    pose proof (Run_stored_failed D ctx w Hsk (Hctx _) Hun (Hfail O (Nat.lt_0_succ n)))
      as (Hp1 & Hs1).
    pose proof (Run_stored_attempts D ctx w) as Ha.
    rewrite (persists_increment_true D w Hsk Hctx Hinc) in Ha.
    rewrite Hp in Hs1. cbn [negb] in Hs1. rewrite andb_true_r in Hs1.
    set (w1 := Run_stored D ctx w) in *.
    assert (Hst1 : Status (host w1) = HostProvisioning \/ Status (host w1) = HostUnprovisioned).
    { rewrite Hs1. destruct (_ && _); auto. }
    rewrite Hp in Hp1.
    assert (Hfail1 : forall k, (k < n)%nat ->
               is_Err (fst (runHostSetup D ctx (at_bootstrap D (Run_host_n D ctx k w1))))
               = true).
    { intros k Hk. apply (Hfail (S k)). lia. }
    destruct (IH w1 Hfail1 Hp1 Hst1) as (IHa & IHp & IHk & IHu & IHs). cbv zeta in *.
    rewrite Ha in IHa, IHk, IHu.
    replace (ProvisionAttempts (host w) + Z.of_nat (S n))
      with (ProvisionAttempts (host w) + 1 + Z.of_nat n) by lia.
    split; [exact IHa |]. split; [exact IHp |].
    split; [| split].
    + intros Hw Hle. apply IHk; [| exact Hle].
      rewrite Hs1, Hw. replace (ProvisionAttempts (host w) + 1 <=? 15) with true; [reflexivity |].
      symmetry. apply Z.leb_le. lia.
    + intros Hw Hgt _. rewrite Hw in Hs1. cbn [HostStatus_eqb] in Hs1.
      rewrite andb_true_r in Hs1.
      destruct (ProvisionAttempts (host w) + 1 <=? 15) eqn:Hle.
      * apply Z.leb_le in Hle. destruct n as [| n'].
        -- simpl in Hgt. lia.
        -- apply IHu; [exact Hs1 | exact Hgt | lia].
      * apply IHs. exact Hs1.
    + intros Hw. apply IHs. rewrite Hs1, Hw. cbn [HostStatus_eqb].
      rewrite andb_false_r. reflexivity.
Qed.

(** X18.  [provisionHost], [shouldRetryProvisioning] and [Run] over any
    number of runs, each of which reads the host from the database: for a
    host in status Provisioning whose bootstrap sequence fails in each of
    the [n] runs, with a context that is never cancelled and working writes
    of the attempt count and of the status, every run adds one to the
    stored attempt count; the host stays Provisioning as long as the count
    is at most 15, and is Unprovisioned from the run that takes the count
    past 15. It is never marked provisioned. *)
Theorem retry_budget D ctx n w
        (Hfail : forall k, (k < n)%nat ->
                   is_Err (fst (runHostSetup D ctx
                                  (at_bootstrap D (Run_host_n D ctx k w)))) = true)
        (Hctx : forall hs, ctx_Err D hs = None)
        (Hinc : forall hs h, persist D hs h IncProvisionAttempts = None)
        (Hun : forall hs h, persist D hs h SetUnprovisioned = None) :
  Status (host w) = HostProvisioning ->
  Provisioned (host w) = false ->
  let wn := Run_host_n D ctx n w in
  let a := ProvisionAttempts (host w) + Z.of_nat n in
  ProvisionAttempts (host wn) = a /\
  Provisioned (host wn) = false /\
  (a <= 15 -> Status (host wn) = HostProvisioning) /\
  (15 < a -> (0 < n)%nat -> Status (host wn) = HostUnprovisioned).
Proof.
  intros Hs Hp.
  destruct (retry_budget_general D ctx Hctx Hinc Hun n w Hfail Hp (or_introl Hs))
    as (Ha & Hp' & Hk & Hu & _).
  cbv zeta in *. repeat split; auto.
Qed.

(** X18 at a host whose agent cannot be installed because no command gets
    through to it: after the sixteenth run the stored count is 16 and the
    host is Unprovisioned. *)
Lemma retry_budget_witness :
  let w := world_of (provisioning_host 0) in
  let wn := Run_host_n ssh_fails None 16 w in
  let a := ProvisionAttempts (host w) + Z.of_nat 16 in
  ProvisionAttempts (host wn) = a /\
  Provisioned (host wn) = false /\
  (a <= 15 -> Status (host wn) = HostProvisioning) /\
  (15 < a -> (0 < 16)%nat -> Status (host wn) = HostUnprovisioned).
Proof.
  refine (retry_budget ssh_fails None 16 (world_of (provisioning_host 0)) _ _ _ _ _ _);
    try (intros; reflexivity).
  intros k Hk.
  do 16 (destruct k as [| k]; [vm_compute; reflexivity |]).
  lia.
Defined.

(** The second scenario of the specification: a host at 0 attempts whose
    agent cannot be installed.  After the sixteenth run it is Unprovisioned,
    one "provisioning failed" event was logged, fifteen retries were queued,
    and a further run would queue none. *)
Example sixteen_ssh_failures :
  let wn := Run_host_n ssh_fails None 16 (world_of (provisioning_host 0)) in
  ProvisionAttempts (host wn) = 16 /\
  Status (host wn) = HostUnprovisioned /\
  List.filter (fun ev => match ev with
                         | EvAudit (LogProvisionFailed _ _) => true
                         | _ => false
                         end) (trace (sys wn))
  = [EvAudit (LogProvisionFailed "h1" "")] /\
  length (List.filter is_put (trace (sys wn))) = 15%nat /\
  List.filter is_put (added (trace (sys wn)) (trace (sys (Run_stored ssh_fails None wn)))) = [].
Proof. vm_compute. repeat split. Qed.

(** ** Hosts that the app server does not log into *)

Lemma inside_bind_host P {B} w0 (k : Host -> M B) :
  (forall ev, P ev -> is_distro_read ev = false) ->
  (forall h, Distro h = Distro (host w0) -> inside P w0 (k h)) ->
  inside P w0 (bind get_host k).
Proof.
  intros HP Hk w Hw. rewrite bind_eq. cbn [get_host fst snd].
  apply Hk; [| exact Hw].
  destruct Hw as (_ & _ & _ & new & _ & Hf & _ & _ & _ & _ & Hd & _).
  apply Hd. apply Forall_existsb_false.
  eapply List.Forall_impl; [| exact Hf]. exact HP.
Qed.

Lemma hands_off_no_reload ev : hands_off ev -> is_distro_read ev = false.
Proof. destruct ev as [| [] | | | | | | | |]; simpl; intros H; auto; destruct H. Qed.

Lemma hands_off_quiet l :
  Forall hands_off l -> existsb is_file l = false /\ existsb is_creds l = false.
Proof.
  induction 1 as [| ev l Hev _ (IHf & IHc)]; simpl; [auto |].
  rewrite IHf, IHc. destruct ev; simpl in *; auto; destruct Hev.
Qed.

(** X19.  [runHostSetup], lines 217-270: for a host whose distro is
    bootstrapped with user data, or not bootstrapped at all, the bootstrap
    sequence runs no command on the host, copies no script and touches
    neither credentials nor local files: all it adds are log entries, calls
    of the cloud manager and writes of the DNS name, the last communication
    time and the status. *)
Theorem runHostSetup_hands_off D ctx w :
  distro.Method (Distro (host w)) = distro.BootstrapMethodNone \/
  distro.Method (Distro (host w)) = distro.BootstrapMethodUserData ->
  let w' := snd (runHostSetup D ctx w) in
  Forall hands_off (added (trace (sys w)) (trace (sys w'))) /\
  creds (sys w') = creds (sys w) /\
  files (sys w') = files (sys w) /\
  job_errors w' = job_errors w.
Proof.
  intros Hm. cbv zeta.
  assert (Hi : inside hands_off w (runHostSetup D ctx)).
  { unfold runHostSetup.
    in_walk ltac:(first
      [ solve [ exfalso;
                match goal with
                | Hh : Distro ?h = Distro (host w), He : distro.Method (Distro ?h) = _ |- _ =>
                    rewrite Hh in He; destruct Hm; congruence
                end ]
      | apply inside_bind_host; [exact hands_off_no_reload | intros ? ?]
      | apply inside_cloud_call; intros; exact I
      | apply (inside_setDNSName D hands_off); intros; exact I
      | apply inside_host_write; intros; exact I
      | apply inside_grip; intros; exact I
      | apply inside_grip_WrapError; intros; exact I ]). }
  pose proof (Hi w (within_refl _ _)) as H.
  split; [apply within_added; exact H |].
  destruct H as (He & _ & _ & new & _ & Hf & _ & Hfl & Hc & _).
  destruct (hands_off_quiet _ Hf) as (Hqf & Hqc). auto.
Qed.

Lemma runHostSetup_hands_off_witness :
  let w := world_of userdata_host in
  let w' := snd (runHostSetup all_ok None w) in
  Forall hands_off (added (trace (sys w)) (trace (sys w'))) /\
  creds (sys w') = creds (sys w) /\
  files (sys w') = files (sys w) /\
  job_errors w' = job_errors w.
Proof.
  apply (runHostSetup_hands_off all_ok None (world_of userdata_host)).
  right. reflexivity.
Defined.

(** ** What a run changes *)

Lemma existsb_requeue_log (f : Event -> bool) r :
  (forall l m e, f (EvLog l m e) = false) -> existsb f (requeue_log r) = false.
Proof. intros Hf. destruct r; simpl; [rewrite Hf |]; reflexivity. Qed.

(** The entries of a whole run, and what stays the same without them. *)
Lemma Run_host_frame D ctx w :
  let w' := snd (Run_host D ctx w) in
  exists new,
    trace (sys w') = new ++ trace (sys w) /\
    (existsb changes_host new = false -> host w' = host w) /\
    (existsb is_file new = false -> files (sys w') = files (sys w)) /\
    (existsb is_creds new = false -> creds (sys w') = creds (sys w)) /\
    (existsb is_marked new = false -> Provisioned (host w') = Provisioned (host w)) /\
    (existsb changes_status new = false -> Status (host w') = Status (host w)).
Proof.
  cbv zeta. rewrite Run_host_eq. destruct (skips (host w)).
  { exists [skip_log]. repeat split. }
  destruct (setupHost_within D ctx w)
    as (_ & _ & _ & new & Ht & _ & Hs & Hfl & Hc & Hh & _ & Hm).
  assert (Hb : host (before_requeue D ctx w) = host (snd (setupHost D ctx w)) /\
               sys (before_requeue D ctx w) = sys (snd (setupHost D ctx w))).
  { rewrite before_requeue_eq. split; reflexivity. }
  destruct Hb as (Hbh & Hbs).
  pose proof (tryRequeue_spec D ctx (before_requeue D ctx w)) as H. cbv zeta in H.
  destruct (shouldRetryProvisioning _ && Started D _).
  - rewrite H. cbn [host sys trace creds files]. rewrite Hbh, Hbs, Ht.
    match goal with
    | |- context [requeue_log ?r ++ EvPut ?j ?r :: new ++ ?t] =>
        exists (requeue_log r ++ EvPut j r :: new)
    end.
    split; [rewrite <- app_assoc; reflexivity |].
    rewrite !existsb_app. cbn [existsb changes_host is_file is_creds is_marked
                                 changes_status orb].
    rewrite !existsb_requeue_log by reflexivity. cbn [orb].
    repeat split; intros Hn; auto. apply (Hs Hn).
  - rewrite H. rewrite Hbh, Hbs. exists new. repeat split; auto.
    intros Hn. apply (Hs Hn).
Qed.

(** X20.  [Run] and everything it calls: the host struct changes only when
    the run wrote to the host or reloaded its distro, the local files only
    when the run made a file operation, and the credential store only when
    it made a credential operation. *)
Theorem Run_host_changes D ctx w :
  let w' := snd (Run_host D ctx w) in
  let new := added (trace (sys w)) (trace (sys w')) in
  (existsb changes_host new = false -> host w' = host w) /\
  (existsb is_file new = false -> files (sys w') = files (sys w)) /\
  (existsb is_creds new = false -> creds (sys w') = creds (sys w)).
Proof.
  cbv zeta. destruct (Run_host_frame D ctx w) as (new & Ht & Hh & Hf & Hc & _).
  rewrite Ht, added_app. auto.
Qed.

(** ** Marking the host as provisioned *)

Lemma unless_provisionHost_mark D w0 :
  inside_unless provisioned not_marked w0 (provisionHost_mark D).
Proof.
  intros w Hw. unfold provisionHost_mark, provisioned.
  rewrite !bind_eq. cbn [get_host grip emit modify_sys fst snd].
  rewrite host_write_eq. cbn [fst snd].
  destruct (persist D _ _ MarkAsProvisioned) as [e |].
  - right. eapply within_trans; [exact Hw |].
    cbn [kept_on_failure ret snd].
    apply within_intro
      with (evs := [EvHostWrite MarkAsProvisioned (Some e);
                    EvLog LvInfo "setup complete for host" None]);
      try reflexivity.
    + repeat constructor.
    + intros _. split; reflexivity.
  - left. rewrite !bind_eq. cbn [emit modify_sys ret fst snd host]. split; reflexivity.
Qed.

Lemma unless_provisionHost_finish D ctx r w0 :
  inside_unless provisioned not_marked w0 (provisionHost_finish D ctx r).
Proof.
  unfold provisionHost_finish.
  unless_walk ltac:(apply unless_provisionHost_mark) D not_marked.
Qed.

Lemma not_marked_quiet l : Forall not_marked l -> existsb is_marked l = false.
Proof. apply Forall_existsb_false. Qed.

(** The host after [setupHost]: marked as provisioned, or with entries that
    are not the mark. *)
Lemma setupHost_marks D ctx w :
  let ws := snd (setupHost D ctx w) in
  (Provisioned (host ws) = true /\ Status (host ws) = HostProvisioned) \/
  within not_marked w ws.
Proof.
  cbv zeta. unfold setupHost. rewrite !bind_eq.
  cbn [get_host history grip emit modify_sys fst snd sys trace].
  destruct (ctx_Err D _).
  { right. apply within_intro with (evs := [EvLog LvInfo "attempting to setup host" None]);
      try reflexivity.
    - repeat constructor.
    - intros _. split; reflexivity. }
  rewrite !bind_eq. cbn [emit modify_sys fst snd host job_errors sys trace creds files].
  match goal with |- context [provisionHost D ctx ?v] => set (w2 := v) end.
  assert (H2 : within not_marked w w2).
  { apply within_intro
      with (evs := [EvLog LvInfo "provisioning host" None;
                    EvLog LvInfo "attempting to setup host" None]);
      try reflexivity.
    - repeat constructor.
    - intros _. split; reflexivity. }
  assert (Hp : inside_unless provisioned not_marked w (provisionHost D ctx)).
  { unfold provisionHost.
    apply unless_bind; [apply (inside_provisionHost_begin D not_marked); calm | intros _].
    apply unless_bind; [apply (inside_runHostSetup D not_marked); calm | intros r].
    apply unless_provisionHost_finish. }
  destruct (Hp w2 H2) as [(Hq1 & Hq2) | H3].
  - left. cbn [snd] in Hq1, Hq2. rewrite setupHost_report_host. split; assumption.
  - right.
    assert (Hr : inside not_marked w (setupHost_report D (fst (provisionHost D ctx w2)))).
    { apply (inside_setupHost_report D not_marked); calm. }
    apply Hr. exact H3.
Qed.

(** X21.  [provisionHost], lines 711-714, within [Run]: a run leaves the
    host with the provisioned flag set exactly when it made the write that
    marks the host as provisioned and that write succeeded; the status is
    then [HostProvisioned], and a later run skips the host. *)
Theorem Run_host_marked D ctx w :
  Provisioned (host w) = false ->
  let w' := snd (Run_host D ctx w) in
  let new := added (trace (sys w)) (trace (sys w')) in
  (Provisioned (host w') = true <-> existsb is_marked new = true) /\
  (Provisioned (host w') = true ->
   Status (host w') = HostProvisioned /\ skips (host w') = true).
Proof.
  intros Hp. cbv zeta.
  destruct (Run_host_frame D ctx w) as (new & Ht & _ & _ & _ & Hm & _).
  rewrite Ht, added_app.
  assert (Hw' : skips (host w) = false ->
                host (snd (Run_host D ctx w)) = host (snd (setupHost D ctx w)) /\
                exists later,
                  trace (sys (snd (Run_host D ctx w)))
                  = later ++ trace (sys (snd (setupHost D ctx w))) /\
                  existsb is_marked later = false).
  { intros Hs. rewrite Run_host_eq, Hs.
    pose proof (tryRequeue_spec D ctx (before_requeue D ctx w)) as H. cbv zeta in H.
    destruct (shouldRetryProvisioning _ && Started D _); rewrite H.
    - rewrite before_requeue_eq. cbn [host sys trace]. split; [reflexivity |].
      eexists (requeue_log _ ++ [_]). split; [rewrite <- app_assoc; reflexivity |].
      rewrite existsb_app, existsb_requeue_log by reflexivity. reflexivity.
    - rewrite before_requeue_eq. cbn [host sys trace]. split; [reflexivity |].
      exists []. split; reflexivity. }
  destruct (skips (host w)) eqn:Hs.
  { assert (Hh : host (snd (Run_host D ctx w)) = host w).
    { rewrite Run_host_eq, Hs. reflexivity. }
    assert (Hn : new = [skip_log]).
    { rewrite Run_host_eq, Hs in Ht. cbn [sys trace] in Ht.
      change (skip_log :: trace (sys w)) with ([skip_log] ++ trace (sys w)) in Ht.
      apply app_inv_tail in Ht. symmetry. exact Ht. }
    rewrite Hh, Hp, Hn. split; [split |]; discriminate. }
  destruct (Hw' eq_refl) as (Hh & later & Hl & Hlq).
  destruct (setupHost_marks D ctx w) as [(Hq1 & Hq2) | Hin].
  - rewrite Hh, Hq1, Hq2. split; [split; [intros _ | reflexivity] |].
    + destruct (existsb is_marked new); [reflexivity |].
      rewrite <- Hh, (Hm eq_refl), Hp in Hq1. discriminate.
    + intros _. split; [reflexivity |]. unfold skips. rewrite Hq1. apply orb_true_r.
  - destruct Hin as (_ & _ & _ & news & Hts & Hfs & _).
    assert (Hn : new = later ++ news).
    { rewrite Hl, Hts, app_assoc in Ht. apply app_inv_tail in Ht. symmetry. exact Ht. }
    assert (He : existsb is_marked new = false).
    { rewrite Hn, existsb_app, Hlq, (not_marked_quiet _ Hfs). reflexivity. }
    rewrite (Hm He), Hp, He. split; [split |]; discriminate.
Qed.

Lemma Run_host_marked_witness :
  let w := world_of setup_host in
  let w' := snd (Run_host all_ok None w) in
  let new := added (trace (sys w)) (trace (sys w')) in
  (Provisioned (host w') = true <-> existsb is_marked new = true) /\
  (Provisioned (host w') = true ->
   Status (host w') = HostProvisioned /\ skips (host w') = true).
Proof. apply (Run_host_marked all_ok None (world_of setup_host)). reflexivity. Defined.

(** ** Script copies *)

(** X22.  Both [copyScript] functions, lines 411-483 and 488-571: when the
    copy returns nil, it did, in this order and each without error: create
    the temporary file, make it private, write the expanded script to it,
    and transfer it to the host under the one-minute timeout, as the user of
    the SSH info or else of the distro; then it closed and removed the file,
    whose errors are only logged. *)
Theorem copyScript_common_success D op notice ctx name script w :
  let r := copyScript_common D op notice ctx name script w in
  let file := tempName D (trace (sys w)) (filepath_Base name) in
  fst r = Ok tt ->
  exists info expanded opts out cl rm,
    GetSSHInfo D (trace (sys w)) (host w) = Ok info /\
    ExpandString D (EvFile (Chmod file) None :: EvFile (TempFile file) None
                      :: trace (sys w)) script = Ok expanded /\
    trace (sys (snd r))
    = EvLog LvDebug "copy script" None
        :: cleanup_log rm ++ EvFile (Remove file) rm
        :: cleanup_log cl ++ EvFile (Close file) cl
        :: EvRemote op
             (JasperLocal
                (buildScpCommand file name info
                   (if negb (String.eqb (ssh_User info) "")
                    then ssh_User info else distro.User (Distro (host w)))
                   opts))
             (WithTimeout ctx scpTimeout) out None
        :: EvFile (WriteString file expanded) None
        :: EvFile (Chmod file) None
        :: EvFile (TempFile file) None :: trace (sys w).
Proof.
  cbv zeta.
  unfold copyScript_common, ioutil_TempFile, defer, copyScript_transfer, copyScript_cleanup,
    expandScript.
  rewrite !bind_eq. cbn [get_host history fst snd].
  destruct (GetSSHInfo D (trace (sys w)) (host w)) as [info | e] eqn:Ei; [| discriminate].
  rewrite !bind_eq. rewrite file_call_eq. cbn [history ret fst snd].
  destruct (fileResult D (trace (sys w)) (TempFile _)) as [e |]; [discriminate |].
  rewrite !bind_eq. rewrite file_call_eq.
  cbn [ret fst snd host sys trace creds files job_errors].
  destruct (fileResult D _ (Chmod _)) as [e |]; [discriminate |].
  rewrite !bind_eq. cbn [get_host history ret fst snd host sys trace creds files job_errors].
  destruct (ExpandString D _ script) as [expanded | e] eqn:Ex;
    cbn [ret fst snd]; [| discriminate].
  rewrite !bind_eq. rewrite file_call_eq.
  cbn [ret fst snd host sys trace creds files job_errors].
  destruct (fileResult D _ (WriteString _ _)) as [e |]; cbn [ret fst snd]; [discriminate |].
  rewrite !bind_eq. cbn [history get_host fst snd host sys trace creds files job_errors].
  destruct (GetSSHOptions D _ _) as [opts | e]; cbn [ret fst snd]; [| discriminate].
  unfold run_command. rewrite !bind_eq.
  cbn [history get_host emit modify_sys ret fst snd host sys trace creds files job_errors].
  destruct (run D _ _ _ _) as [out [e |]]; cbn [fst snd Wrap to_Res];
    [destruct notice; discriminate |].
  intros _. exists info, expanded, opts, out.
  assert (Hn : forall v : World,
             snd ((if notice
                   then grip_WrapError LvNotice None "problem copying script to host"
                   else ret tt) v) = v).
  { intros v. destruct notice; reflexivity. }
  rewrite !Hn. rewrite !file_call_eq.
  cbn [fst snd host sys trace creds files job_errors].
  destruct (fileResult D _ (Close _)) as [ce |];
    cbn [grip_WrapError emit modify_sys ret fst snd host sys trace creds files job_errors];
    rewrite ?file_call_eq;
    cbn [fst snd host sys trace creds files job_errors];
    match goal with
    | |- context [fileResult D ?h (Remove ?f)] =>
        destruct (fileResult D h (Remove f)) as [re |]
    end.
  - exists (Some ce), (Some re). repeat split.
  - exists (Some ce), None. repeat split.
  - exists None, (Some re). repeat split.
  - exists None, None. repeat split.
Qed.

Lemma copyScript_common_success_witness :
  let w := world_of setup_host in
  let r := copyScript_common all_ok OpDistroScriptCopy true None "~/setup.sh" "echo hi" w in
  let file := tempName all_ok (trace (sys w)) (filepath_Base "~/setup.sh") in
  exists info expanded opts out cl rm,
    GetSSHInfo all_ok (trace (sys w)) (host w) = Ok info /\
    ExpandString all_ok (EvFile (Chmod file) None :: EvFile (TempFile file) None
                           :: trace (sys w)) "echo hi" = Ok expanded /\
    trace (sys (snd r))
    = EvLog LvDebug "copy script" None
        :: cleanup_log rm ++ EvFile (Remove file) rm
        :: cleanup_log cl ++ EvFile (Close file) cl
        :: EvRemote OpDistroScriptCopy
             (JasperLocal
                (buildScpCommand file "~/setup.sh" info
                   (if negb (String.eqb (ssh_User info) "")
                    then ssh_User info else distro.User (Distro (host w)))
                   opts))
             (WithTimeout None scpTimeout) out None
        :: EvFile (WriteString file expanded) None
        :: EvFile (Chmod file) None
        :: EvFile (TempFile file) None :: trace (sys w).
Proof.
  apply (copyScript_common_success all_ok OpDistroScriptCopy true None "~/setup.sh" "echo hi"
           (world_of setup_host)).
  reflexivity.
Defined.

(** ** Paths *)

Lemma list_ascii_of_string_app (a b : string) :
  list_ascii_of_string (a +:+ b) = list_ascii_of_string a ++ list_ascii_of_string b.
Proof. induction a as [| c a IH]; simpl; [reflexivity |]. rewrite IH. reflexivity. Qed.

Lemma last_element_app (l rest : list ascii) :
  Forall (fun c => Ascii.eqb c slash = false) l ->
  last_element (l ++ slash :: rest) = l.
Proof.
  induction 1 as [| c l Hc _ IH]; simpl.
  - reflexivity.
  - rewrite Hc, IH. reflexivity.
Qed.

(** [filepath.Base] of [filepath.Join]: the last element of a joined path is
    the name that was joined, when the name is not empty and has no slash. *)
Lemma filepath_Base_Join (dir name : string) :
  name <> "" ->
  no_slash name ->
  filepath_Base (filepath_Join dir name) = name.
Proof.
  intros Hne Hns. unfold filepath_Base, filepath_Join.
  assert (He : String.eqb (dir +:+ "/" +:+ name) "" = false).
  { destruct dir; reflexivity. }
  rewrite He. rewrite !list_ascii_of_string_app. cbn [list_ascii_of_string app].
  rewrite rev_app_distr. cbn [rev]. rewrite <- !app_assoc. cbn [app].
  fold slash.
  assert (Hr : Forall (fun c => Ascii.eqb c slash = false) (rev (list_ascii_of_string name))).
  { apply Forall_rev. exact Hns. }
  destruct (rev (list_ascii_of_string name)) as [| c l] eqn:El.
  - exfalso. apply Hne.
    rewrite <- (string_of_list_ascii_of_string name), <- (rev_involutive (list_ascii_of_string name)), El.
    reflexivity.
  - cbn [app strip_slashes]. inversion Hr as [| ? ? Hc Hl]; subst.
    rewrite Hc.
    change (c :: l ++ slash :: rev (list_ascii_of_string dir))
      with ((c :: l) ++ slash :: rev (list_ascii_of_string dir)).
    rewrite (last_element_app (c :: l) _ Hr), <- El, rev_involutive.
    apply string_of_list_ascii_of_string.
Qed.

(** ** The service user *)

Lemma Base_setup_user dir : filepath_Base (filepath_Join dir "setup-user.ps1") = "setup-user.ps1".
Proof. apply filepath_Base_Join; [discriminate | repeat constructor]. Qed.

(** X23.  [setupServiceUser], lines 376-396: the service-user script is run
    only on a Windows distro, under the job's own context, by the command
    [powershell ./setup-user.ps1 && rm -f ./setup-user.ps1], whatever the
    home directory of the distro. *)
Theorem setupServiceUser_command D ctx opts w c t out r :
  let w' := snd (setupServiceUser D ctx opts w) in
  In (EvRemote OpServiceUserRun c t out r) (added (trace (sys w)) (trace (sys w'))) ->
  c = RunSSHCommand "powershell ./setup-user.ps1 && rm -f ./setup-user.ps1" opts /\
  t = ctx /\
  distro.IsWindows (Distro (host w)) = true.
Proof.
  cbv zeta. unfold setupServiceUser. rewrite !bind_eq. cbn [get_host history fst snd].
  destruct (distro.IsWindows (Distro (host w))); cbn [negb];
    [| cbn [ret snd]; rewrite added_same; intros []].
  rewrite !bind_eq. cbn [history fst snd].
  destruct (SetupServiceUserCommands D _ _) as [cmds | e];
    [| cbn [ret snd]; rewrite added_same; intros []].
  rewrite !bind_eq.
  match goal with
  | |- context [copyScript D ctx ?p ?s w] =>
      assert (Hc : within not_user_run w (snd (copyScript D ctx p s w)))
        by (from_start (inside_copyScript D not_user_run); intros; exact I);
      destruct Hc as (_ & _ & _ & newc & Htc & Hfc & _);
      destruct (copyScript D ctx p s w) as [cr wc]
  end.
  cbn [fst snd] in *.
  assert (Hno : In (EvRemote OpServiceUserRun c t out r) newc -> False).
  { intros Hin. rewrite List.Forall_forall in Hfc. exact (Hfc _ Hin). }
  destruct cr as [[] | e].
  - unfold run_command. rewrite !bind_eq.
    cbn [history get_host emit modify_sys ret fst snd sys trace].
    rewrite Base_setup_user.
    assert (Hs : forall (x : string * option error) (v : World),
               snd (match snd x with
                    | Some e =>
                        ret (Err (errors_Wrap e
                          ("error while setting up service user: command returned "
                             +:+ fst x)))
                    | None => ret (Ok tt)
                    end v) = v).
    { intros [x1 [e |]] v; reflexivity. }
    rewrite Hs. cbn [sys trace]. rewrite Htc. new_entries_app.
    intros [Hin | Hin]; [| destruct (Hno Hin)].
    injection Hin as <- <- _ _. repeat split.
  - cbn [ret snd]. rewrite Htc, added_app. intros Hin. destruct (Hno Hin).
Qed.

Lemma setupServiceUser_command_witness :
  RunSSHCommand "powershell ./setup-user.ps1 && rm -f ./setup-user.ps1" ["-o"; "ConnectTimeout=10"]
  = RunSSHCommand "powershell ./setup-user.ps1 && rm -f ./setup-user.ps1"
                  ["-o"; "ConnectTimeout=10"] /\
  @None Duration = None /\
  distro.IsWindows (Distro (host (world_of windows_host))) = true.
Proof.
  apply (setupServiceUser_command all_ok None ["-o"; "ConnectTimeout=10"]
           (world_of windows_host)
           (RunSSHCommand "powershell ./setup-user.ps1 && rm -f ./setup-user.ps1"
                          ["-o"; "ConnectTimeout=10"])
           None "" None).
  vm_compute. left. reflexivity.
Defined.

(** ** The last log entry of setupHost *)

(** X24.  [setupHost], lines 156-182: its last log entry depends only on the
    status of the host and its provisioned flag, not on whether
    [provisionHost] returned an error: "retrying provisioning" for a host
    that is still Provisioning and not provisioned, and "successfully
    finished provisioning host" otherwise, which includes a host that was
    just set to Unprovisioned. It returns nil in both cases. *)
Theorem setupHost_report_last_log D r w :
  let res := setupHost_report D r w in
  fst res = None /\
  hd_error (trace (sys (snd res)))
  = Some (EvLog LvInfo
            (if HostStatus_eqb (Status (host w)) HostProvisioning
                && negb (Provisioned (host w))
             then "retrying provisioning"
             else "successfully finished provisioning host")
            None).
Proof.
  cbv zeta. split; [apply setupHost_report_fst |].
  unfold setupHost_report. rewrite bind_eq. cbn [get_host fst snd].
  rewrite bind_eq.
  set (m := match r with Ok _ => ret tt | Err err => _ end).
  assert (Hh : host (snd (m w)) = host w).
  { assert (H : within off_files w (snd (m w))).
    { assert (Hi : inside off_files w m).
      { subst m. destruct r as [[] | err]; [apply inside_ret |].
        in_walk ltac:(first
          [ apply inside_emit; split; reflexivity
          | apply inside_creds_call; intros; split; reflexivity
          | apply inside_grip_WrapError; intros; split; reflexivity ]). }
      apply Hi. apply within_refl. }
    apply within_off_files in H. apply H. }
  rewrite bind_eq. cbn [get_host fst snd]. rewrite Hh.
  destruct (HostStatus_eqb (Status (host w)) HostProvisioning && negb (Provisioned (host w)));
    reflexivity.
Qed.

(** ** The queued jobs *)

Lemma may_emit_queued_for inc ctx sp id ev : may_emit inc ctx sp ev -> queued_for id ev.
Proof. destruct ev; simpl; intros H; auto. destruct H. Qed.

Lemma Run_host_queued D ctx w :
  exists new,
    trace (sys (snd (Run_host D ctx w))) = new ++ trace (sys w) /\
    Forall (queued_for (Id (host w))) new.
Proof.
  rewrite Run_host_eq. destruct (skips (host w)).
  { exists [skip_log]. split; [reflexivity | repeat constructor]. }
  pose proof (tryRequeue_spec D ctx (before_requeue D ctx w)) as Hq. cbv zeta in Hq.
  destruct (before_requeue_steps D ctx w) as (_ & _ & _ & new1 & Ht1 & Hf1).
  assert (Hn1 : Forall (queued_for (Id (host w))) new1).
  { eapply List.Forall_impl; [| exact Hf1]. intros ev. apply may_emit_queued_for. }
  assert (Hid : Id (host (before_requeue D ctx w)) = Id (host w)).
  { rewrite before_requeue_eq. cbn [host].
    destruct (setupHost_within D ctx w) as (_ & Hi & _). exact Hi. }
  destruct (shouldRetryProvisioning _ && Started D _) eqn:Hc.
  - rewrite Hq. cbn [sys trace]. rewrite Ht1.
    eexists (requeue_log _ ++ _ :: new1). split; [rewrite <- app_assoc; reflexivity |].
    apply Forall_app. split.
    + match goal with |- context [requeue_log ?r] => destruct r end; repeat constructor.
    + constructor; [| exact Hn1].
      apply andb_true_iff in Hc. destruct Hc as (Hc & _).
      cbn [queued_for retry_job q_HostID q_host q_ID q_Priority].
      repeat split; auto.
  - rewrite Hq, Ht1. exists new1. split; [reflexivity | exact Hn1].
Qed.

Lemma Run_host_n_queued D ctx n :
  forall w,
    exists new,
      trace (sys (Run_host_n D ctx n w)) = new ++ trace (sys w) /\
      Forall (queued_for (Id (host w))) new.
Proof.
  induction n as [| n IH]; intros w; cbn [Run_host_n].
  - exists []. split; [reflexivity | constructor].
  - destruct (Run_host_queued D ctx (looked_up w)) as (new1 & Ht1 & Hf1).
    destruct (IH (Run_stored D ctx w)) as (newn & Htn & Hfn).
    destruct (Run_stored_identity D ctx w) as (Hi & _). rewrite Hi in Hfn.
    exists (newn ++ new1 ++ [EvDbRead (host_FindOneId (Id (host w)))]).
    split.
    + rewrite Htn. unfold Run_stored. cbn [sys]. rewrite Ht1.
      cbn [looked_up sys add_event trace]. rewrite <- !app_assoc. reflexivity.
    + apply Forall_app. split; [exact Hfn |].
      apply Forall_app. split; [exact Hf1 | repeat constructor].
Qed.

(** X25.  [tryRequeue] and [NewHostSetupJob] over any number of runs:
    whatever happens in the runs, every job that was put on the queue is a
    retry for the same host, with priority 1; it carries the host as the run
    left it, which is still Provisioning, not provisioned and has at most 15
    attempts, and its id ends in that attempt count. *)
Theorem retries_within_budget D ctx n w :
  Forall (queued_for (Id (host w)))
         (added (trace (sys w)) (trace (sys (Run_host_n D ctx n w)))).
Proof.
  destruct (Run_host_n_queued D ctx n w) as (new & Ht & Hf).
  rewrite Ht, added_app. exact Hf.
Qed.

(** Sixteen failing runs queue fifteen retries, named after the attempts 1
    to 15. *)
Example fifteen_retries :
  map (fun ev => match ev with EvPut job _ => q_ID job | _ => "" end)
      (List.filter is_put
         (trace (sys (Run_host_n no_manager None 16 (world_of (provisioning_host 0))))))
  = map (fun k => "provisioning-setup-host.h1.attempt-" +:+ fmt_d k)
        [15; 14; 13; 12; 11; 10; 9; 8; 7; 6; 5; 4; 3; 2; 1].
Proof. vm_compute. reflexivity. Qed.

(** ** The DNS name *)

(** X26.  [setDNSName], lines 185-211: when it returns nil, the host has a
    DNS name or an IP address; when it has a DNS name, a second call does
    nothing. *)
Theorem setDNSName_reachable D w :
  let r := setDNSName D w in
  fst r = Ok tt ->
  (DNSName (host (snd r)) <> "" \/ IP (host (snd r)) <> "") /\
  (DNSName (host (snd r)) <> "" -> setDNSName D (snd r) = (Ok tt, snd r)).
Proof.
  cbv zeta. intros Hok.
  assert (Hsnd : forall v, DNSName (host v) <> "" -> setDNSName D v = (Ok tt, v)).
  { intros v Hv. unfold setDNSName. rewrite bind_eq. cbn [get_host fst snd].
    apply negb_eqb_empty in Hv. rewrite Hv. reflexivity. }
  split; [| apply Hsnd].
  revert Hok. unfold setDNSName, cloudMgr_GetDNSName. rewrite !bind_eq.
  cbn [get_host history fst snd].
  destruct (negb (String.eqb (DNSName (host w)) "")) eqn:Hd.
  { intros _. left. apply negb_eqb_empty. exact Hd. }
  rewrite !bind_eq. rewrite cloud_call_eq. cbn [get_host history ret fst snd].
  destruct (cloud D (trace (sys w)) (host w) GetDNSName) as [e |];
    cbn [ret fst snd]; [discriminate |].
  destruct (String.eqb (cloudDNSName D (trace (sys w)) (host w)) "") eqn:Hn.
  - destruct (negb (String.eqb (IP (host w)) "")) eqn:Hip;
      cbn [ret fst snd host]; [| discriminate].
    intros _. right. apply negb_eqb_empty. exact Hip.
  - rewrite !bind_eq. rewrite host_write_eq. cbn [fst snd].
    destruct (persist D _ _ (SetDNSName _)) as [e |];
      cbn [ret fst snd host apply_write set_DNSName DNSName]; [discriminate |].
    intros _. left. apply String.eqb_neq. exact Hn.
Qed.

Lemma setDNSName_reachable_witness :
  let r := setDNSName all_ok (world_of (provisioning_host 0)) in
  (DNSName (host (snd r)) <> "" \/ IP (host (snd r)) <> "") /\
  (DNSName (host (snd r)) <> "" -> setDNSName all_ok (snd r) = (Ok tt, snd r)).
Proof.
  apply (setDNSName_reachable all_ok (world_of (provisioning_host 0))). reflexivity.
Defined.

(** ** The result of provisionHost *)

Lemma spawn_part_cases D ctx w :
  let s := spawn_part D ctx w in
  exists news,
    trace (sys (snd s)) = news ++ trace (sys w) /\
    existsb is_unprovision news = is_Err (fst s) /\
    existsb mark_failed news = false.
Proof.
  cbv zeta. unfold spawn_part. rewrite bind_eq. cbn [get_host fst snd].
  destruct (ProvisionOpts (host w)) as [po |];
    [| exists []; repeat split].
  destruct (LoadCLI po); [| exists []; repeat split].
  assert (H : within spawn_step w (snd (provisionHost_spawn D ctx po w))).
  { from_start (inside_provisionHost_spawn D spawn_step); calm. }
  destruct H as (_ & _ & _ & news & Ht & Hf & _).
  exists news. split; [exact Ht |]. split.
  - destruct (provisionHost_spawn_cases D ctx po w) as (Hu & _). cbv zeta in Hu.
    rewrite Ht, added_app in Hu. exact Hu.
  - apply Forall_existsb_false. exact Hf.
Qed.

Lemma provisionHost_mark_cases D w :
  let r := provisionHost_mark D w in
  exists res,
    trace (sys (snd r))
    = match res with
      | None => [EvLog LvInfo "host successfully provisioned" None]
      | Some _ => []
      end ++ EvHostWrite MarkAsProvisioned res
          :: EvLog LvInfo "setup complete for host" None :: trace (sys w) /\
    is_Err (fst r) = match res with Some _ => true | None => false end.
Proof.
  cbv zeta. unfold provisionHost_mark.
  rewrite !bind_eq. cbn [get_host grip emit modify_sys fst snd].
  rewrite host_write_eq. cbn [fst snd].
  match goal with |- context [persist D ?h ?x MarkAsProvisioned] =>
    exists (persist D h x MarkAsProvisioned);
    destruct (persist D h x MarkAsProvisioned)
  end; split; reflexivity.
Qed.

Lemma provisionHost_finish_ok D ctx u w :
  distro.Method (Distro (host w)) <> distro.BootstrapMethodUserData ->
  provisionHost_finish D ctx (Ok u) w
  = match fst (spawn_part D ctx w) with
    | Err e => (Err e, snd (spawn_part D ctx w))
    | Ok _ => provisionHost_mark D (snd (spawn_part D ctx w))
    end.
Proof.
  intros Hm. unfold provisionHost_finish, spawn_part. rewrite !bind_eq.
  cbn [get_host fst snd].
  destruct (distro.Method (Distro (host w))); try congruence;
    rewrite bind_eq;
    match goal with |- match ?x with _ => _ end _ = _ => destruct x end; reflexivity.
Qed.

Lemma before_end_quiet l :
  Forall before_end l ->
  existsb is_unprovision l = false /\ existsb mark_failed l = false.
Proof.
  induction 1 as [| ev l (Hu & Hm) _ (IHu & IHm)]; simpl; [auto |].
  rewrite Hu, Hm, IHu, IHm. auto.
Qed.

Ltac end_finish :=
  repeat (progress (cbn [app existsb]; rewrite ?existsb_app; use_quiet));
  cbn [existsb is_unprovision mark_failed orb is_Err negb];
  rewrite ?orb_true_r, ?orb_false_r;
  try reflexivity.

(** X27.  [provisionHost], lines 589-727: it returns an error exactly when
    it tried to set the host to Unprovisioned, or when its write marking the
    host as provisioned failed. A failure of the bootstrap sequence that is
    within the retry budget, and a failure to fetch the task's data, give
    nil. *)
Theorem provisionHost_error D ctx w :
  let r := provisionHost D ctx w in
  let new := added (trace (sys w)) (trace (sys (snd r))) in
  is_Err (fst r) = existsb is_unprovision new || existsb mark_failed new.
Proof.
  cbv zeta. unfold provisionHost. rewrite !bind_eq.
  assert (H0 : within before_end w
                 (snd (runHostSetup D ctx (snd (provisionHost_begin D w))))).
  { assert (Hi : inside before_end w
                   (bind (provisionHost_begin D) (fun _ => runHostSetup D ctx))).
    { apply inside_bind; [| intros _].
      - apply (inside_provisionHost_begin D before_end); intros; split; reflexivity.
      - apply (inside_runHostSetup D before_end); intros; split; reflexivity. }
    exact (Hi w (within_refl _ _)). }
  destruct H0 as (_ & _ & _ & new0 & Ht0 & Hf0 & _).
  destruct (before_end_quiet _ Hf0) as (Hu0 & Hm0).
  destruct (runHostSetup D ctx (snd (provisionHost_begin D w))) as [r2 w2].
  cbn [fst snd] in *.
  destruct r2 as [u | err].
  - destruct (distro.Method (Distro (host w2)) ) eqn:Hm.
    2:{ unfold provisionHost_finish. rewrite bind_eq. cbn [get_host fst snd].
        rewrite Hm. cbn [ret fst snd]. rewrite Ht0, added_app, Hu0, Hm0. reflexivity. }
    all: rewrite provisionHost_finish_ok by (rewrite Hm; discriminate).
    all: destruct (spawn_part_cases D ctx w2) as (news & Hts & Hus & Hms);
      destruct (spawn_part D ctx w2) as [[[] | e] ws]; cbn [fst snd is_Err] in *.
    all: try (rewrite Hts, Ht0; new_entries_app; end_finish).
    all: destruct (provisionHost_mark_cases D ws) as (res & Htm & Hem);
      destruct (provisionHost_mark D ws) as [rm wm]; cbn [fst snd] in *;
      rewrite Hem, Htm, Hts, Ht0; destruct res; new_entries_app; end_finish.
  - unfold provisionHost_finish. rewrite bind_eq. cbn [get_host fst snd].
    destruct (shouldRetryProvisioning (host w2)).
    + cbn [ret fst snd]. rewrite Ht0, added_app, Hu0, Hm0. reflexivity.
    + rewrite !bind_eq. cbn [emit modify_sys fst snd].
      match goal with
      | |- context [mark_unprovisioned D ?v] =>
          destruct (mark_unprovisioned_trace D v) as (res & Htu);
          destruct (mark_unprovisioned D v) as [[] wu]
      end.
      cbn [ret fst snd sys trace is_Err] in *.
      rewrite Htu, Ht0. destruct res; new_entries_app; end_finish.
Qed.
